(** * Geography AI Tutor: the orchestration code, embedded and verified

    The repository is glue around external collaborators (pypdf, the
    LangChain text splitter, HuggingFace embeddings, FAISS, the Groq chat
    model, Streamlit).  The embedding keeps the glue as it is written and
    takes every collaborator as an oracle that either returns or raises; the
    theorems quantify over all oracles.

    Layout: Python values and strings, the state-and-exception monad, the
    collaborators, [document_processor.py], [rag_system.py], [app.py], then
    the theorems. *)

From stdpp Require Import base option list strings pretty gmap.
From Stdlib Require Import Ascii String ZArith.

Open Scope string_scope.
Open Scope list_scope.

(** ** Python strings

    A [str] is a [string] whose characters are the code points below 256. *)

(** [str.isspace] on one character: the code points below 256 for which
    CPython's [Py_UNICODE_ISSPACE] holds (TAB..CR, FS..US, SPACE, NEL,
    NBSP). *)
Definition isspace (c : ascii) : bool :=
  let n := nat_of_ascii c in
  (Nat.leb 9 n && Nat.leb n 13) || (Nat.leb 28 n && Nat.leb n 32)
  || Nat.eqb n 133 || Nat.eqb n 160.

Fixpoint lstrip (s : string) : string :=
  match s with
  | EmptyString => EmptyString
  | String c s' => if isspace c then lstrip s' else s
  end.

Fixpoint str_rev_onto (s acc : string) : string :=
  match s with
  | EmptyString => acc
  | String c s' => str_rev_onto s' (String c acc)
  end.

Definition str_rev (s : string) : string := str_rev_onto s EmptyString.

Definition rstrip (s : string) : string := str_rev (lstrip (str_rev s)).

(** [s.strip()] with no argument. *)
Definition strip (s : string) : string := rstrip (lstrip s).

(** Truth value of a [str] and of a [list]: non-empty. *)
Definition str_truthy (s : string) : bool :=
  match s with EmptyString => false | String _ _ => true end.

Definition list_truthy {A} (l : list A) : bool :=
  match l with [] => false | _ :: _ => true end.

(** [x is not None] *)
Definition is_not_None {A} (o : option A) : bool :=
  match o with Some _ => true | None => false end.

(** [s[:n]] for [n >= 0]. *)
Fixpoint str_take (n : nat) (s : string) : string :=
  match n, s with
  | S n', String c s' => String c (str_take n' s')
  | _, _ => EmptyString
  end.

(** A string all of whose characters are white space (the empty string
    included). *)
Fixpoint whitespace_only (s : string) : bool :=
  match s with
  | EmptyString => true
  | String c s' => isspace c && whitespace_only s'
  end.

(** ** Exceptions and outcomes

    [PyException] stands for an instance of Python's [Exception]; [exc_str]
    is [str(e)].  Streamlit's [st.rerun()] leaves the script through a
    control signal that is not an [Exception], so [except Exception] does
    not stop it: it is the separate outcome [Rerun]. *)
Record PyException := mkException { exc_str : string }.

Inductive Outcome (A : Type) : Type :=
| Returned (a : A)
| Raised (e : PyException)
| Rerun.
Arguments Returned {A} a.
Arguments Raised {A} e.
Arguments Rerun {A}.

(** ** The monad: state passing with exceptions *)
Definition M (S A : Type) : Type := S -> Outcome A * S.

Definition ret {S A} (a : A) : M S A := fun s => (Returned a, s).

Definition bind {S A B} (m : M S A) (k : A -> M S B) : M S B :=
  fun s =>
    match m s with
    | (Returned a, s') => k a s'
    | (Raised e, s') => (Raised e, s')
    | (Rerun, s') => (Rerun, s')
    end.

Definition raise {S A} (e : PyException) : M S A := fun s => (Raised e, s).

(** [try: body  except Exception as e: handler e]; the handler runs in the
    state the body left. *)
Definition try_except {S A} (body : M S A) (handler : PyException -> M S A)
  : M S A :=
  fun s =>
    match body s with
    | (Raised e, s') => handler e s'
    | r => r
    end.

Definition get {S} : M S S := fun s => (Returned s, s).
Definition modify {S} (f : S -> S) : M S unit := fun s => (Returned tt, f s).

(** The value of an oracle's answer, as a computation. *)
Definition of_outcome {S A} (o : Outcome A) : M S A := fun s => (o, s).

Declare Scope py_scope.
Delimit Scope py_scope with py.
Notation "x <- m ;; k" := (bind m (fun x => k))
  (at level 100, m at next level, right associativity) : py_scope.
Notation "m ;;; k" := (bind m (fun _ => k))
  (at level 100, right associativity) : py_scope.
Open Scope py_scope.

(** A method body runs on [(self, world)]; these run a computation on one
    side of the pair. *)
Definition io {O W A} (m : M W A) : M (O * W) A :=
  fun s => let '(r, w') := m (snd s) in (r, (fst s, w')).

Definition on_self {O W A} (m : M O A) : M (O * W) A :=
  fun s => let '(r, o') := m (fst s) in (r, (o', snd s)).

(** Calls a method on the object [o]: the outcome, the object as the call
    left it, and the world. *)
Definition call {O W A} (o : O) (m : M (O * W) A) : W -> (Outcome A * O) * W :=
  fun w => let '(r, (o', w')) := m (o, w) in ((r, o'), w').

(** The same when the caller keeps no reference to the object afterwards
    or the object is the caller's to rebind. *)
Definition call_ret {O W A} (o : O) (m : M (O * W) A) : M W (A * O) :=
  fun w =>
    match call o m w with
    | ((Returned a, o'), w') => (Returned (a, o'), w')
    | ((Raised e, _), w') => (Raised e, w')
    | ((Rerun, _), w') => (Rerun, w')
    end.

(** [for x in xs: body x]. *)
Fixpoint for_each {S A} (xs : list A) (body : A -> M S unit) : M S unit :=
  match xs with
  | [] => ret tt
  | x :: xs' => body x ;;; for_each xs' body
  end.

(** "\n" *)
Definition nl : string := String (ascii_of_nat 10) EmptyString.

(** ** Values exchanged with the collaborators *)

(** [langchain.schema.Document], of which the code uses [page_content]. *)
Record Document := mkDocument { page_content : string }.

(** The embedding model handle. *)
Record Embeddings := mkEmbeddings { model_name : string; device : string }.

(** A FAISS vector store in memory: opaque to the code; the segments it
    holds identify it here. *)
Record FAISS := mkFAISS { docstore : list Document }.

(** The Groq chat model handle. *)
Record ChatGroq := mkChatGroq { groq_api_key : string; groq_model : string }.

(** The [RetrievalQA] chain: the model, the store behind its retriever and
    the retriever's [k]. *)
Record RetrievalQA := mkRetrievalQA {
  chain_llm : ChatGroq;
  chain_store : FAISS;
  chain_k : nat
}.

(** The dict a chain call returns, at the two keys the code reads; [None]
    is a missing key. *)
Record ChainResult := mkChainResult {
  res_result : option string;
  res_source_documents : option (list Document)
}.

(** What a collaborator call gives back. *)
Inductive Result (A : Type) : Type :=
| Ok (a : A)
| Err (e : PyException).
Arguments Ok {A} a.
Arguments Err {A} e.

Definition of_result {S A} (r : Result A) : M S A :=
  fun s => match r with
           | Ok a => (Returned a, s)
           | Err e => (Raised e, s)
           end.

(** ** The world: the disk and the trace of calls and output *)

Inductive event : Type :=
| Stdout (msg : string)
| CallPdfReader (path : string)
| CallExtractText (page : nat)
| CallSplitText (size overlap : Z) (text : string)
| CallHuggingFaceEmbeddings
| CallFromDocuments (docs : list Document)
| CallSaveLocal (path : string)
| CallLoadLocal (path : string)
| CallSimilaritySearch (query : string) (k : Z)
| CallChatGroq
| CallFromChainType
| CallQAChain (query : string)
| StWarning (msg : string)
| StError (msg : string)
| StSuccess (msg : string)
| StSpinner (msg : string)
| StMarkdown (msg : string)
| StExpander (label : string)
| StMetric (label value : string).

Record World := mkWorld {
  disk : gmap string string;
  log : list event
}.

Definition emit (e : event) : M World unit :=
  modify (fun w => {| disk := disk w; log := log w ++ [e] |}).

Definition print (msg : string) : M World unit := emit (Stdout msg).

(** [os.path.exists]. *)
Definition path_exists (p : string) : M World bool :=
  fun w => (Returned (bool_decide (is_Some (disk w !! p))), w).

(** The collaborators, each as an oracle.  [PdfReader] gives the pages,
    each with the outcome of its [extract_text()]; [split_text] is the
    [RecursiveCharacterTextSplitter] built with a chunk size and an overlap
    and applied to a text; [FAISS_from_documents] embeds every segment and
    builds the store; [FAISS_save_local] may change the disk whether it
    succeeds or fails; [RetrievalQA_from_chain_type] includes building the
    prompt template. *)
Record Collaborators := mkCollaborators {
  PdfReader : string -> gmap string string -> Result (list (Result string));
  split_text : Z -> Z -> string -> Result (list string);
  HuggingFaceEmbeddings : string -> string -> Result Embeddings;
  FAISS_from_documents : list Document -> Embeddings -> Result FAISS;
  FAISS_save_local :
    FAISS -> string -> gmap string string -> Result unit * gmap string string;
  FAISS_load_local :
    string -> Embeddings -> gmap string string -> Result FAISS;
  similarity_search : FAISS -> string -> Z -> Result (list Document);
  ChatGroq_new : string -> string -> Result ChatGroq;
  RetrievalQA_from_chain_type : ChatGroq -> FAISS -> nat -> Result RetrievalQA;
  RetrievalQA_call : RetrievalQA -> string -> Result ChainResult
}.

Section CollaboratorCalls.
Variable lib : Collaborators.

Definition new_embeddings : M World Embeddings :=
  emit CallHuggingFaceEmbeddings ;;;
  of_result (HuggingFaceEmbeddings lib
               "sentence-transformers/all-MiniLM-L6-v2" "cpu").

Definition open_pdf (path : string) : M World (list (Result string)) :=
  emit (CallPdfReader path) ;;;
  w <- get ;;
  of_result (PdfReader lib path (disk w)).

Definition page_extract_text (i : nat) (page : Result string)
  : M World string :=
  emit (CallExtractText i) ;;; of_result page.

Definition splitter_split_text (size overlap : Z) (text : string)
  : M World (list string) :=
  emit (CallSplitText size overlap text) ;;;
  of_result (split_text lib size overlap text).

Definition faiss_from_documents (docs : list Document) (emb : Embeddings)
  : M World FAISS :=
  emit (CallFromDocuments docs) ;;;
  of_result (FAISS_from_documents lib docs emb).

Definition faiss_save_local (vs : FAISS) (path : string) : M World unit :=
  fun w =>
    let '(r, d') := FAISS_save_local lib vs path (disk w) in
    of_result r {| disk := d'; log := log w ++ [CallSaveLocal path] |}.

Definition faiss_load_local (path : string) (emb : Embeddings)
  : M World FAISS :=
  emit (CallLoadLocal path) ;;;
  w <- get ;;
  of_result (FAISS_load_local lib path emb (disk w)).

Definition faiss_similarity_search (vs : FAISS) (query : string) (k : Z)
  : M World (list Document) :=
  emit (CallSimilaritySearch query k) ;;;
  of_result (similarity_search lib vs query k).

Definition new_chat_groq (key model : string) : M World ChatGroq :=
  emit CallChatGroq ;;; of_result (ChatGroq_new lib key model).

Definition new_retrieval_qa (l : ChatGroq) (vs : FAISS) (k : nat)
  : M World RetrievalQA :=
  emit CallFromChainType ;;;
  of_result (RetrievalQA_from_chain_type lib l vs k).

Definition invoke_chain (chain : RetrievalQA) (query : string)
  : M World ChainResult :=
  emit (CallQAChain query) ;;; of_result (RetrievalQA_call lib chain query).
End CollaboratorCalls.

(** ** document_processor.py: class DocumentProcessor *)
Module DocumentProcessor.

Record t := mk {
  pdf_path : string;
  chunk_size : Z;
  chunk_overlap : Z;
  embeddings : Embeddings;
  vector_store : option FAISS
}.

Definition set_vector_store (v : option FAISS) (self : t) : t :=
  {| pdf_path := pdf_path self; chunk_size := chunk_size self;
     chunk_overlap := chunk_overlap self; embeddings := embeddings self;
     vector_store := v |}.

Section Methods.
Variable lib : Collaborators.

(** [__init__(self, pdf_path, chunk_size=1000, chunk_overlap=200)] *)
Definition init (path : string) (size overlap : Z) : M World t :=
  emb <- new_embeddings lib ;;
  ret {| pdf_path := path; chunk_size := size; chunk_overlap := overlap;
         embeddings := emb; vector_store := None |}.

(** [for page in reader.pages: text += page.extract_text() + "\n"] *)
Fixpoint extract_pages (pages : list (Result string)) (i : nat)
    (text : string) : M World string :=
  match pages with
  | [] => ret text
  | page :: rest =>
      t <- page_extract_text i page ;;
      extract_pages rest (S i) (text +:+ (t +:+ nl))
  end.

Definition extract_text_from_pdf : M (t * World) string :=
  try_except
    (self <- on_self get ;;
     pages <- io (open_pdf lib (pdf_path self)) ;;
     io (extract_pages pages 0 ""))
    (fun e =>
       io (print ("Error extracting text from PDF: " +:+ exc_str e)) ;;;
       ret "").

Definition split_text_into_chunks (text : string)
  : M (t * World) (list Document) :=
  self <- on_self get ;;
  chunks <- io (splitter_split_text lib (chunk_size self)
                  (chunk_overlap self) text) ;;
  ret (map mkDocument chunks).

Definition create_vector_store (documents : list Document)
  : M (t * World) (option FAISS) :=
  try_except
    (self <- on_self get ;;
     vs <- io (faiss_from_documents lib documents (embeddings self)) ;;
     ret (Some vs))
    (fun e =>
       io (print ("Error creating vector store: " +:+ exc_str e)) ;;;
       ret None).

Definition save_vector_store (vs : FAISS) (save_path : string)
  : M (t * World) unit :=
  try_except
    (io (faiss_save_local lib vs save_path) ;;;
     io (print ("Vector store saved to " +:+ save_path)))
    (fun e => io (print ("Error saving vector store: " +:+ exc_str e))).

Definition load_vector_store (load_path : string)
  : M (t * World) (option FAISS) :=
  try_except
    (self <- on_self get ;;
     vs <- io (faiss_load_local lib load_path (embeddings self)) ;;
     io (print ("Vector store loaded from " +:+ load_path)) ;;;
     ret (Some vs))
    (fun e =>
       io (print ("Error loading vector store: " +:+ exc_str e)) ;;;
       ret None).

Definition process_document (save : bool) : M (t * World) (option FAISS) :=
  io (print "Extracting text from PDF...") ;;;
  text <- extract_text_from_pdf ;;
  if negb (str_truthy text) then
    io (print "No text extracted from PDF") ;;;
    ret None
  else
    io (print "Splitting text into chunks...") ;;;
    documents <- split_text_into_chunks text ;;
    io (print ("Created " +:+ pretty (List.length documents) +:+ " chunks")) ;;;
    io (print "Creating vector store...") ;;;
    vs <- create_vector_store documents ;;
    match vs with
    | Some store =>
        if save then save_vector_store store "vector_store" else ret tt
    | None => ret tt
    end ;;;
    on_self (modify (set_vector_store vs)) ;;;
    ret vs.
End Methods.
End DocumentProcessor.

(** ** document_processor.py: class GeographyRAGSystem

    The file carries, after its marker [# === rag_system (1).py ===], an
    earlier [GeographyRAGSystem]; its constructor, [load_vector_store] and
    [retrieve_relevant_documents] are embedded here. *)
Module GeographyRAGSystem_v1.

(** The [Groq] client handle. *)
Record GroqClient := mkGroqClient { client_key : string }.

Record t := mk {
  groq_client : GroqClient;
  embeddings : Embeddings;
  vector_store : option FAISS;
  vector_store_path : string
}.

Definition set_vector_store (v : option FAISS) (self : t) : t :=
  {| groq_client := groq_client self; embeddings := embeddings self;
     vector_store := v; vector_store_path := vector_store_path self |}.

Section Methods.
Variable lib : Collaborators.
(** [Groq(api_key=...)], which this class alone uses. *)
Variable Groq_new : string -> Result GroqClient.

Definition load_vector_store : M (t * World) unit :=
  try_except
    (self <- on_self get ;;
     found <- io (path_exists (vector_store_path self)) ;;
     if (found : bool) then
       vs <- io (faiss_load_local lib (vector_store_path self)
                   (embeddings self)) ;;
       on_self (modify (set_vector_store (Some vs))) ;;;
       io (print "Vector store loaded successfully!")
     else
       io (print "Vector store not found. Please process documents first."))
    (fun e => io (print ("Error loading vector store: " +:+ exc_str e))).

(** [__init__(self, groq_api_key, vector_store_path="vector_store")] *)
Definition init (key path : string) : M World t :=
  client <- of_result (Groq_new key) ;;
  emb <- new_embeddings lib ;;
  r <- call_ret {| groq_client := client; embeddings := emb;
                   vector_store := None; vector_store_path := path |}
         load_vector_store ;;
  ret (snd r).

(** [retrieve_relevant_documents(self, query, k=3)] *)
Definition retrieve_relevant_documents (query : string) (k : Z)
  : M (t * World) (list string) :=
  self <- on_self get ;;
  match vector_store self with
  | None => ret []
  | Some vs =>
      try_except
        (docs <- io (faiss_similarity_search lib vs query k) ;;
         ret (map page_content docs))
        (fun e =>
           io (print ("Error retrieving documents: " +:+ exc_str e)) ;;;
           ret [])
  end.
End Methods.

(** *** Answering with the Groq client

    [create_context], [generate_response], [get_streaming_response] and
    [answer_question].  The sampling parameters of the completion call
    (temperature, max_tokens, top_p) are constants that the code passes on
    and are left out. *)

Definition no_information : string :=
  "No relevant information found in the geography textbook.".

Definition context_header : string :=
  "Based on the NCERT Class 10 Geography textbook:" +:+ nl +:+ nl.

(** [f"Reference {i}:\n{doc}\n\n"] *)
Definition reference (i : nat) (doc : string) : string :=
  "Reference " +:+ pretty i +:+ ":" +:+ nl +:+ doc +:+ nl +:+ nl.

(** [for i, doc in enumerate(relevant_docs, 1): context += ...], from
    number [i] on. *)
Fixpoint add_references (i : nat) (docs : list string) (context : string)
  : string :=
  match docs with
  | [] => context
  | doc :: rest => add_references (S i) rest (context +:+ reference i doc)
  end.

Definition create_context (relevant_docs : list string) : string :=
  if negb (list_truthy relevant_docs) then no_information
  else add_references 1 relevant_docs context_header.

(** The twelve spaces that indent the prompt text in the source. *)
Definition margin : string := "            ".

Definition system_prompt : string :=
  "You are an AI geography tutor specializing in NCERT Class 10 Geography. "
  +:+ nl +:+ margin
  +:+ "Your role is to help students understand geographical concepts, processes, and phenomena."
  +:+ nl +:+ margin
  +:+ nl +:+ margin
  +:+ "Instructions:"
  +:+ nl +:+ margin
  +:+ "1. Use the provided context from the NCERT textbook to answer questions"
  +:+ nl +:+ margin
  +:+ "2. Provide clear, educational explanations suitable for Class 10 students"
  +:+ nl +:+ margin
  +:+ "3. Include relevant examples and real-world applications when possible"
  +:+ nl +:+ margin
  +:+ "4. If the context doesn't contain enough information, acknowledge this and provide general guidance"
  +:+ nl +:+ margin
  +:+ "5. Encourage further learning and exploration of the topic"
  +:+ nl +:+ margin
  +:+ "6. Use simple language that students can easily understand"
  +:+ nl +:+ margin.

(** The part of the user prompt that both methods share. *)
Definition user_prompt_head (query context : string) : string :=
  "Context from NCERT Class 10 Geography textbook:"
  +:+ nl +:+ margin +:+ context
  +:+ nl +:+ margin
  +:+ nl +:+ margin +:+ "Student Question: " +:+ query
  +:+ nl +:+ margin
  +:+ nl +:+ margin
  +:+ "Please provide a comprehensive answer based on the context provided.".

Definition user_prompt (query context : string) : string :=
  user_prompt_head query context
  +:+ " If the context is insufficient, "
  +:+ nl +:+ margin
  +:+ "provide what you can and suggest where the student might find more information.".

Definition streaming_user_prompt (query context : string) : string :=
  user_prompt_head query context.

Definition apology : string :=
  "I apologize, but I'm having trouble generating a response right now. Please try again.".

Definition completion_model : string := "llama-3.1-8b-instant".

(** What [answer_question] hands back: a string, or a generator, given
    here by the items it yields when it is iterated to the end. *)
Inductive Answer : Type :=
| Text (answer : string)
| Stream (items : list string).

Section Answering.
Variable lib : Collaborators.
(** [groq_client.chat.completions.create(model, messages, stream=False)]
    followed by [.choices[0].message.content], given the model and the
    contents of the system and of the user message. *)
Variable chat_create : string -> string -> string -> Result string.
(** The same with [stream=True]: the chunks of the completion, each with
    its [choices[0].delta.content] ([None] when it has none) or the
    exception that reading it raises. *)
Variable chat_stream :
  string -> string -> string -> Result (list (Result (option string))).

Definition generate_response (query context : string)
  : M (t * World) string :=
  try_except
    (of_result (chat_create completion_model system_prompt
                  (user_prompt query context)))
    (fun e =>
       io (print ("Error generating response: " +:+ exc_str e)) ;;;
       ret apology).

(** [for chunk in completion: if chunk.choices[0].delta.content: yield it],
    inside the [try]. *)
Fixpoint stream_chunks (chunks : list (Result (option string)))
  : list string :=
  match chunks with
  | [] => []
  | Ok (Some content) :: rest =>
      if str_truthy content then content :: stream_chunks rest
      else stream_chunks rest
  | Ok None :: rest => stream_chunks rest
  | Err e :: _ => ["Error generating response: " +:+ exc_str e]
  end.

(** The items of the generator; no part of its body runs before the first
    item is asked for. *)
Definition get_streaming_response (query context : string) : list string :=
  match chat_stream completion_model system_prompt
          (streaming_user_prompt query context) with
  | Ok chunks => stream_chunks chunks
  | Err e => ["Error generating response: " +:+ exc_str e]
  end.

(** [answer_question(self, query, use_streaming=False)] *)
Definition answer_question (query : string) (use_streaming : bool)
  : M (t * World) Answer :=
  relevant_docs <- retrieve_relevant_documents lib query 3 ;;
  let context := create_context relevant_docs in
  if use_streaming then ret (Stream (get_streaming_response query context))
  else
    response <- generate_response query context ;;
    ret (Text response).
End Answering.
End GeographyRAGSystem_v1.

(** ** rag_system.py: class GeographyRAGSystem *)
Module GeographyRAGSystem.

Record t := mk {
  api_key : string;
  embeddings : Embeddings;
  vector_store : option FAISS;
  llm : option ChatGroq;
  qa_chain : option RetrievalQA
}.

Definition set_vector_store (v : option FAISS) (self : t) : t :=
  {| api_key := api_key self; embeddings := embeddings self;
     vector_store := v; llm := llm self; qa_chain := qa_chain self |}.

Definition set_llm (v : option ChatGroq) (self : t) : t :=
  {| api_key := api_key self; embeddings := embeddings self;
     vector_store := vector_store self; llm := v;
     qa_chain := qa_chain self |}.

Definition set_qa_chain (v : option RetrievalQA) (self : t) : t :=
  {| api_key := api_key self; embeddings := embeddings self;
     vector_store := vector_store self; llm := llm self; qa_chain := v |}.

Definition not_initialized_message : string :=
  "Sorry, the system is not properly initialized. Please check if the vector store exists.".

Definition provenance_note : string :=
  nl +:+ nl +:+
  "*This answer is based on NCERT Class 10 Geography textbook content.*".

(** [str(KeyError('result'))] *)
Definition key_error_result : PyException := mkException "'result'".

Section Methods.
Variable lib : Collaborators.

Definition _create_qa_chain : M (t * World) unit :=
  self <- on_self get ;;
  match vector_store self, llm self with
  | Some vs, Some model =>
      chain <- io (new_retrieval_qa lib model vs 4) ;;
      on_self (modify (set_qa_chain (Some chain)))
  | _, _ => ret tt
  end.

Definition _initialize_components : M (t * World) unit :=
  try_except
    (self <- on_self get ;;
     model <- io (new_chat_groq lib (api_key self) "openai/gpt-oss-20b") ;;
     on_self (modify (set_llm (Some model))) ;;;
     found <- io (path_exists "vector_store") ;;
     if (found : bool) then
       vs <- io (faiss_load_local lib "vector_store" (embeddings self)) ;;
       on_self (modify (set_vector_store (Some vs))) ;;;
       _create_qa_chain
     else ret tt)
    (fun e =>
       io (print ("Error initializing components: " +:+ exc_str e))).

(** [__init__(self, api_key)] *)
Definition init (key : string) : M World t :=
  emb <- new_embeddings lib ;;
  r <- call_ret {| api_key := key; embeddings := emb;
                   vector_store := None; llm := None; qa_chain := None |}
         _initialize_components ;;
  ret (snd r).

(** [retrieve_relevant_documents(self, query, k=4)] *)
Definition retrieve_relevant_documents (query : string) (k : Z)
  : M (t * World) (list Document) :=
  self <- on_self get ;;
  match vector_store self with
  | None => ret []
  | Some vs =>
      try_except
        (io (faiss_similarity_search lib vs query k))
        (fun e =>
           io (print ("Error retrieving documents: " +:+ exc_str e)) ;;;
           ret [])
  end.

Definition answer_question (question : string) : M (t * World) string :=
  self <- on_self get ;;
  match qa_chain self with
  | None => ret not_initialized_message
  | Some chain =>
      try_except
        (result <- io (invoke_chain lib chain question) ;;
         answer <- match res_result result with
                   | Some a => ret a
                   | None => raise key_error_result
                   end ;;
         let source_docs := default [] (res_source_documents result) in
         ret (if list_truthy source_docs
              then answer +:+ provenance_note
              else answer))
        (fun e => ret ("Error generating answer: " +:+ exc_str e))
  end.

Definition get_topic_suggestions : M (t * World) (list string) :=
  ret [ "Resources and Development";
        "Forest and Wildlife Resources";
        "Water Resources";
        "Agriculture";
        "Minerals and Energy Resources";
        "Manufacturing Industries";
        "Lifelines of National Economy";
        "Renewable and Non-renewable Resources";
        "Sustainable Development";
        "Conservation of Resources";
        "Types of Agriculture";
        "Major Crops in India";
        "Industrial Development";
        "Transportation and Communication";
        "International Trade" ].

Definition is_ready : M (t * World) bool :=
  self <- on_self get ;;
  ret (is_not_None (vector_store self) && is_not_None (qa_chain self)).
End Methods.
End GeographyRAGSystem.

(** *** The class as a state machine

    The invariant of the object, and its methods as the operations a caller
    can perform on it, one after the other; a caller may go on after a call
    that raised, so the object is taken as the call left it. *)
Module RagLifecycle.
Import GeographyRAGSystem.

Definition invariant (self : t) : Prop :=
  is_Some (qa_chain self) ->
  is_Some (vector_store self) /\ is_Some (llm self).

Inductive operation : Type :=
| Op_initialize_components
| Op_create_qa_chain
| Op_retrieve_relevant_documents (query : string) (k : Z)
| Op_answer_question (question : string)
| Op_get_topic_suggestions
| Op_is_ready.

Section Operations.
Variable lib : Collaborators.

Definition perform (op : operation) : M (t * World) unit :=
  match op with
  | Op_initialize_components => _initialize_components lib
  | Op_create_qa_chain => _create_qa_chain lib
  | Op_retrieve_relevant_documents query k =>
      retrieve_relevant_documents lib query k ;;; ret tt
  | Op_answer_question question => answer_question lib question ;;; ret tt
  | Op_get_topic_suggestions => get_topic_suggestions ;;; ret tt
  | Op_is_ready => is_ready ;;; ret tt
  end.

Definition perform_all (ops : list operation) (s : t * World) : t * World :=
  fold_left (fun s op => snd (perform op s)) ops s.
End Operations.
End RagLifecycle.

(** ** app.py

    One execution of the script is [main] applied to the widget values of
    that execution.  Static markup (style sheet, headers, dividers, footer)
    and glyphs outside Latin-1 in labels are output only and are left out of
    the trace. *)
Module App.

(** [st.session_state]: a key is absent ([None]) until it is first set. *)
Record SessionState := mkSession {
  rag_system : option (option GeographyRAGSystem.t);
  vector_store_ready : option bool;
  chat_history : option (list (string * string));
  current_question : option string
}.

Definition set_rag_system v (s : SessionState) : SessionState :=
  {| rag_system := Some v; vector_store_ready := vector_store_ready s;
     chat_history := chat_history s;
     current_question := current_question s |}.

Definition set_vector_store_ready v (s : SessionState) : SessionState :=
  {| rag_system := rag_system s; vector_store_ready := Some v;
     chat_history := chat_history s;
     current_question := current_question s |}.

Definition set_chat_history v (s : SessionState) : SessionState :=
  {| rag_system := rag_system s;
     vector_store_ready := vector_store_ready s;
     chat_history := Some v; current_question := current_question s |}.

Definition set_current_question v (s : SessionState) : SessionState :=
  {| rag_system := rag_system s;
     vector_store_ready := vector_store_ready s;
     chat_history := chat_history s; current_question := v |}.

(** Reading [st.session_state.<name>]: an absent key raises. *)
Definition attr {W A} (name : string) (field : SessionState -> option A)
  : M (SessionState * W) A :=
  fun s =>
    match field (fst s) with
    | Some v => (Returned v, s)
    | None =>
        (Raised (mkException
                   ("st.session_state has no attribute " +:+ name)), s)
    end.

(** The widget values of one execution: which sample buttons are pressed,
    what the text area returns for a given default value, and the two
    buttons of the main column. *)
Record Widgets := mkWidgets {
  sample_button : string -> bool;
  question_input : string -> string;
  ask_button : bool;
  clear_button : bool
}.

Definition sample_questions : list string :=
  [ "What are renewable resources?";
    "Explain the importance of forests";
    "What is sustainable development?";
    "Types of agriculture in India";
    "What are the factors affecting agriculture?" ].

(** [st.rerun()] *)
Definition st_rerun {S A} : M S A := fun s => (Rerun, s).

Definition initialize_session_state : M (SessionState * World) unit :=
  on_self (modify (fun s =>
    {| rag_system := Some (default None (rag_system s));
       vector_store_ready := Some (default false (vector_store_ready s));
       chat_history := Some (default [] (chat_history s));
       current_question := current_question s |})).

(** [for i, (question, answer) in enumerate(history[-5:])] *)
Fixpoint display_entries (total : nat) (i : nat)
    (entries : list (string * string)) : M (SessionState * World) unit :=
  match entries with
  | [] => ret tt
  | (question, answer) :: rest =>
      io (emit (StExpander
                  ("Q" +:+ pretty (Z.of_nat total - 4 + Z.of_nat i)%Z
                   +:+ ": " +:+ str_take 50 question +:+ "..."))) ;;;
      io (emit (StMarkdown ("**Question:** " +:+ question))) ;;;
      io (emit (StMarkdown ("**Answer:** " +:+ answer))) ;;;
      display_entries total (S i) rest
  end.

Definition display_chat_history : M (SessionState * World) unit :=
  history <- attr "chat_history" chat_history ;;
  if list_truthy history then
    display_entries (List.length history) 0
      (drop (List.length history - 5) history)
  else ret tt.

Section Script.
Variable lib : Collaborators.

Definition setup_rag_system
  : M (SessionState * World) (option GeographyRAGSystem.t) :=
  let key := "your key" in
  let finish : M (SessionState * World) (option GeographyRAGSystem.t) :=
    rag <- io (GeographyRAGSystem.init lib key) ;;
    ret (Some rag) in
  try_except
    (found <- io (path_exists "vector_store") ;;
     if negb found then
       io (emit (StWarning "Vector store not found. Processing document...")) ;;;
       io (emit (StSpinner "Processing NCERT Geography PDF... This may take a few minutes.")) ;;;
       processor <- io (DocumentProcessor.init lib
                          "Geography_AI_Tutor_RAG-based_Personalized_Learning_System.pdf"
                          1000 200) ;;
       r <- io (call_ret processor
                  (DocumentProcessor.process_document lib true)) ;;
       match fst r with
       | Some _ =>
           io (emit (StSuccess "Document processed successfully!")) ;;;
           on_self (modify (set_vector_store_ready true)) ;;;
           finish
       | None =>
           io (emit (StError "Failed to process document.")) ;;;
           ret None
       end
     else
       on_self (modify (set_vector_store_ready true)) ;;;
       finish)
    (fun e =>
       io (emit (StError ("Error setting up RAG system: " +:+ exc_str e))) ;;;
       ret None).

(** [st.session_state.rag_system.answer_question(question)] *)
Definition session_answer_question (question : string)
  : M (SessionState * World) string :=
  rag <- attr "rag_system" rag_system ;;
  match rag with
  | None =>
      raise (mkException
               "'NoneType' object has no attribute 'answer_question'")
  | Some obj =>
      fun s =>
        let '((r, obj'), w') :=
          call obj (GeographyRAGSystem.answer_question lib question)
            (snd s) in
        (r, (set_rag_system (Some obj') (fst s), w'))
  end.

(** [st.session_state.rag_system.get_topic_suggestions()] *)
Definition session_topic_suggestions (obj : GeographyRAGSystem.t)
  : M (SessionState * World) (list string) :=
  fun s =>
    let '((r, obj'), w') :=
      call obj (GeographyRAGSystem.get_topic_suggestions) (snd s) in
    (r, (set_rag_system (Some obj') (fst s), w')).

(** The sidebar's sample buttons (lines 129-131). *)
Definition sidebar (ui : Widgets) : M (SessionState * World) unit :=
  for_each sample_questions (fun question =>
    if sample_button ui question
    then on_self (modify (set_current_question (Some question)))
    else ret tt).

(** "Setup RAG system if not already done" (lines 133-136). *)
Definition ensure_rag_system : M (SessionState * World) unit :=
  rag <- attr "rag_system" rag_system ;;
  match rag with
  | None =>
      io (emit (StSpinner "Initializing AI Tutor...")) ;;;
      rag' <- setup_rag_system ;;
      on_self (modify (set_rag_system rag'))
  | Some _ => ret tt
  end.

(** "Handle sample question selection first" (lines 148-152). *)
Definition take_default_question : M (SessionState * World) string :=
  session <- on_self get ;;
  match current_question session with
  | Some q =>
      on_self (modify (set_current_question None)) ;;;
      ret q
  | None => ret ""
  end.

(** The text area and the override that follows it (lines 154-165). *)
Definition effective_question (ui : Widgets) (default_question : string)
  : string :=
  let question := question_input ui default_question in
  if str_truthy default_question && negb (str_truthy (strip question))
  then default_question
  else question.

(** The Clear History button (lines 172-175). *)
Definition clear_history (ui : Widgets) : M (SessionState * World) unit :=
  if clear_button ui then
    on_self (modify (set_chat_history [])) ;;;
    st_rerun
  else ret tt.

(** "Process question" (lines 177-197). *)
Definition process_question (ui : Widgets) (question : string)
  : M (SessionState * World) unit :=
  if ask_button ui then
    if str_truthy (strip question) then
      io (emit (StSpinner "Thinking...")) ;;;
      try_except
        (answer <- session_answer_question question ;;
         io (emit (StMarkdown ("**Question:** " +:+ question))) ;;;
         io (emit (StMarkdown ("**Answer:** " +:+ answer))) ;;;
         history <- attr "chat_history" chat_history ;;
         on_self (modify (set_chat_history
                            (history ++ [(question, answer)]))))
        (fun e =>
           io (emit (StError
                       ("Error generating answer: " +:+ exc_str e))))
    else io (emit (StWarning "Please enter a question first!"))
  else ret tt.

(** The second column: the two metrics and the topics (lines 199-213). *)
Definition quick_stats : M (SessionState * World) unit :=
  history <- attr "chat_history" chat_history ;;
  io (emit (StMetric "Questions Asked"
              (pretty (List.length history)))) ;;;
  ready <- attr "vector_store_ready" vector_store_ready ;;
  io (emit (StMetric "Vector Store Status"
              (if (ready : bool) then "Ready" else "Not Ready"))) ;;;
  rag <- attr "rag_system" rag_system ;;
  match rag with
  | Some obj =>
      topics <- session_topic_suggestions obj ;;
      for_each (take 6 topics) (fun topic =>
        io (emit (StMarkdown topic)))
  | None => ret tt
  end.

(** [main()], the blocks above in the order of the script. *)
Definition main (ui : Widgets) : M (SessionState * World) unit :=
  initialize_session_state ;;;
  sidebar ui ;;;
  ensure_rag_system ;;;
  rag <- attr "rag_system" rag_system ;;
  match rag with
  | None =>
      io (emit (StError
                  "Failed to initialize the AI tutor. Please check the setup."))
  | Some _ =>
      default_question <- take_default_question ;;
      let question := effective_question ui default_question in
      clear_history ui ;;;
      process_question ui question ;;;
      quick_stats ;;;
      history <- attr "chat_history" chat_history ;;
      if list_truthy history then display_chat_history else ret tt
  end.

(** The widget values of the execution that [st.rerun()] starts: no
    button is pressed, the text area is as it was. *)
Definition after_rerun (ui : Widgets) : Widgets :=
  {| sample_button := fun _ => false;
     question_input := question_input ui;
     ask_button := false;
     clear_button := false |}.

(** Streamlit's script runner for one user action: [main], and once
    more from the top when [main] asked for a rerun. *)
Definition run_script (ui : Widgets) : M (SessionState * World) unit :=
  fun s =>
    match main ui s with
    | (Rerun, s') => main (after_rerun ui) s'
    | r => r
    end.
End Script.
End App.

(** ** test_system.py

    The console output is kept as it is, the glyphs outside Latin-1 that
    open some lines left out with the space after them.  The Groq key that
    the file carries is a parameter. *)
Module TestSystem.

(** ["=" * 50] *)
Definition rule : string :=
  "==================================================".

Definition pdf_path : string :=
  "Geography_AI_Tutor_RAG-based_Personalized_Learning_System.pdf".

Definition test_queries : list string :=
  [ "What are renewable resources?";
    "Explain the importance of forests";
    "What is sustainable development?" ].

(** How [main] ends: by returning, or by [sys.exit(code)]. *)
Inductive Ending : Type :=
| Finished
| Exited (code : Z).

Section Tests.
Variable lib : Collaborators.
Variable api_key : string.

(** The body of the [try] once the processor exists. *)
Definition process_with (processor : DocumentProcessor.t)
  : M World (bool * DocumentProcessor.t) :=
  call_ret processor
    (io (print "Document processor initialized") ;;;
     text <- DocumentProcessor.extract_text_from_pdf lib ;;
     if str_truthy text then
       io (print ("Text extracted successfully ("
                  +:+ pretty (String.length text) +:+ " characters)")) ;;;
       documents <- DocumentProcessor.split_text_into_chunks lib text ;;
       io (print ("Text split into " +:+ pretty (List.length documents)
                  +:+ " chunks")) ;;;
       vector_store <- DocumentProcessor.create_vector_store lib documents ;;
       match vector_store with
       | Some store =>
           io (print "Vector store created successfully") ;;;
           DocumentProcessor.save_vector_store lib store "vector_store" ;;;
           io (print "Vector store saved successfully") ;;;
           ret true
       | None =>
           io (print "Failed to create vector store") ;;;
           ret false
       end
     else
       io (print "Failed to extract text from PDF") ;;;
       ret false).

Definition test_document_processing : M World bool :=
  print rule ;;;
  print "Testing Document Processing..." ;;;
  print rule ;;;
  try_except
    (found <- path_exists pdf_path ;;
     if negb found then
       print ("PDF file not found: " +:+ pdf_path) ;;;
       ret false
     else
       print ("PDF file found: " +:+ pdf_path) ;;;
       processor <- DocumentProcessor.init lib pdf_path 1000 200 ;;
       r <- process_with processor ;;
       ret (fst r))
    (fun e =>
       print ("Error in document processing: " +:+ exc_str e) ;;;
       ret false).

(** One turn of the loop over the test queries: [true] to go on, [false]
    when the function has returned [False]. *)
Definition test_query (i : nat) (query : string)
  : M (GeographyRAGSystem.t * World) bool :=
  io (print (nl +:+ "--- Test Query " +:+ pretty i +:+ " ---")) ;;;
  io (print ("Question: " +:+ query)) ;;;
  try_except
    (relevant_docs <-
       GeographyRAGSystem.retrieve_relevant_documents lib query 4 ;;
     io (print ("Retrieved " +:+ pretty (List.length relevant_docs)
                +:+ " relevant documents")) ;;;
     answer <- GeographyRAGSystem.answer_question lib query ;;
     if str_truthy answer && Nat.ltb 50 (String.length answer) then
       io (print ("Generated answer ("
                  +:+ pretty (String.length answer) +:+ " characters)")) ;;;
       io (print ("Answer preview: " +:+ str_take 100 answer +:+ "...")) ;;;
       ret true
     else
       io (print "Failed to generate meaningful answer") ;;;
       ret false)
    (fun e =>
       io (print ("Error processing query '" +:+ query +:+ "': "
                  +:+ exc_str e)) ;;;
       ret false).

(** [for i, query in enumerate(test_queries, 1)], from number [i] on. *)
Fixpoint test_each_query (i : nat) (queries : list string)
  : M (GeographyRAGSystem.t * World) bool :=
  match queries with
  | [] => ret true
  | query :: rest =>
      passed <- test_query i query ;;
      if (passed : bool) then test_each_query (S i) rest else ret false
  end.

Definition test_rag_system : M World bool :=
  print (nl +:+ rule) ;;;
  print "Testing RAG System..." ;;;
  print rule ;;;
  try_except
    (rag_system <- GeographyRAGSystem.init lib api_key ;;
     print "RAG system initialized" ;;;
     r <- call_ret rag_system (test_each_query 1 test_queries) ;;
     if fst r then
       print (nl +:+ "All RAG system tests passed!") ;;;
       ret true
     else ret false)
    (fun e =>
       print ("Error in RAG system testing: " +:+ exc_str e) ;;;
       ret false).

(** [for i, topic in enumerate(topics, 1): print(f"  {i}. {topic}")] *)
Fixpoint print_topics (i : nat) (topics : list string) : M World unit :=
  match topics with
  | [] => ret tt
  | topic :: rest =>
      print ("  " +:+ pretty i +:+ ". " +:+ topic) ;;;
      print_topics (S i) rest
  end.

Definition test_topic_suggestions : M World bool :=
  print (nl +:+ rule) ;;;
  print "Testing Topic Suggestions..." ;;;
  print rule ;;;
  try_except
    (rag_system <- GeographyRAGSystem.init lib api_key ;;
     r <- call_ret rag_system GeographyRAGSystem.get_topic_suggestions ;;
     print ("Retrieved " +:+ pretty (List.length (fst r))
            +:+ " topic suggestions:") ;;;
     print_topics 1 (fst r) ;;;
     ret true)
    (fun e =>
       print ("Error testing topic suggestions: " +:+ exc_str e) ;;;
       ret false).

Definition main : M World Ending :=
  print "Geography RAG System - Test Suite" ;;;
  print rule ;;;
  vector_store_exists <- path_exists "vector_store" ;;
  processed <-
    (if negb vector_store_exists then
       print "Vector store not found. Running document processing test..." ;;;
       test_document_processing
     else
       print "Vector store already exists, skipping document processing test" ;;;
       ret true) ;;
  if negb processed then
    print (nl +:+ "Document processing test failed!") ;;;
    ret (Exited 1)
  else
    answered <- test_rag_system ;;
    if negb answered then
      print (nl +:+ "RAG system test failed!") ;;;
      ret (Exited 1)
    else
      suggested <- test_topic_suggestions ;;
      if negb suggested then
        print (nl +:+ "Topic suggestions test failed!") ;;;
        ret (Exited 1)
      else
        print (nl +:+ rule) ;;;
        print "All tests passed successfully!" ;;;
        print "The Geography RAG system is ready to use." ;;;
        print "Run 'streamlit run app.py' to start the web interface." ;;;
        print rule ;;;
        ret Finished.
End Tests.
End TestSystem.

(** ** Sample collaborators

    Two concrete sets of oracles on which the statements are instantiated:
    one where every call succeeds, one where every call that can fail
    does. *)
Module Sample.

Definition working : Collaborators :=
  {| PdfReader := fun _ _ => Ok [Ok "Resources"; Ok "Agriculture"];
     split_text := fun _ _ text => Ok [text];
     HuggingFaceEmbeddings := fun model dev => Ok (mkEmbeddings model dev);
     FAISS_from_documents := fun docs _ => Ok (mkFAISS docs);
     FAISS_save_local := fun _ path d => (Ok tt, <[path := "index"]> d);
     FAISS_load_local := fun path _ d =>
       match d !! path with
       | Some _ => Ok (mkFAISS [mkDocument "Resources"])
       | None => Err (mkException "no such index")
       end;
     similarity_search := fun vs _ _ => Ok (docstore vs);
     ChatGroq_new := fun key model => Ok (mkChatGroq key model);
     RetrievalQA_from_chain_type := fun model vs k =>
       Ok (mkRetrievalQA model vs k);
     RetrievalQA_call := fun chain query =>
       Ok (mkChainResult (Some ("About " +:+ query))
             (Some (docstore (chain_store chain)))) |}.

Definition failing : Collaborators :=
  {| PdfReader := fun _ _ => Ok [Ok "Resources"; Err (mkException "bad page")];
     split_text := fun _ _ text => Ok [text];
     HuggingFaceEmbeddings := fun model dev => Ok (mkEmbeddings model dev);
     FAISS_from_documents := fun _ _ => Err (mkException "out of memory");
     FAISS_save_local := fun _ path d => (Ok tt, <[path := "index"]> d);
     FAISS_load_local := fun _ _ _ => Err (mkException "no such index");
     similarity_search := fun _ _ _ => Err (mkException "search failed");
     ChatGroq_new := fun key model => Ok (mkChatGroq key model);
     RetrievalQA_from_chain_type := fun model vs k =>
       Ok (mkRetrievalQA model vs k);
     RetrievalQA_call := fun _ _ => Err (mkException "rate limit") |}.

(** Creation fails although the text was extracted. *)
Definition no_embedding : Collaborators :=
  {| PdfReader := PdfReader working;
     split_text := split_text working;
     HuggingFaceEmbeddings := HuggingFaceEmbeddings working;
     FAISS_from_documents := fun _ _ => Err (mkException "out of memory");
     FAISS_save_local := FAISS_save_local working;
     FAISS_load_local := FAISS_load_local working;
     similarity_search := similarity_search working;
     ChatGroq_new := ChatGroq_new working;
     RetrievalQA_from_chain_type := RetrievalQA_from_chain_type working;
     RetrievalQA_call := RetrievalQA_call working |}.

Definition empty_world : World := {| disk := ∅; log := [] |}.

Definition indexed_world : World :=
  {| disk := {[ "vector_store" := "index" ]}; log := [] |}.

Definition embeddings : Embeddings :=
  mkEmbeddings "sentence-transformers/all-MiniLM-L6-v2" "cpu".

Definition store : FAISS := mkFAISS [mkDocument "Resources"].

Definition model : ChatGroq := mkChatGroq "your key" "openai/gpt-oss-20b".

Definition chain : RetrievalQA := mkRetrievalQA model store 4.

(** A system with its index loaded, and one without. *)
Definition ready_system : GeographyRAGSystem.t :=
  {| GeographyRAGSystem.api_key := "your key";
     GeographyRAGSystem.embeddings := embeddings;
     GeographyRAGSystem.vector_store := Some store;
     GeographyRAGSystem.llm := Some model;
     GeographyRAGSystem.qa_chain := Some chain |}.

Definition bare_system : GeographyRAGSystem.t :=
  {| GeographyRAGSystem.api_key := "your key";
     GeographyRAGSystem.embeddings := embeddings;
     GeographyRAGSystem.vector_store := None;
     GeographyRAGSystem.llm := Some model;
     GeographyRAGSystem.qa_chain := None |}.

Definition bare_system_v1 : GeographyRAGSystem_v1.t :=
  {| GeographyRAGSystem_v1.groq_client :=
       GeographyRAGSystem_v1.mkGroqClient "your key";
     GeographyRAGSystem_v1.embeddings := embeddings;
     GeographyRAGSystem_v1.vector_store := None;
     GeographyRAGSystem_v1.vector_store_path := "vector_store" |}.

Definition processor : DocumentProcessor.t :=
  {| DocumentProcessor.pdf_path := "textbook.pdf";
     DocumentProcessor.chunk_size := 1000;
     DocumentProcessor.chunk_overlap := 200;
     DocumentProcessor.embeddings := embeddings;
     DocumentProcessor.vector_store := None |}.

(** A session that is set up and has one exchange in its history. *)
Definition session : App.SessionState :=
  {| App.rag_system := Some (Some ready_system);
     App.vector_store_ready := Some true;
     App.chat_history := Some [("What is soil?", "About What is soil?")];
     App.current_question := None |}.

(** The user typed [text] and pressed Ask Question. *)
Definition ask (text : string) : App.Widgets :=
  {| App.sample_button := fun _ => false;
     App.question_input := fun _ => text;
     App.ask_button := true;
     App.clear_button := false |}.

(** The user pressed Clear History. *)
Definition clear : App.Widgets :=
  {| App.sample_button := fun _ => false;
     App.question_input := fun default_question => default_question;
     App.ask_button := false;
     App.clear_button := true |}.
End Sample.

(** ** Vocabulary of the statements *)

(** The text the page loop accumulates over pages that all extract. *)
Definition joined (texts : list string) (text : string) : string :=
  fold_left (fun acc t => acc +:+ (t +:+ nl)) texts text.

(** [text] occurs in [answer]: one of the suffixes of [answer] starts with
    it. *)
Fixpoint occurs (text answer : string) : bool :=
  String.prefix text answer
  || match answer with
     | EmptyString => false
     | String _ rest => occurs text rest
     end.

(** An answer that keeps the cause of a failure to itself: the text of the
    exception does not occur in it. *)
Definition hides_cause (e : PyException) (answer : string) : bool :=
  negb (occurs (exc_str e) answer).

(** The events of the extraction. *)
Definition extraction_event (e : event) : Prop :=
  match e with
  | CallPdfReader _ | CallExtractText _ | Stdout _ => True
  | _ => False
  end.

(** A computation preserves [R] when every run ends by returning or by
    raising, never by asking for a rerun, and takes the state to an
    [R]-related one. *)
Definition preserves {S A} (R : relation S) (m : M S A) : Prop :=
  forall s, fst (m s) <> Rerun /\ R s (snd (m s)).

(** The trace grows, and by events satisfying [P] only. *)
Definition grows (P : event -> Prop) (w w' : World) : Prop :=
  exists evs, log w' = log w ++ evs /\ Forall P evs.

(** Not a retrieval call and not a completion call. *)
Definition no_query_call (e : event) : Prop :=
  match e with
  | CallSimilaritySearch _ _ | CallQAChain _ => False
  | _ => True
  end.

(** A relation on worlds, on the states of a method or of the script. *)
Definition on_world {O} (R : relation World) : relation (O * World) :=
  fun s s' => R (snd s) (snd s').

(** The history the page shows: empty while the key is absent. *)
Definition history (s : App.SessionState) : list (string * string) :=
  default [] (App.chat_history s).

(** [current_question] after the sidebar: the last sample button pressed in
    this execution, else what an earlier execution left. *)
Definition pending_question (ui : App.Widgets) (s : App.SessionState)
  : option string :=
  fold_left (fun cur q => if App.sample_button ui q then Some q else cur)
    App.sample_questions (App.current_question s).

(** The value of [question] when the script reaches "Process question". *)
Definition submitted_question (ui : App.Widgets) (s : App.SessionState)
  : string :=
  App.effective_question ui (default "" (pending_question ui s)).

(** Output to the page. *)
Definition display_event (e : event) : Prop :=
  match e with
  | StWarning _ | StError _ | StSuccess _ | StSpinner _ | StMarkdown _
  | StExpander _ | StMetric _ _ => True
  | _ => False
  end.

(** The script's state moves quietly: events satisfying [P] only, and
    [current_question] and [chat_history] as they were. *)
Definition quietly (P : event -> Prop)
    (st st' : App.SessionState * World) : Prop :=
  grows P (snd st) (snd st')
  /\ App.current_question (fst st') = App.current_question (fst st)
  /\ App.chat_history (fst st') = App.chat_history (fst st).

(** What a rejected submission may do: events satisfying [P] only, and the
    history as it was, or emptied if Clear History was pressed. *)
Definition rejected (P : event -> Prop) (clear_pressed : bool)
    (st st' : App.SessionState * World) : Prop :=
  grows P (snd st) (snd st')
  /\ (history (fst st') = history (fst st)
      \/ (clear_pressed = true /\ history (fst st') = [])).

(** The session after [initialize_session_state]. *)
Definition initialized (s : App.SessionState) : App.SessionState :=
  {| App.rag_system := Some (default None (App.rag_system s));
     App.vector_store_ready :=
       Some (default false (App.vector_store_ready s));
     App.chat_history := Some (default [] (App.chat_history s));
     App.current_question := App.current_question s |}.

(** The session an execution leaves when Clear History was pressed. *)
Definition cleared (s : App.SessionState) : App.SessionState :=
  {| App.rag_system := Some (default None (App.rag_system s));
     App.vector_store_ready :=
       Some (default false (App.vector_store_ready s));
     App.chat_history := Some [];
     App.current_question := None |}.

(** What the redrawn page puts out after Clear History. *)
Definition redrawn (ready : bool) : list event :=
  [StMetric "Questions Asked" "0";
   StMetric "Vector Store Status" (if ready then "Ready" else "Not Ready");
   StMarkdown "Resources and Development";
   StMarkdown "Forest and Wildlife Resources";
   StMarkdown "Water Resources";
   StMarkdown "Agriculture";
   StMarkdown "Minerals and Energy Resources";
   StMarkdown "Manufacturing Industries"].

(** ** The page as a list of events *)

(** What the second column puts out: the two metrics and the first six
    topics. *)
Definition stats_view (asked : nat) (ready : bool) : list event :=
  [StMetric "Questions Asked" (pretty asked);
   StMetric "Vector Store Status" (if ready then "Ready" else "Not Ready");
   StMarkdown "Resources and Development";
   StMarkdown "Forest and Wildlife Resources";
   StMarkdown "Water Resources";
   StMarkdown "Agriculture";
   StMarkdown "Minerals and Energy Resources";
   StMarkdown "Manufacturing Industries"].

(** The label of the expander shown at place [i] (from 0) when the history
    has [total] entries. *)
Definition expander_label (total i : nat) (question : string) : string :=
  "Q" +:+ pretty (Z.of_nat total - 4 + Z.of_nat i)%Z
  +:+ ": " +:+ str_take 50 question +:+ "...".

(** What one shown entry puts out. *)
Definition entry_view (total i : nat) (entry : string * string)
  : list event :=
  [StExpander (expander_label total i (fst entry));
   StMarkdown ("**Question:** " +:+ fst entry);
   StMarkdown ("**Answer:** " +:+ snd entry)].

(** The entries the page shows: the last five. *)
Definition shown (h : list (string * string)) : list (string * string) :=
  drop (List.length h - 5) h.

(** What the history section puts out. *)
Definition history_view (h : list (string * string)) : list event :=
  List.concat (imap (entry_view (List.length h)) (shown h)).

(** Not a call of the document pipeline. *)
Definition no_build_call (e : event) : Prop :=
  match e with
  | CallPdfReader _ | CallExtractText _ | CallSplitText _ _ _
  | CallFromDocuments _ | CallSaveLocal _ => False
  | _ => True
  end.

(** The trace of a call of [answer_question]. *)
Definition answer_calls (obj : GeographyRAGSystem.t) (question : string)
  : list event :=
  if is_not_None (GeographyRAGSystem.qa_chain obj)
  then [CallQAChain question] else [].

(** The contents a run of chunks yields: those that are there and not
    empty. *)
Fixpoint kept (deltas : list (option string)) : list string :=
  match deltas with
  | [] => []
  | Some content :: rest =>
      if str_truthy content then content :: kept rest else kept rest
  | None :: rest => kept rest
  end.

(** Every event. *)
Definition any_event (e : event) : Prop := True.

(** A computation that always ends by returning a value, one that
    satisfies [Q]. *)
Definition returns_in {S A} (Q : A -> Prop) (m : M S A) : Prop :=
  forall s, exists a s', m s = (Returned a, s') /\ Q a.

(** ** Further sample collaborators and inputs *)
Module Scenario.
Import Sample.

(** [working] with one collaborator replaced. *)
Definition no_pages : Collaborators :=
  {| PdfReader := fun _ _ => Ok [];
     split_text := split_text working;
     HuggingFaceEmbeddings := HuggingFaceEmbeddings working;
     FAISS_from_documents := FAISS_from_documents working;
     FAISS_save_local := FAISS_save_local working;
     FAISS_load_local := FAISS_load_local working;
     similarity_search := similarity_search working;
     ChatGroq_new := ChatGroq_new working;
     RetrievalQA_from_chain_type := RetrievalQA_from_chain_type working;
     RetrievalQA_call := RetrievalQA_call working |}.

Definition no_splitter : Collaborators :=
  {| PdfReader := PdfReader working;
     split_text := fun _ _ _ => Err (mkException "bad separator");
     HuggingFaceEmbeddings := HuggingFaceEmbeddings working;
     FAISS_from_documents := FAISS_from_documents working;
     FAISS_save_local := FAISS_save_local working;
     FAISS_load_local := FAISS_load_local working;
     similarity_search := similarity_search working;
     ChatGroq_new := ChatGroq_new working;
     RetrievalQA_from_chain_type := RetrievalQA_from_chain_type working;
     RetrievalQA_call := RetrievalQA_call working |}.

Definition no_model : Collaborators :=
  {| PdfReader := PdfReader working;
     split_text := split_text working;
     HuggingFaceEmbeddings := fun _ _ => Err (mkException "no network");
     FAISS_from_documents := FAISS_from_documents working;
     FAISS_save_local := FAISS_save_local working;
     FAISS_load_local := FAISS_load_local working;
     similarity_search := similarity_search working;
     ChatGroq_new := ChatGroq_new working;
     RetrievalQA_from_chain_type := RetrievalQA_from_chain_type working;
     RetrievalQA_call := RetrievalQA_call working |}.

Definition unsaved : Collaborators :=
  {| PdfReader := PdfReader working;
     split_text := split_text working;
     HuggingFaceEmbeddings := HuggingFaceEmbeddings working;
     FAISS_from_documents := FAISS_from_documents working;
     FAISS_save_local := fun _ _ d => (Err (mkException "disk full"), d);
     FAISS_load_local := FAISS_load_local working;
     similarity_search := similarity_search working;
     ChatGroq_new := ChatGroq_new working;
     RetrievalQA_from_chain_type := RetrievalQA_from_chain_type working;
     RetrievalQA_call := RetrievalQA_call working |}.

(** The chain answers with a mapping that has no ["result"]. *)
Definition keyless : Collaborators :=
  {| PdfReader := PdfReader working;
     split_text := split_text working;
     HuggingFaceEmbeddings := HuggingFaceEmbeddings working;
     FAISS_from_documents := FAISS_from_documents working;
     FAISS_save_local := FAISS_save_local working;
     FAISS_load_local := FAISS_load_local working;
     similarity_search := similarity_search working;
     ChatGroq_new := ChatGroq_new working;
     RetrievalQA_from_chain_type := RetrievalQA_from_chain_type working;
     RetrievalQA_call := fun _ _ => Ok (mkChainResult None (Some [])) |}.

(** What the Groq client raises for a key it does not accept. *)
Definition invalid_key : PyException :=
  mkException
    "Error code: 401 - {'error': {'message': 'Invalid API Key', 'type': 'invalid_request_error', 'code': 'invalid_api_key'}}".

(** The chain call is refused. *)
Definition unauthorized : Collaborators :=
  {| PdfReader := PdfReader working;
     split_text := split_text working;
     HuggingFaceEmbeddings := HuggingFaceEmbeddings working;
     FAISS_from_documents := FAISS_from_documents working;
     FAISS_save_local := FAISS_save_local working;
     FAISS_load_local := FAISS_load_local working;
     similarity_search := similarity_search working;
     ChatGroq_new := ChatGroq_new working;
     RetrievalQA_from_chain_type := RetrievalQA_from_chain_type working;
     RetrievalQA_call := fun _ _ => Err invalid_key |}.

(** The Groq client of the earlier class. *)
Definition Groq_new (key : string)
  : Result GeographyRAGSystem_v1.GroqClient :=
  Ok (GeographyRAGSystem_v1.mkGroqClient key).

Definition chat_create (model system user : string) : Result string :=
  Ok "Soil is the upper layer of the earth.".

Definition chat_down (model system user : string) : Result string :=
  Err (mkException "rate limit").

Definition chat_stream (model system user : string)
  : Result (list (Result (option string))) :=
  Ok [Ok (Some "Soil"); Ok None; Ok (Some ""); Ok (Some " is the upper layer")].

Definition chat_stream_broken (model system user : string)
  : Result (list (Result (option string))) :=
  Ok [Ok (Some "Soil"); Err (mkException "connection reset");
      Ok (Some " is the upper layer")].

(** Nothing pressed, nothing typed. *)
Definition idle : App.Widgets :=
  {| App.sample_button := fun _ => false;
     App.question_input := fun default_question => default_question;
     App.ask_button := false;
     App.clear_button := false |}.

(** The session state of a first execution. *)
Definition fresh_session : App.SessionState :=
  {| App.rag_system := None;
     App.vector_store_ready := None;
     App.chat_history := None;
     App.current_question := None |}.

(** A disk that holds the textbook and no index. *)
Definition pdf_world : World :=
  {| disk := {[ TestSystem.pdf_path := "%PDF-1.4" ]}; log := [] |}.
End Scenario.

(** * Theorems *)

(** ** Strings *)

Lemma lstrip_whitespace_only (s : string) :
  whitespace_only s = true -> lstrip s = "".
Proof.
  induction s as [|c s IH]; simpl; [reflexivity|].
  destruct (isspace c); simpl; [exact IH | discriminate].
Qed.

Lemma strip_whitespace_only (s : string) :
  whitespace_only s = true -> strip s = "".
Proof.
  intros H. unfold strip. rewrite (lstrip_whitespace_only s H). reflexivity.
Qed.

Lemma lstrip_whitespace_only_inv (s : string) :
  lstrip s = "" -> whitespace_only s = true.
Proof.
  induction s as [|c s IH]; simpl; [reflexivity|].
  destruct (isspace c); simpl; [exact IH | discriminate].
Qed.

Lemma str_rev_onto_empty (s acc : string) :
  str_rev_onto s acc = "" -> s = "" /\ acc = "".
Proof.
  revert acc. induction s as [|c s IH]; simpl; intros acc H; [auto|].
  apply IH in H as [_ H]. discriminate.
Qed.

Lemma lstrip_head (s : string) (c : ascii) (r : string) :
  lstrip s = String c r -> isspace c = false.
Proof.
  induction s as [|d s IH]; simpl; intros E; [discriminate|].
  destruct (isspace d) eqn:D; [auto|]. injection E as -> _. exact D.
Qed.

Lemma lstrip_rev_onto (t acc : string) :
  lstrip acc <> "" -> lstrip (str_rev_onto t acc) <> "".
Proof.
  revert acc. induction t as [|d t IH]; simpl; intros acc Hacc; [exact Hacc|].
  apply IH. simpl. destruct (isspace d); [exact Hacc | discriminate].
Qed.

(** [strip] gives the empty string exactly on the strings made of white
    space only. *)
Lemma strip_empty_iff (s : string) :
  strip s = "" <-> whitespace_only s = true.
Proof.
  split; [|apply strip_whitespace_only].
  unfold strip, rstrip, str_rev. intros H.
  apply str_rev_onto_empty in H as [H _].
  apply lstrip_whitespace_only_inv.
  destruct (lstrip s) as [|c r] eqn:E; [reflexivity|].
  exfalso. revert H. simpl. apply lstrip_rev_onto.
  simpl. rewrite (lstrip_head _ _ _ E). discriminate.
Qed.

Example strip_example :
  strip ("  What is a delta? " +:+ nl) = "What is a delta?".
Proof. reflexivity. Qed.

(** ** rag_system.py *)
Section RagSystemFacts.
Import GeographyRAGSystem.
Variable lib : Collaborators.

(** A call of the chain, spelled out: the trace gains the call and the
    rest follows the oracle's answer. *)
Lemma answer_question_unfold (question : string) (self : t) (w : World)
    (chain : RetrievalQA) :
  qa_chain self = Some chain ->
  answer_question lib question (self, w) =
    (Returned
       match RetrievalQA_call lib chain question with
       | Ok result =>
           match res_result result with
           | Some text =>
               if list_truthy (default [] (res_source_documents result))
               then text +:+ provenance_note
               else text
           | None => "Error generating answer: " +:+ exc_str key_error_result
           end
       | Err e => "Error generating answer: " +:+ exc_str e
       end,
     (self, {| disk := disk w; log := log w ++ [CallQAChain question] |})).
Proof.
  intros Hc. unfold answer_question, bind, on_self, get. simpl. rewrite Hc.
  unfold try_except, bind, io, invoke_chain, bind, emit, modify, of_result.
  simpl.
  destruct (RetrievalQA_call lib chain question) as [result|e]; simpl;
    [|reflexivity].
  destruct (res_result result) as [text|]; simpl; reflexivity.
Qed.

Lemma answer_question_without_chain (question : string) (self : t)
    (w : World) :
  qa_chain self = None ->
  answer_question lib question (self, w)
  = (Returned not_initialized_message, (self, w)).
Proof.
  intros Hnone. unfold answer_question, bind, on_self, get. simpl.
  rewrite Hnone. destruct self, w. reflexivity.
Qed.
End RagSystemFacts.

Section RagSystemClaims.
Import GeographyRAGSystem.
Variable lib : Collaborators.

(** C10.  When [qa_chain] is [None], [answer_question] returns the fixed
    message "Sorry, the system is not properly initialized. ..." and leaves
    the object and the world as they were: the trace gains no event, so no
    retrieval and no completion call is made, whatever the question. *)
Theorem answer_question_uninitialized
    (question : string) (self : t) (w : World) :
  qa_chain self = None ->
  answer_question lib question (self, w)
  = (Returned not_initialized_message, (self, w)).
Proof. apply answer_question_without_chain. Qed.

(** C6.  When the chain answers with the text [text], [answer_question]
    returns [text] followed by the provenance sentence if the chain reports
    at least one source segment, and [text] itself, unchanged, if it
    reports none (an empty list or no [source_documents] key). *)
Theorem answer_question_provenance
    (question : string) (self : t) (w : World)
    (chain : RetrievalQA) (result : ChainResult) (text : string) :
  qa_chain self = Some chain ->
  RetrievalQA_call lib chain question = Ok result ->
  res_result result = Some text ->
  let sources := default [] (res_source_documents result) in
  (sources <> [] /\
   fst (answer_question lib question (self, w))
   = Returned (text +:+ provenance_note))
  \/
  (sources = [] /\
   fst (answer_question lib question (self, w)) = Returned text).
Proof.
  intros Hc Hcall Htext sources.
  rewrite (answer_question_unfold lib question self w chain Hc).
  rewrite Hcall, Htext. simpl. fold sources.
  destruct sources as [|d ds]; simpl; [right | left]; split;
    congruence || reflexivity.
Qed.

(** C1, as amended.  [answer_question] never lets an exception out: for
    every question, object, world and collaborators it returns a string.
    When the chain call (retrieval and completion) raises [e], the string
    is a message for the user that names the cause, "Error generating
    answer: " followed by [str(e)], and not an apology that hides it. *)
Theorem answer_question_catches
    (question : string) (self : t) (w : World) :
  (exists answer s', answer_question lib question (self, w)
                     = (Returned answer, s'))
  /\
  (forall chain e,
      qa_chain self = Some chain ->
      RetrievalQA_call lib chain question = Err e ->
      answer_question lib question (self, w)
      = (Returned ("Error generating answer: " +:+ exc_str e),
         (self, {| disk := disk w;
                   log := log w ++ [CallQAChain question] |}))).
Proof.
  split.
  - destruct (qa_chain self) as [chain|] eqn:Hc.
    + rewrite (answer_question_unfold lib question self w chain Hc). eauto.
    + rewrite (answer_question_without_chain lib question self w Hc). eauto.
  - intros chain e Hc Hcall.
    rewrite (answer_question_unfold lib question self w chain Hc).
    rewrite Hcall. reflexivity.
Qed.
End RagSystemClaims.

Section RetrievalWithoutIndex.
Variable lib : Collaborators.

(** C2.  With [vector_store] unset ([None]), [retrieve_relevant_documents]
    returns the empty list for every query and every [k], raises nothing
    and leaves the object and the world as they were; this holds for the
    class of rag_system.py and for the one document_processor.py carries. *)
Theorem retrieve_without_index (query : string) (k : Z) (w : World) :
  (forall self,
      GeographyRAGSystem.vector_store self = None ->
      GeographyRAGSystem.retrieve_relevant_documents lib query k (self, w)
      = (Returned [], (self, w)))
  /\
  (forall self,
      GeographyRAGSystem_v1.vector_store self = None ->
      GeographyRAGSystem_v1.retrieve_relevant_documents lib query k (self, w)
      = (Returned [], (self, w))).
Proof.
  split; intros self Hnone.
  - unfold GeographyRAGSystem.retrieve_relevant_documents, bind, on_self, get.
    simpl. rewrite Hnone. destruct self, w. reflexivity.
  - unfold GeographyRAGSystem_v1.retrieve_relevant_documents, bind, on_self,
      get.
    simpl. rewrite Hnone. destruct self, w. reflexivity.
Qed.

(** With a store loaded, a failing search is caught as well: the result is
    the empty list and the cause is printed. *)
Lemma retrieve_search_fails (query : string) (k : Z) (w : World)
    (self : GeographyRAGSystem.t) (vs : FAISS) (e : PyException) :
  GeographyRAGSystem.vector_store self = Some vs ->
  similarity_search lib vs query k = Err e ->
  GeographyRAGSystem.retrieve_relevant_documents lib query k (self, w)
  = (Returned [],
     (self, {| disk := disk w;
               log := (log w ++ [CallSimilaritySearch query k])
                      ++ [Stdout ("Error retrieving documents: "
                                 +:+ exc_str e)] |})).
Proof.
  intros Hvs Herr.
  unfold GeographyRAGSystem.retrieve_relevant_documents, bind, on_self, get.
  simpl. rewrite Hvs.
  unfold try_except, io, faiss_similarity_search, bind, emit, modify,
    of_result, print, emit, modify, ret.
  simpl. rewrite Herr. reflexivity.
Qed.

(** An index missing from the disk, or one that fails to load, leaves
    [vector_store] and [qa_chain] unset in the constructed object. *)
Lemma init_without_index (key : string) (w w' : World)
    (obj : GeographyRAGSystem.t) :
  disk w !! "vector_store" = None
  \/ (forall emb d, exists e, FAISS_load_local lib "vector_store" emb d = Err e) ->
  GeographyRAGSystem.init lib key w = (Returned obj, w') ->
  GeographyRAGSystem.vector_store obj = None
  /\ GeographyRAGSystem.qa_chain obj = None.
Proof.
  intros Hmissing.
  unfold GeographyRAGSystem.init, GeographyRAGSystem._initialize_components,
    GeographyRAGSystem._create_qa_chain, call_ret, call, try_except, bind,
    on_self, io, get, modify, ret, print, new_embeddings, new_chat_groq,
    new_retrieval_qa, faiss_load_local, path_exists, emit, modify, of_result,
    bind, get.
  simpl.
  destruct (HuggingFaceEmbeddings lib _ _) as [emb|e]; simpl;
    [|discriminate].
  destruct (ChatGroq_new lib key "openai/gpt-oss-20b") as [model|e]; simpl.
  2:{ intros H; inversion H; subst; simpl; auto. }
  destruct Hmissing as [Hmissing|Hfails].
  - rewrite Hmissing. simpl. intros H; inversion H; subst; simpl; auto.
  - destruct (bool_decide (is_Some (disk w !! "vector_store"))); simpl.
    + destruct (Hfails emb (disk w)) as [e He]. rewrite He. simpl.
      intros H; inversion H; subst; simpl; auto.
    + intros H; inversion H; subst; simpl; auto.
Qed.
End RetrievalWithoutIndex.

Section RagInvariant.
Import GeographyRAGSystem RagLifecycle.
Variable lib : Collaborators.

Ltac run_method :=
  unfold bind, try_except, on_self, io, get, modify, ret, print,
    new_chat_groq, new_retrieval_qa, faiss_load_local,
    faiss_similarity_search, invoke_chain, path_exists, emit, modify,
    of_result, bind, get;
  simpl.

Lemma create_qa_chain_invariant (self : t) (w : World) :
  invariant self -> invariant (fst (snd (_create_qa_chain lib (self, w)))).
Proof.
  intros Hinv. unfold _create_qa_chain. run_method.
  destruct (vector_store self) as [vs|] eqn:Hvs; simpl; [|exact Hinv].
  destruct (llm self) as [model|] eqn:Hllm; simpl; [|exact Hinv].
  destruct (RetrievalQA_from_chain_type lib model vs 4); simpl;
    [|exact Hinv].
  intros _. simpl. rewrite Hvs, Hllm. split; eauto.
Qed.

Lemma initialize_components_invariant (self : t) (w : World) :
  invariant self ->
  invariant (fst (snd (_initialize_components lib (self, w)))).
Proof.
  intros Hinv. unfold _initialize_components, _create_qa_chain. run_method.
  destruct (ChatGroq_new lib (api_key self) "openai/gpt-oss-20b")
    as [model|e]; simpl; [|exact Hinv].
  assert (Hllm : invariant (set_llm (Some model) self)).
  { intros Hq. simpl in *. destruct (Hinv Hq) as [Hv _]. split; eauto. }
  destruct (bool_decide (is_Some (disk w !! "vector_store"))); simpl;
    [|exact Hllm].
  destruct (FAISS_load_local lib "vector_store" (embeddings self) (disk w))
    as [vs|e]; simpl; [|exact Hllm].
  destruct (RetrievalQA_from_chain_type lib model vs 4) as [chain|e]; simpl;
    intros Hq; simpl in *; split; eauto.
Qed.

Lemma retrieve_keeps_self (query : string) (k : Z) (self : t) (w : World) :
  fst (snd (retrieve_relevant_documents lib query k (self, w))) = self.
Proof.
  unfold retrieve_relevant_documents. run_method.
  destruct (vector_store self) as [vs|]; simpl; [|reflexivity].
  destruct (similarity_search lib vs query k); reflexivity.
Qed.

Lemma answer_question_keeps_self (question : string) (self : t) (w : World) :
  fst (snd (answer_question lib question (self, w))) = self.
Proof.
  destruct (qa_chain self) as [chain|] eqn:Hc.
  - rewrite (answer_question_unfold lib question self w chain Hc).
    reflexivity.
  - rewrite (answer_question_without_chain lib question self w Hc).
    reflexivity.
Qed.

Lemma perform_invariant (op : operation) (s : t * World) :
  invariant (fst s) -> invariant (fst (snd (perform lib op s))).
Proof.
  destruct s as [self w]. simpl. intros Hinv.
  destruct op as [| |query k|question| |]; simpl.
  - apply initialize_components_invariant, Hinv.
  - apply create_qa_chain_invariant, Hinv.
  - unfold bind.
    pose proof (retrieve_keeps_self query k self w) as Hk.
    destruct (retrieve_relevant_documents lib query k (self, w))
      as [[docs|e|] [self' w']]; simpl in *; subst; exact Hinv.
  - unfold bind.
    pose proof (answer_question_keeps_self question self w) as Hk.
    destruct (answer_question lib question (self, w))
      as [[answer|e|] [self' w']]; simpl in *; subst; exact Hinv.
  - exact Hinv.
  - exact Hinv.
Qed.

Lemma perform_all_invariant (ops : list operation) (s : t * World) :
  invariant (fst s) -> invariant (fst (perform_all lib ops s)).
Proof.
  revert s. induction ops as [|op ops IH]; intros s Hinv; simpl;
    [exact Hinv|].
  apply IH, perform_invariant, Hinv.
Qed.

Lemma init_invariant (key : string) (w w' : World) (obj : t) :
  init lib key w = (Returned obj, w') -> invariant obj.
Proof.
  unfold init, bind, call_ret, call, new_embeddings, bind, emit, modify,
    of_result.
  simpl.
  destruct (HuggingFaceEmbeddings lib _ _) as [emb|e]; simpl;
    [|discriminate].
  set (self0 := {| api_key := key; embeddings := emb; vector_store := None;
                   llm := None; qa_chain := None |}).
  set (w0 := {| disk := disk w; log := log w ++ [CallHuggingFaceEmbeddings] |}).
  assert (H0 : invariant self0) by (intros [x Hx]; discriminate).
  pose proof (initialize_components_invariant self0 w0 H0) as Hinv.
  destruct (_initialize_components lib (self0, w0)) as [[u|e|] [self1 w1]];
    simpl in *; intros Heq; inversion Heq; subst; exact Hinv.
Qed.

Lemma is_ready_value (self : t) (w : World) :
  is_ready (self, w)
  = (Returned (is_not_None (vector_store self)
               && is_not_None (qa_chain self)), (self, w)).
Proof. destruct self, w. reflexivity. Qed.

(** C9.  Once the constructor has returned the object, after every
    sequence of its methods [qa_chain] is set only if [vector_store] and
    [llm] both are, and [is_ready()] answers [True] exactly when
    [vector_store] and [qa_chain] both are set (and changes nothing). *)
Theorem qa_chain_needs_store_and_llm
    (key : string) (w w1 : World) (obj : t) (ops : list operation) :
  init lib key w = (Returned obj, w1) ->
  let s := perform_all lib ops (obj, w1) in
  invariant (fst s)
  /\ (exists ready, is_ready s = (Returned ready, s)
        /\ (ready = true <->
            is_Some (vector_store (fst s)) /\ is_Some (qa_chain (fst s)))).
Proof.
  intros Hinit s. split.
  - apply perform_all_invariant. simpl. exact (init_invariant _ _ _ _ Hinit).
  - destruct s as [self w2]. rewrite is_ready_value. eexists; split; eauto.
    simpl. destruct (vector_store self), (qa_chain self); simpl;
      split; intros H; try discriminate; try reflexivity.
    + split; eauto.
    + destruct H as [_ [x Hx]]; discriminate.
    + destruct H as [[x Hx] _]; discriminate.
    + destruct H as [[x Hx] _]; discriminate.
Qed.
End RagInvariant.

(** ** document_processor.py *)
Section ExtractorFacts.
Import DocumentProcessor.
Variable lib : Collaborators.

Lemma extract_pages_prefix (texts : list string) (rest : list (Result string))
    (i : nat) (text : string) (w : World) :
  extract_pages (map Ok texts ++ rest) i text w
  = extract_pages rest (i + List.length texts) (joined texts text)
      {| disk := disk w;
         log := log w ++ map CallExtractText (seq i (List.length texts)) |}.
Proof.
  revert i text w. induction texts as [|t texts IH]; intros i text w; simpl.
  - rewrite Nat.add_0_r, app_nil_r. destruct w. reflexivity.
  - unfold bind at 1. unfold page_extract_text, bind, emit, modify, of_result.
    simpl. rewrite IH. simpl. rewrite <- app_assoc, Nat.add_succ_r.
    reflexivity.
Qed.

Lemma extract_pages_all_ok (texts : list string) (i : nat) (text : string)
    (w : World) :
  extract_pages (map Ok texts) i text w
  = (Returned (joined texts text),
     {| disk := disk w;
        log := log w ++ map CallExtractText (seq i (List.length texts)) |}).
Proof.
  rewrite <- (app_nil_r (map Ok texts)), extract_pages_prefix. reflexivity.
Qed.

Lemma extract_pages_first_failure (texts : list string) (e : PyException)
    (rest : list (Result string)) (i : nat) (text : string) (w : World) :
  extract_pages (map Ok texts ++ Err e :: rest) i text w
  = (Raised e,
     {| disk := disk w;
        log := log w
               ++ map CallExtractText (seq i (S (List.length texts))) |}).
Proof.
  rewrite extract_pages_prefix. simpl.
  unfold bind, page_extract_text, bind, emit, modify, of_result. simpl.
  rewrite <- app_assoc. f_equal. f_equal. f_equal.
  change (CallExtractText i :: map CallExtractText (seq (S i) (List.length texts)))
    with (map CallExtractText (seq i (S (List.length texts)))).
  rewrite seq_S, map_app. reflexivity.
Qed.

(** Every list of pages is a run of pages that extract, followed by
    nothing or by a first page that fails. *)
Lemma pages_split (pages : list (Result string)) :
  (exists texts, pages = map Ok texts)
  \/ (exists texts e rest, pages = map Ok texts ++ Err e :: rest).
Proof.
  induction pages as [|[t|e] pages IH].
  - left. exists []. reflexivity.
  - destruct IH as [[texts ->]|[texts [e [rest ->]]]].
    + left. exists (t :: texts). reflexivity.
    + right. exists (t :: texts), e, rest. reflexivity.
  - right. exists [], e, pages. reflexivity.
Qed.

Lemma extraction_events_pages (i n : nat) :
  Forall extraction_event (map CallExtractText (seq i n)).
Proof.
  apply Forall_forall. intros x Hx. apply list_elem_of_In in Hx.
  apply in_map_iff in Hx as [j [<- _]]. exact I.
Qed.

Ltac run_extract :=
  unfold extract_text_from_pdf, try_except, bind, on_self, io, get, open_pdf,
    bind, emit, modify, of_result, get, print, emit, modify, ret;
  simpl.

Lemma extract_reader_fails (self : t) (w : World) (e : PyException) :
  PdfReader lib (pdf_path self) (disk w) = Err e ->
  extract_text_from_pdf lib (self, w)
  = (Returned "",
     (self,
      {| disk := disk w;
         log := log w
                ++ [CallPdfReader (pdf_path self);
                    Stdout ("Error extracting text from PDF: "
                           +:+ exc_str e)] |})).
Proof.
  intros Herr. run_extract. rewrite Herr. simpl.
  rewrite <- app_assoc. destruct self. reflexivity.
Qed.

Lemma extract_page_fails (self : t) (w : World) (texts : list string)
    (e : PyException) (rest : list (Result string)) :
  PdfReader lib (pdf_path self) (disk w)
  = Ok (map Ok texts ++ Err e :: rest) ->
  extract_text_from_pdf lib (self, w)
  = (Returned "",
     (self,
      {| disk := disk w;
         log := log w
                ++ CallPdfReader (pdf_path self)
                   :: map CallExtractText (seq 0 (S (List.length texts)))
                   ++ [Stdout ("Error extracting text from PDF: "
                              +:+ exc_str e)] |})).
Proof.
  intros Hpages. run_extract. rewrite Hpages. simpl.
  rewrite extract_pages_first_failure. simpl.
  rewrite <- !app_assoc. destruct self. reflexivity.
Qed.

Lemma extract_succeeds (self : t) (w : World) (texts : list string) :
  PdfReader lib (pdf_path self) (disk w) = Ok (map Ok texts) ->
  extract_text_from_pdf lib (self, w)
  = (Returned (joined texts ""),
     (self,
      {| disk := disk w;
         log := log w
                ++ CallPdfReader (pdf_path self)
                   :: map CallExtractText (seq 0 (List.length texts)) |})).
Proof.
  intros Hpages. run_extract. rewrite Hpages. simpl.
  rewrite extract_pages_all_ok. simpl.
  rewrite <- !app_assoc. destruct self. reflexivity.
Qed.

(** Whatever the reader does, the extraction returns a string, leaves the
    object and the disk alone and adds extraction events only. *)
Lemma extract_shape (self : t) (w : World) :
  exists text evs,
    extract_text_from_pdf lib (self, w)
    = (Returned text, (self, {| disk := disk w; log := log w ++ evs |}))
    /\ Forall extraction_event evs.
Proof.
  destruct (PdfReader lib (pdf_path self) (disk w)) as [pages|e] eqn:Hr.
  - destruct (pages_split pages) as [[texts ->]|[texts [e [rest ->]]]].
    + rewrite (extract_succeeds self w texts Hr). do 2 eexists.
      split; [reflexivity|].
      constructor; [exact I | apply extraction_events_pages].
    + rewrite (extract_page_fails self w texts e rest Hr). do 2 eexists.
      split; [reflexivity|].
      constructor; [exact I|]. apply Forall_app. split.
      * apply extraction_events_pages.
      * constructor; [exact I | constructor].
  - rewrite (extract_reader_fails self w e Hr). do 2 eexists.
    split; [reflexivity|]. repeat constructor.
Qed.

(** C8.  If the extraction throws, be it the reader on opening the file or
    the first page whose [extract_text()] fails, [extract_text_from_pdf]
    returns the empty string and raises nothing; the trace shows one single
    opening of the file, each page before the failure read once, and the
    cause printed; the object and the disk are as they were. *)
Theorem extract_failure_gives_empty_text (self : t) (w : World) :
  (forall e,
      PdfReader lib (pdf_path self) (disk w) = Err e ->
      extract_text_from_pdf lib (self, w)
      = (Returned "",
         (self,
          {| disk := disk w;
             log := log w
                    ++ [CallPdfReader (pdf_path self);
                        Stdout ("Error extracting text from PDF: "
                               +:+ exc_str e)] |})))
  /\
  (forall texts e rest,
      PdfReader lib (pdf_path self) (disk w)
      = Ok (map Ok texts ++ Err e :: rest) ->
      extract_text_from_pdf lib (self, w)
      = (Returned "",
         (self,
          {| disk := disk w;
             log := log w
                    ++ CallPdfReader (pdf_path self)
                       :: map CallExtractText (seq 0 (S (List.length texts)))
                       ++ [Stdout ("Error extracting text from PDF: "
                                  +:+ exc_str e)] |}))).
Proof.
  split.
  - intros e. apply extract_reader_fails.
  - intros texts e rest. apply extract_page_fails.
Qed.
End ExtractorFacts.

Section IndexerFacts.
Import DocumentProcessor.
Variable lib : Collaborators.

Lemma extraction_events_only (evs : list event) (x : event) :
  Forall extraction_event evs -> In x evs -> extraction_event x.
Proof.
  intros Hall Hin. rewrite Forall_forall in Hall.
  apply Hall, list_elem_of_In, Hin.
Qed.

Ltac run_build_in H :=
  unfold split_text_into_chunks, create_vector_store,
    save_vector_store, try_except, bind, on_self, io, get,
    splitter_split_text, faiss_from_documents, faiss_save_local,
    bind, emit, modify, of_result, get, print, emit, modify, ret in H;
  simpl in H.

(** The trace of this run, once the nested appends are flattened. *)
Ltac name_trace :=
  eexists; split; [rewrite <- ?app_assoc; simpl; reflexivity|].

Ltac in_goal := simpl; repeat (rewrite in_app_iff; simpl); tauto.

Ltac in_trace H Hevs :=
  simpl in H;
  repeat (rewrite in_app_iff in H; simpl in H);
  repeat match type of H with
         | _ \/ _ => destruct H as [H|H]
         end;
  try discriminate H; try contradiction;
  try (exact (False_ind _ (extraction_events_only _ _ Hevs H))).

(** C4.  [process_document] builds all or nothing.  In every run: if the
    store creation that the run called ([FAISS.from_documents], which
    embeds every segment) failed, the run returns [None]; and unless the
    run returns a store that [FAISS.from_documents] built, the disk is
    exactly as before and [save_local] was not called. *)
Theorem process_document_all_or_nothing
    (save : bool) (self : t) (w : World) :
  let run := process_document lib save (self, w) in
  let result := fst run in
  let w' := snd (snd run) in
  exists evs,
    log w' = log w ++ evs
    /\ (forall docs e,
          In (CallFromDocuments docs) evs ->
          FAISS_from_documents lib docs (embeddings self) = Err e ->
          result = Returned None)
    /\ ((exists vs docs,
            result = Returned (Some vs)
            /\ In (CallFromDocuments docs) evs
            /\ FAISS_from_documents lib docs (embeddings self) = Ok vs)
        \/ (disk w' = disk w
            /\ forall path, ~ In (CallSaveLocal path) evs)).
Proof.
  cbv zeta.
  remember (process_document lib save (self, w)) as run eqn:Hrun.
  unfold process_document in Hrun. unfold bind at 1 in Hrun.
  unfold io at 1, print, emit, modify in Hrun. simpl in Hrun.
  unfold bind at 1 in Hrun.
  destruct (extract_shape lib self
              {| disk := disk w;
                 log := log w ++ [Stdout "Extracting text from PDF..."] |})
    as [text [evs [Heq Hevs]]].
  rewrite Heq in Hrun. simpl in Hrun.
  destruct text as [|c text]; simpl in Hrun.
  { run_build_in Hrun. subst run. simpl. name_trace. split.
    - intros docs e Hin _. reflexivity.
    - right. split; [reflexivity|]. intros path Hin. in_trace Hin Hevs. }
  run_build_in Hrun.
  destruct (split_text lib (chunk_size self) (chunk_overlap self)
              (String c text)) as [chunks|e]; simpl in Hrun.
  2:{ subst run. simpl. name_trace. split.
      - intros docs e' Hin _. in_trace Hin Hevs.
      - right. split; [reflexivity|]. intros path Hin. in_trace Hin Hevs. }
  destruct (FAISS_from_documents lib (map mkDocument chunks)
              (embeddings self)) as [vs|e] eqn:Hbuild; simpl in Hrun.
  2:{ subst run. simpl. name_trace. split.
      - intros docs e' Hin _. reflexivity.
      - right. split; [reflexivity|]. intros path Hin. in_trace Hin Hevs. }
  assert (Hsome :
    forall (evs' : list event) (untouched : Prop),
      In (CallFromDocuments (map mkDocument chunks)) evs' ->
      (forall docs,
          In (CallFromDocuments docs) evs' ->
          docs = map mkDocument chunks) ->
      (forall docs e,
          In (CallFromDocuments docs) evs' ->
          FAISS_from_documents lib docs (embeddings self) = Err e ->
          Returned (Some vs) = Returned None)
      /\ ((exists vs0 docs,
              Returned (Some vs) = Returned (Some vs0)
              /\ In (CallFromDocuments docs) evs'
              /\ FAISS_from_documents lib docs (embeddings self) = Ok vs0)
          \/ untouched)).
  { intros evs' untouched Hin Honly. split.
    - intros docs e Hd Herr. rewrite (Honly docs Hd) in Herr. congruence.
    - left. exists vs, (map mkDocument chunks). auto. }
  assert (Honly :
    forall docs tail,
      In (CallFromDocuments docs)
        (Stdout "Extracting text from PDF..."
         :: evs
            ++ Stdout "Splitting text into chunks..."
               :: CallSplitText (chunk_size self) (chunk_overlap self)
                    (String c text)
               :: Stdout ("Created "
                         +:+ pretty (List.length (map mkDocument chunks))
                         +:+ " chunks")
               :: Stdout "Creating vector store..."
               :: CallFromDocuments (map mkDocument chunks) :: tail) ->
      (forall d, ~ In (CallFromDocuments d) tail) ->
      docs = map mkDocument chunks).
  { intros docs tail Hin Htail. in_trace Hin Hevs.
    - injection Hin as <-. reflexivity.
    - destruct (Htail _ Hin). }
  destruct save; simpl in Hrun.
  - destruct (FAISS_save_local lib vs "vector_store" (disk w))
      as [[u|e] d'] eqn:Hs; simpl in Hrun; subst run; simpl; name_trace;
      apply Hsome.
    + in_goal.
    + intros docs Hin. apply (Honly docs _ Hin). intros d Hd. in_trace Hd Hevs.
    + in_goal.
    + intros docs Hin. apply (Honly docs _ Hin). intros d Hd. in_trace Hd Hevs.
  - subst run. simpl. name_trace. apply Hsome.
    + in_goal.
    + intros docs Hin. apply (Honly docs _ Hin). intros d Hd. in_trace Hd Hevs.
Qed.
End IndexerFacts.

(** ** Frame rules *)
Section Frame.
Context {S : Type} (R : relation S) `{!PreOrder R}.

Lemma preserves_unchanged {A} (m : M S A) :
  (forall s, snd (m s) = s /\ fst (m s) <> Rerun) -> preserves R m.
Proof.
  intros H s. destruct (H s) as [Hs Hr]. split; [exact Hr|].
  rewrite Hs. reflexivity.
Qed.

Lemma preserves_ret {A} (a : A) : preserves R (ret a).
Proof.
  apply preserves_unchanged. intros s. split; [reflexivity|discriminate].
Qed.

Lemma preserves_raise {A} (e : PyException) : preserves R (@raise S A e).
Proof.
  apply preserves_unchanged. intros s. split; [reflexivity|discriminate].
Qed.

Lemma preserves_of_result {A} (r : Result A) : preserves R (of_result r).
Proof.
  apply preserves_unchanged. intros s.
  destruct r; (split; [reflexivity|discriminate]).
Qed.

Lemma preserves_get : preserves R get.
Proof.
  apply preserves_unchanged. intros s. split; [reflexivity|discriminate].
Qed.

Lemma preserves_bind {A B} (m : M S A) (k : A -> M S B) :
  preserves R m -> (forall a, preserves R (k a)) -> preserves R (bind m k).
Proof.
  intros Hm Hk s. unfold bind. destruct (Hm s) as [Hr HR].
  destruct (m s) as [[a|e|] s1]; simpl in *.
  - destruct (Hk a s1) as [Hr' HR']. split; [exact Hr'|].
    transitivity s1; assumption.
  - split; [discriminate | exact HR].
  - destruct (Hr eq_refl).
Qed.

Lemma preserves_try_except {A} (body : M S A)
    (handler : PyException -> M S A) :
  preserves R body -> (forall e, preserves R (handler e)) ->
  preserves R (try_except body handler).
Proof.
  intros Hm Hk s. unfold try_except. destruct (Hm s) as [Hr HR].
  destruct (body s) as [[a|e|] s1]; simpl in *.
  - split; [discriminate | exact HR].
  - destruct (Hk e s1) as [Hr' HR']. split; [exact Hr'|].
    transitivity s1; assumption.
  - destruct (Hr eq_refl).
Qed.

Lemma preserves_for_each {A} (xs : list A) (body : A -> M S unit) :
  (forall x, preserves R (body x)) -> preserves R (for_each xs body).
Proof.
  intros Hb. induction xs as [|x xs IH]; simpl.
  - apply preserves_ret.
  - apply preserves_bind; [apply Hb | intros _; exact IH].
Qed.
End Frame.

Section WorldFrame.
Context (Rw : relation World) `{!PreOrder Rw}.

#[global] Instance on_world_preorder {O} : PreOrder (@on_world O Rw).
Proof.
  split.
  - intros s. unfold on_world. reflexivity.
  - intros s1 s2 s3 H1 H2. unfold on_world in *. etransitivity; eauto.
Qed.

Lemma preserves_io {O A} (m : M World A) :
  preserves Rw m -> preserves (@on_world O Rw) (io m).
Proof.
  intros Hm [o w]. unfold on_world, io. simpl. specialize (Hm w).
  destruct (m w) as [r w']. exact Hm.
Qed.

Lemma preserves_on_self_get {O} :
  preserves (@on_world O Rw) (on_self get).
Proof.
  apply preserves_unchanged; [exact _|]. intros [o w].
  split; [reflexivity|discriminate].
Qed.

Lemma preserves_on_self_modify {O} (f : O -> O) :
  preserves (@on_world O Rw) (on_self (modify f)).
Proof.
  intros [o w]. split; [discriminate|]. unfold on_world. simpl. reflexivity.
Qed.

Lemma preserves_call_ret {O A} (o : O) (m : M (O * World) A) :
  preserves (@on_world O Rw) m -> preserves Rw (call_ret o m).
Proof.
  intros Hm w. unfold call_ret, call. specialize (Hm (o, w)).
  unfold on_world in Hm. simpl in Hm.
  destruct (m (o, w)) as [[a|e|] [o' w']]; simpl in *;
    destruct Hm as [Hr Hm]; (split; [|exact Hm]);
    try discriminate. destruct (Hr eq_refl).
Qed.
End WorldFrame.

Section Growth.
Context (P : event -> Prop).

#[global] Instance grows_preorder : PreOrder (grows P).
Proof.
  split.
  - intros w. exists []. rewrite app_nil_r. split; [reflexivity|constructor].
  - intros w1 w2 w3 [e1 [H1 F1]] [e2 [H2 F2]]. exists (e1 ++ e2).
    rewrite H2, H1, app_assoc. split; [reflexivity|].
    apply Forall_app. split; assumption.
Qed.

Lemma grows_emit (e : event) : P e -> preserves (grows P) (emit e).
Proof.
  intros He w. split; [discriminate|]. exists [e]. split; [reflexivity|].
  constructor; [exact He|constructor].
Qed.

Lemma grows_path_exists (p : string) : preserves (grows P) (path_exists p).
Proof.
  apply preserves_unchanged; [exact _|]. intros w.
  split; [reflexivity|discriminate].
Qed.

Lemma grows_save_local (lib : Collaborators) (vs : FAISS) (path : string) :
  P (CallSaveLocal path) -> preserves (grows P) (faiss_save_local lib vs path).
Proof.
  intros He w. unfold faiss_save_local.
  destruct (FAISS_save_local lib vs path (disk w)) as [r d'].
  split; [destruct r; discriminate|].
  exists [CallSaveLocal path]. split.
  - destruct r; reflexivity.
  - constructor; [exact He|constructor].
Qed.

(** The new events are determined by the two traces. *)
Lemma grows_events (w w' : World) (evs : list event) :
  grows P w w' -> log w' = log w ++ evs -> Forall P evs.
Proof.
  intros [evs' [H1 HP]] H2. rewrite H1 in H2.
  apply app_inv_head in H2. subst. exact HP.
Qed.
End Growth.

Lemma display_no_query_call (e : event) : display_event e -> no_query_call e.
Proof. destruct e; simpl; tauto. Qed.

(** ** No retrieval or completion call outside [answer_question] *)
Section QuietCollaborators.
Variable lib : Collaborators.

Ltac frame :=
  repeat first
    [ progress intros
    | apply preserves_ret
    | apply preserves_raise
    | apply preserves_of_result
    | apply preserves_get
    | apply preserves_on_self_get
    | apply preserves_on_self_modify
    | apply preserves_io
    | apply preserves_call_ret
    | apply preserves_bind
    | apply preserves_try_except
    | apply preserves_for_each
    | apply grows_path_exists
    | apply grows_save_local; exact I
    | apply grows_emit; exact I
    | match goal with
      | |- preserves _ (match ?x with _ => _ end) => destruct x
      end
    | match goal with |- PreOrder _ => exact _ end
    | assumption ].

Abbreviation quiet := (preserves (grows no_query_call)).
Abbreviation quiet_method := (preserves (on_world (grows no_query_call))).

Lemma quiet_extract_pages (pages : list (Result string)) (i : nat)
    (text : string) :
  quiet (DocumentProcessor.extract_pages pages i text).
Proof.
  revert i text. induction pages as [|page pages IH]; intros i text; simpl.
  - frame.
  - unfold page_extract_text. frame. apply IH.
Qed.

Lemma quiet_process_document (save : bool) :
  quiet_method (DocumentProcessor.process_document lib save).
Proof.
  unfold DocumentProcessor.process_document,
    DocumentProcessor.extract_text_from_pdf,
    DocumentProcessor.split_text_into_chunks,
    DocumentProcessor.create_vector_store,
    DocumentProcessor.save_vector_store,
    open_pdf, splitter_split_text, faiss_from_documents, print.
  frame; apply quiet_extract_pages.
Qed.

Lemma quiet_processor_init (path : string) (size overlap : Z) :
  quiet (DocumentProcessor.init lib path size overlap).
Proof. unfold DocumentProcessor.init. frame. Qed.

Lemma quiet_rag_init (key : string) : quiet (GeographyRAGSystem.init lib key).
Proof.
  unfold GeographyRAGSystem.init, GeographyRAGSystem._initialize_components,
    GeographyRAGSystem._create_qa_chain, new_chat_groq, faiss_load_local,
    new_retrieval_qa, print.
  frame.
Qed.
End QuietCollaborators.

(** ** app.py *)

Lemma bind_eq {S A B} (m : M S A) (k : A -> M S B) (s : S) :
  bind m k s
  = match m s with
    | (Returned a, s') => k a s'
    | (Raised e, s') => (Raised e, s')
    | (Rerun, s') => (Rerun, s')
    end.
Proof. reflexivity. Qed.

Section ScriptFrame.
Import App.
Context (P : event -> Prop).

#[global] Instance quietly_preorder : PreOrder (quietly P).
Proof.
  split.
  - intros st. split; [reflexivity|]. split; reflexivity.
  - intros a b c [G1 [C1 H1]] [G2 [C2 H2]]. split; [|split].
    + etransitivity; eassumption.
    + congruence.
    + congruence.
Qed.

#[global] Instance rejected_preorder (pressed : bool) :
  PreOrder (rejected P pressed).
Proof.
  split.
  - intros st. split; [reflexivity|]. left. reflexivity.
  - intros a b c [G1 H1] [G2 H2]. split.
    + etransitivity; eassumption.
    + destruct H2 as [H2|H2]; [|right; exact H2].
      rewrite H2. exact H1.
Qed.

Lemma quietly_rejected (pressed : bool) (a b : SessionState * World) :
  quietly P a b -> rejected P pressed a b.
Proof.
  intros [G [_ H]]. split; [exact G|]. left. unfold history. rewrite H.
  reflexivity.
Qed.

Lemma rejected_unpressed (pressed : bool) (a b : SessionState * World) :
  rejected P false a b -> rejected P pressed a b.
Proof.
  intros [G [H|[H _]]]; [|discriminate]. split; [exact G|]. left. exact H.
Qed.

Lemma quietly_io {A} (m : M World A) :
  preserves (grows P) m -> preserves (quietly P) (io m).
Proof.
  intros Hm [s w]. unfold io. simpl. specialize (Hm w).
  destruct (m w) as [r w']. simpl in *. destruct Hm as [Hr Hm].
  split; [exact Hr|]. split; [exact Hm|]. split; reflexivity.
Qed.

Lemma quietly_modify (f : SessionState -> SessionState) :
  (forall s, current_question (f s) = current_question s
             /\ chat_history (f s) = chat_history s) ->
  preserves (quietly P) (on_self (modify f)).
Proof.
  intros Hf [s w]. split; [discriminate|]. unfold on_self, modify. simpl.
  split; [reflexivity|]. apply Hf.
Qed.

Lemma quietly_attr {A} (name : string) (field : SessionState -> option A) :
  preserves (quietly P) (attr name field).
Proof.
  apply preserves_unchanged; [exact _|]. intros [s w]. unfold attr. simpl.
  destruct (field s); (split; [reflexivity|discriminate]).
Qed.

Lemma quietly_topics (obj : GeographyRAGSystem.t) :
  preserves (quietly P) (session_topic_suggestions obj).
Proof.
  intros [s w]. split; [discriminate|].
  unfold session_topic_suggestions, call. simpl.
  split; [reflexivity|]. split; reflexivity.
Qed.
End ScriptFrame.

Section ScriptFacts.
Import App.
Variable lib : Collaborators.

Ltac frame HP :=
  repeat first
    [ progress intros
    | apply preserves_ret
    | apply preserves_raise
    | apply preserves_of_result
    | apply quietly_attr
    | apply quietly_topics
    | apply quietly_modify; intros ?; split; reflexivity
    | apply quietly_io
    | apply preserves_call_ret
    | apply (quiet_process_document lib)
    | apply (quiet_processor_init lib)
    | apply (quiet_rag_init lib)
    | apply grows_emit; first [exact I | apply HP; exact I]
    | apply grows_path_exists
    | apply preserves_bind
    | apply preserves_try_except
    | apply preserves_for_each
    | match goal with
      | |- preserves _ (match ?x with _ => _ end) => destruct x
      end
    | match goal with |- PreOrder _ => exact _ end
    | assumption ].

Lemma quietly_setup :
  preserves (quietly no_query_call) (setup_rag_system lib).
Proof. unfold setup_rag_system. cbv zeta. frame I. Qed.

Lemma quietly_ensure :
  preserves (quietly no_query_call) (ensure_rag_system lib).
Proof. unfold ensure_rag_system. frame I. Qed.

Section Display.
Context (P : event -> Prop) (HP : forall e, display_event e -> P e).

Lemma quietly_quick_stats : preserves (quietly P) quick_stats.
Proof. unfold quick_stats. frame HP. Qed.

Lemma quietly_display_entries (total i : nat)
    (entries : list (string * string)) :
  preserves (quietly P) (display_entries total i entries).
Proof.
  revert i. induction entries as [|[q a] entries IH]; intros i; simpl.
  - frame HP.
  - frame HP. apply IH.
Qed.

Lemma quietly_display : preserves (quietly P) display_chat_history.
Proof.
  unfold display_chat_history. frame HP. apply quietly_display_entries.
Qed.

Lemma process_question_rejected (ui : Widgets) (question : string) :
  ask_button ui = false \/ whitespace_only question = true ->
  preserves (quietly P) (process_question lib ui question).
Proof.
  intros Hq. unfold process_question.
  destruct (ask_button ui); [|apply preserves_ret; exact _].
  destruct Hq as [Hq|Hq]; [discriminate|].
  rewrite (strip_whitespace_only _ Hq). simpl.
  apply quietly_io, grows_emit, HP. exact I.
Qed.

(** The part of [main] from "Process question" to the end. *)
Lemma main_tail_quietly (ui : Widgets) (question : string) :
  ask_button ui = false \/ whitespace_only question = true ->
  preserves (quietly P)
    (process_question lib ui question ;;;
     quick_stats ;;;
     history <- attr "chat_history" chat_history ;;
     if list_truthy history then display_chat_history else ret tt).
Proof.
  intros Hq.
  apply preserves_bind; [exact _ | apply process_question_rejected, Hq |].
  intros _. apply preserves_bind; [exact _ | apply quietly_quick_stats |].
  intros _. apply preserves_bind; [exact _ | apply quietly_attr |].
  intros h. destruct (list_truthy h);
    [apply quietly_display | apply preserves_ret; exact _].
Qed.
End Display.
End ScriptFacts.

Section ScriptRuns.
Import App.
Variable lib : Collaborators.

Lemma initialize_run (s : SessionState) (w : World) :
  initialize_session_state (s, w) = (Returned tt, (initialized s, w)).
Proof. reflexivity. Qed.

Lemma sidebar_loop (ui : Widgets) (qs : list string) (s : SessionState)
    (w : World) :
  for_each qs (fun question =>
    if sample_button ui question
    then on_self (modify (set_current_question (Some question)))
    else ret tt) (s, w)
  = (Returned tt,
     (set_current_question
        (fold_left (fun cur q => if sample_button ui q then Some q else cur)
           qs (current_question s)) s, w)).
Proof.
  revert s. induction qs as [|q qs IH]; intros s; simpl.
  - destruct s. reflexivity.
  - rewrite bind_eq. destruct (sample_button ui q).
    + unfold on_self, modify. simpl. rewrite IH. reflexivity.
    + unfold ret. rewrite IH. reflexivity.
Qed.

Lemma sidebar_run (ui : Widgets) (s : SessionState) (w : World) :
  sidebar ui (s, w)
  = (Returned tt, (set_current_question (pending_question ui s) s, w)).
Proof. apply sidebar_loop. Qed.

Lemma take_default_run (s : SessionState) (w : World) :
  take_default_question (s, w)
  = (Returned (default "" (current_question s)),
     (set_current_question None s, w)).
Proof.
  unfold take_default_question. rewrite bind_eq. unfold on_self, get. simpl.
  destruct s as [r v h [q|]]; reflexivity.
Qed.

Lemma ensure_ready (s : SessionState) (w : World)
    (obj : GeographyRAGSystem.t) :
  rag_system s = Some (Some obj) ->
  ensure_rag_system lib (s, w) = (Returned tt, (s, w)).
Proof.
  intros Hrag. unfold ensure_rag_system. rewrite bind_eq. unfold attr. simpl.
  rewrite Hrag. reflexivity.
Qed.

(** One execution with a blank question (or without Ask Question). *)
Lemma main_rejected (ui : Widgets) (s : SessionState) (w : World) :
  ask_button ui = false \/ whitespace_only (submitted_question ui s) = true ->
  rejected no_query_call (clear_button ui) (s, w)
    (snd (main lib ui (s, w))).
Proof.
  intros Hq. unfold main.
  rewrite bind_eq, initialize_run, bind_eq, sidebar_run, bind_eq.
  set (s2 := set_current_question (pending_question ui (initialized s))
               (initialized s)).
  assert (H02 : rejected no_query_call (clear_button ui) (s, w) (s2, w)).
  { split; [reflexivity|]. left. unfold history. simpl.
    destruct (chat_history s); reflexivity. }
  destruct (quietly_ensure lib (s2, w)) as [Hr Hens].
  destruct (ensure_rag_system lib (s2, w)) as [[[]|e|] [s3 w3]];
    simpl in Hens |- *;
    try (etransitivity; [exact H02 | apply quietly_rejected, Hens]).
  rewrite bind_eq. unfold attr at 1. simpl.
  destruct (rag_system s3) as [[obj|]|]; simpl.
  - rewrite bind_eq, take_default_run.
    destruct Hens as [Hg [Hcq Hh]]. simpl in Hcq, Hh, Hg.
    assert (Hquestion :
      effective_question ui (default "" (current_question s3))
      = submitted_question ui s).
    { rewrite Hcq. reflexivity. }
    rewrite Hquestion.
    set (s4 := set_current_question None s3).
    assert (H04 : rejected no_query_call (clear_button ui) (s, w) (s4, w3)).
    { split; [exact Hg|]. left. unfold history. simpl. rewrite Hh. simpl.
      destruct (chat_history s); reflexivity. }
    rewrite bind_eq. unfold clear_history.
    destruct (clear_button ui); simpl.
    + split; [exact Hg|]. right. split; reflexivity.
    + etransitivity; [exact H04|]. apply quietly_rejected.
      apply (main_tail_quietly lib no_query_call display_no_query_call ui
               (submitted_question ui s) Hq (s4, w3)).
  - etransitivity; [exact H02|]. etransitivity.
    + apply quietly_rejected, Hens.
    + split; [|left; reflexivity].
      exists [StError
                "Failed to initialize the AI tutor. Please check the setup."].
      split; [reflexivity|]. repeat constructor.
  - etransitivity; [exact H02 | apply quietly_rejected, Hens].
Qed.

(** The same on a page that is set up and without Clear History: the
    execution ends without a rerun and puts out display events only; the
    first of them is the warning when Ask Question was pressed. *)
Lemma main_ready_rejected (ui : Widgets) (s : SessionState) (w : World)
    (obj : GeographyRAGSystem.t) :
  rag_system s = Some (Some obj) ->
  clear_button ui = false ->
  ask_button ui = false \/ whitespace_only (submitted_question ui s) = true ->
  fst (main lib ui (s, w)) <> Rerun
  /\ exists evs,
       log (snd (snd (main lib ui (s, w))))
       = log w ++ (if ask_button ui
                   then [StWarning "Please enter a question first!"]
                   else []) ++ evs
       /\ Forall display_event evs.
Proof.
  intros Hrag Hclear Hq. unfold main.
  rewrite bind_eq, initialize_run, bind_eq, sidebar_run, bind_eq.
  rewrite (ensure_ready _ w obj); [|simpl; rewrite Hrag; reflexivity].
  rewrite bind_eq. unfold attr at 1. simpl. rewrite Hrag. simpl.
  rewrite bind_eq, take_default_run, bind_eq. unfold clear_history.
  rewrite Hclear. unfold ret at 1. simpl.
  change (effective_question ui
            (default "" (pending_question ui (initialized s))))
    with (submitted_question ui s).
  rewrite bind_eq.
  assert (Hstep :
    exists s5,
      process_question lib ui (submitted_question ui s)
        (set_current_question None
           (set_current_question (pending_question ui (initialized s))
              (initialized s)), w)
      = (Returned tt,
         (s5, {| disk := disk w;
                 log := log w
                        ++ (if ask_button ui
                            then [StWarning "Please enter a question first!"]
                            else []) |}))).
  { unfold process_question. destruct (ask_button ui).
    - destruct Hq as [Hq|Hq]; [discriminate|].
      rewrite (strip_whitespace_only _ Hq). simpl. eexists. reflexivity.
    - eexists. unfold ret. rewrite app_nil_r. destruct w. reflexivity. }
  destruct Hstep as [s5 Hstep]. rewrite Hstep.
  match goal with
  | |- context [bind quick_stats ?k ?st] =>
      assert (Htail : preserves (quietly display_event) (bind quick_stats k))
  end.
  { apply preserves_bind; [exact _ | apply quietly_quick_stats; auto |].
    intros _. apply preserves_bind; [exact _ | apply quietly_attr |].
    intros h. destruct (list_truthy h);
      [apply quietly_display; auto | apply preserves_ret; exact _]. }
  match goal with
  | |- context [bind quick_stats ?k ?st] =>
      destruct (Htail st) as [Hr [[evs [Hlog Hev]] _]];
      destruct (bind quick_stats k st) as [r [s' w']]
  end.
  simpl in *. split; [exact Hr|]. exists evs. split; [|exact Hev].
  rewrite Hlog, <- app_assoc. reflexivity.
Qed.

Lemma clear_pass (ui : Widgets) (s : SessionState) (w : World)
    (obj : GeographyRAGSystem.t) :
  rag_system s = Some (Some obj) ->
  clear_button ui = true ->
  main lib ui (s, w) = (Rerun, (cleared s, w)).
Proof.
  intros Hrag Hclear. unfold main.
  rewrite bind_eq, initialize_run, bind_eq, sidebar_run, bind_eq.
  rewrite (ensure_ready _ w obj); [|simpl; rewrite Hrag; reflexivity].
  rewrite bind_eq. unfold attr at 1. simpl. rewrite Hrag. simpl.
  rewrite bind_eq, take_default_run, bind_eq. unfold clear_history.
  rewrite Hclear. reflexivity.
Qed.

Lemma idle_pass (ui : Widgets) (s : SessionState) (w : World)
    (obj : GeographyRAGSystem.t) :
  rag_system s = Some (Some obj) ->
  main lib (after_rerun ui) (cleared s, w)
  = (Returned tt,
     (cleared s,
      {| disk := disk w;
         log := log w ++ redrawn (default false (vector_store_ready s)) |})).
Proof.
  intros Hrag. unfold main.
  rewrite bind_eq, initialize_run, bind_eq, sidebar_run, bind_eq.
  rewrite (ensure_ready _ w obj); [|simpl; rewrite Hrag; reflexivity].
  rewrite bind_eq. unfold attr at 1. simpl. rewrite Hrag. simpl.
  rewrite bind_eq, take_default_run, bind_eq. simpl.
  unfold cleared. rewrite Hrag. simpl.
  unfold quick_stats, session_topic_suggestions, call, attr, bind, io, emit,
    modify, ret.
  simpl. rewrite <- !app_assoc. reflexivity.
Qed.

Lemma redrawn_display (ready : bool) : Forall display_event (redrawn ready).
Proof. repeat constructor. Qed.
End ScriptRuns.

Section ScriptClaims.
Import App.
Variable lib : Collaborators.

(** C5.  When the question the script is about to process is empty or
    white space only, handling the user's action makes no retrieval call
    and no completion call; on a page that is set up it calls no
    collaborator at all and only draws the page; and nothing is appended to
    the history, which is as it was (or emptied, if Clear History was
    pressed too). *)
Theorem blank_question_rejected
    (ui : Widgets) (s : SessionState) (w : World) :
  whitespace_only (submitted_question ui s) = true ->
  let st' := snd (run_script lib ui (s, w)) in
  exists evs,
    log (snd st') = log w ++ evs
    /\ Forall no_query_call evs
    /\ (forall obj, rag_system s = Some (Some obj) ->
                    Forall display_event evs)
    /\ (history (fst st') = history s
        \/ (clear_button ui = true /\ history (fst st') = [])).
Proof.
  intros Hblank.
  assert (H : rejected no_query_call (clear_button ui) (s, w)
                (snd (run_script lib ui (s, w)))).
  { unfold run_script.
    pose proof (main_rejected lib ui s w (or_intror Hblank)) as H1.
    destruct (main lib ui (s, w)) as [[[]|e|] st1]; simpl in H1 |- *;
      try exact H1.
    etransitivity; [exact H1|]. destruct st1 as [s1 w1].
    apply rejected_unpressed.
    apply (main_rejected lib (after_rerun ui) s1 w1). left. reflexivity. }
  destruct H as [[evs [Hlog Hall]] Hhist]. simpl in Hlog, Hhist |- *.
  exists evs. split; [exact Hlog|]. split; [exact Hall|].
  split; [|exact Hhist].
  intros obj Hrag. revert Hlog. unfold run_script.
  destruct (clear_button ui) eqn:Hclear.
  - rewrite (clear_pass lib ui s w obj Hrag Hclear).
    rewrite (idle_pass lib ui s w obj Hrag). simpl. intros Hlog.
    apply app_inv_head in Hlog. subst evs. apply redrawn_display.
  - destruct (main_ready_rejected lib ui s w obj Hrag Hclear
                (or_intror Hblank)) as [Hr [evs' [Hlog' Hev]]].
    destruct (main lib ui (s, w)) as [[[]|e|] st1]; simpl in *;
      try (destruct (Hr eq_refl));
      intros Hlog; rewrite Hlog' in Hlog; apply app_inv_head in Hlog;
      subst evs; (apply Forall_app; split; [|exact Hev]);
      destruct (ask_button ui); repeat constructor.
Qed.
End ScriptClaims.

Section ClearHistory.
Import App.
Variable lib : Collaborators.

(** C7.  On a page that is set up (so that the Clear History button is
    there), pressing Clear History empties the history and the page that
    follows shows "Questions Asked" as 0; the system object in the session
    (with its loaded vector store and chain), the readiness flag and the
    disk (with the index on it) are as before, and no collaborator is
    called: the trace gains the output of the redrawn page only. *)
Theorem clear_history_changes_only_history
    (ui : Widgets) (s : SessionState) (w : World)
    (obj : GeographyRAGSystem.t) :
  rag_system s = Some (Some obj) ->
  clear_button ui = true ->
  run_script lib ui (s, w)
  = (Returned tt,
     ({| rag_system := Some (Some obj);
         vector_store_ready := Some (default false (vector_store_ready s));
         chat_history := Some [];
         current_question := None |},
      {| disk := disk w;
         log := log w
                ++ [StMetric "Questions Asked" "0";
                    StMetric "Vector Store Status"
                      (if default false (vector_store_ready s)
                       then "Ready" else "Not Ready");
                    StMarkdown "Resources and Development";
                    StMarkdown "Forest and Wildlife Resources";
                    StMarkdown "Water Resources";
                    StMarkdown "Agriculture";
                    StMarkdown "Minerals and Energy Resources";
                    StMarkdown "Manufacturing Industries"] |})).
Proof.
  intros Hrag Hclear. unfold run_script.
  rewrite (clear_pass lib ui s w obj Hrag Hclear).
  rewrite (idle_pass lib ui s w obj Hrag).
  unfold cleared, redrawn. rewrite Hrag. reflexivity.
Qed.

(** With no sample question pressed or pending, the question processed is
    what the text area holds. *)
Lemma submitted_question_typed (ui : Widgets) (s : SessionState) :
  (forall q, sample_button ui q = false) ->
  current_question s = None ->
  submitted_question ui s = question_input ui "".
Proof.
  intros Hno Hcq. unfold submitted_question, pending_question.
  rewrite Hcq. simpl. rewrite !Hno. reflexivity.
Qed.
End ClearHistory.

(** ** The chunker's glue *)
Section ChunkerFacts.
Import DocumentProcessor.
Variable lib : Collaborators.

(** [split_text_into_chunks] wraps the segments the splitter returns, one
    document per segment, in the splitter's order. *)
Lemma split_wraps_segments (text : string) (self : t) (w : World)
    (chunks : list string) :
  split_text lib (chunk_size self) (chunk_overlap self) text = Ok chunks ->
  fst (split_text_into_chunks lib text (self, w))
  = Returned (map mkDocument chunks).
Proof.
  intros Hs. unfold split_text_into_chunks, bind, on_self, io, get,
    splitter_split_text, bind, emit, modify, of_result.
  simpl. rewrite Hs. reflexivity.
Qed.

Lemma split_keeps_segments (chunks : list string) :
  map page_content (map mkDocument chunks) = chunks.
Proof. induction chunks as [|c cs IH]; simpl; [|rewrite IH]; reflexivity. Qed.
End ChunkerFacts.

(** * The statements at sample inputs *)
Section Instances.
Import Sample.

Lemma answer_question_uninitialized_witness :
  GeographyRAGSystem.qa_chain bare_system = None
  /\ GeographyRAGSystem.answer_question working "What is soil?"
       (bare_system, indexed_world)
     = (Returned GeographyRAGSystem.not_initialized_message,
        (bare_system, indexed_world)).
Proof.
  split; [reflexivity|].
  apply (answer_question_uninitialized working "What is soil?" bare_system
           indexed_world).
  reflexivity.
Defined.

Lemma answer_question_provenance_witness :
  fst (GeographyRAGSystem.answer_question working "soil"
         (ready_system, indexed_world))
  = Returned ("About soil" +:+ GeographyRAGSystem.provenance_note).
Proof.
  destruct (answer_question_provenance working "soil" ready_system
              indexed_world chain
              (mkChainResult (Some "About soil") (Some (docstore store)))
              "About soil" eq_refl eq_refl eq_refl) as [[_ H]|[H _]].
  - exact H.
  - discriminate H.
Defined.

Lemma answer_question_catches_witness :
  GeographyRAGSystem.answer_question failing "soil"
    (ready_system, indexed_world)
  = (Returned "Error generating answer: rate limit",
     (ready_system,
      {| disk := disk indexed_world; log := [CallQAChain "soil"] |})).
Proof.
  apply (proj2 (answer_question_catches failing "soil" ready_system
                  indexed_world) chain (mkException "rate limit"));
    reflexivity.
Defined.

(** C1 as the claim words it fails.  With a key the provider refuses, the
    chain call raises, and what [answer_question] returns is not an apology
    that spares the user the exception: it is the text of the exception as
    the client produced it, behind a fixed prefix. *)
Lemma answer_question_catches_counterexample :
  GeographyRAGSystem.qa_chain ready_system = Some chain
  /\ RetrievalQA_call Scenario.unauthorized chain "What is soil?"
     = Err Scenario.invalid_key
  /\ exists answer,
       fst (GeographyRAGSystem.answer_question Scenario.unauthorized
              "What is soil?" (ready_system, indexed_world))
       = Returned answer
       /\ answer
          = "Error generating answer: Error code: 401 - {'error': {'message': 'Invalid API Key', 'type': 'invalid_request_error', 'code': 'invalid_api_key'}}"
       /\ hides_cause Scenario.invalid_key answer = false.
Proof.
  split; [reflexivity|]. split; [reflexivity|].
  eexists. split; [vm_compute; reflexivity|].
  split; [reflexivity|]. vm_compute. reflexivity.
Qed.

Lemma retrieve_without_index_witness :
  GeographyRAGSystem.retrieve_relevant_documents failing "soil" 4
    (bare_system, empty_world)
  = (Returned [], (bare_system, empty_world))
  /\ GeographyRAGSystem_v1.retrieve_relevant_documents failing "soil" 3
       (bare_system_v1, empty_world)
     = (Returned [], (bare_system_v1, empty_world)).
Proof.
  split.
  - apply (proj1 (retrieve_without_index failing "soil" 4 empty_world)).
    reflexivity.
  - apply (proj2 (retrieve_without_index failing "soil" 3 empty_world)).
    reflexivity.
Defined.

Lemma qa_chain_needs_store_and_llm_witness :
  exists obj w1,
    GeographyRAGSystem.init working "your key" indexed_world
    = (Returned obj, w1)
    /\ let s := RagLifecycle.perform_all working
                  [RagLifecycle.Op_answer_question "soil";
                   RagLifecycle.Op_create_qa_chain;
                   RagLifecycle.Op_is_ready] (obj, w1) in
       RagLifecycle.invariant (fst s)
       /\ (exists ready,
              GeographyRAGSystem.is_ready s = (Returned ready, s)
              /\ (ready = true <->
                  is_Some (GeographyRAGSystem.vector_store (fst s))
                  /\ is_Some (GeographyRAGSystem.qa_chain (fst s)))).
Proof.
  eexists. eexists. split; [vm_compute; reflexivity|].
  apply (qa_chain_needs_store_and_llm working "your key" indexed_world).
  vm_compute. reflexivity.
Defined.

Lemma extract_failure_gives_empty_text_witness :
  DocumentProcessor.extract_text_from_pdf failing (processor, empty_world)
  = (Returned "",
     (processor,
      {| disk := disk empty_world;
         log := [CallPdfReader "textbook.pdf"; CallExtractText 0;
                 CallExtractText 1;
                 Stdout "Error extracting text from PDF: bad page"] |})).
Proof.
  apply (proj2 (extract_failure_gives_empty_text failing processor
                  empty_world)
           ["Resources"] (mkException "bad page") []).
  reflexivity.
Defined.

Lemma process_document_all_or_nothing_witness :
  let run := DocumentProcessor.process_document no_embedding true
               (processor, empty_world) in
  fst run = Returned None
  /\ disk (snd (snd run)) = disk empty_world.
Proof.
  destruct (process_document_all_or_nothing no_embedding true processor
              empty_world) as [evs [Hlog [Hfail Hdisk]]].
  vm_compute in Hlog. subst evs. split.
  - apply (Hfail [mkDocument ("Resources" +:+ nl +:+ "Agriculture" +:+ nl)]
             (mkException "out of memory")); [|reflexivity].
    vm_compute. tauto.
  - reflexivity.
Defined.

Lemma blank_question_rejected_witness :
  let st' := snd (App.run_script working (ask ("  " +:+ nl))
                    (session, indexed_world)) in
  exists evs,
    log (snd st') = log indexed_world ++ evs
    /\ Forall no_query_call evs
    /\ (forall obj, App.rag_system session = Some (Some obj) ->
                    Forall display_event evs)
    /\ (history (fst st') = history session
        \/ (App.clear_button (ask ("  " +:+ nl)) = true
            /\ history (fst st') = [])).
Proof.
  apply (blank_question_rejected working (ask ("  " +:+ nl)) session
           indexed_world).
  reflexivity.
Defined.

Lemma clear_history_changes_only_history_witness :
  App.run_script working clear (session, indexed_world)
  = (Returned tt,
     ({| App.rag_system := Some (Some ready_system);
         App.vector_store_ready := Some true;
         App.chat_history := Some [];
         App.current_question := None |},
      {| disk := disk indexed_world;
         log := [StMetric "Questions Asked" "0";
                 StMetric "Vector Store Status" "Ready";
                 StMarkdown "Resources and Development";
                 StMarkdown "Forest and Wildlife Resources";
                 StMarkdown "Water Resources";
                 StMarkdown "Agriculture";
                 StMarkdown "Minerals and Energy Resources";
                 StMarkdown "Manufacturing Industries"] |})).
Proof.
  apply (clear_history_changes_only_history working clear session
           indexed_world ready_system); reflexivity.
Defined.

(** What the same session does with a question that is not blank: the
    chain is called and the exchange is appended. *)
Example question_answered :
  let st' := snd (App.run_script working (ask "What is soil?")
                    (session, indexed_world)) in
  history (fst st')
  = [("What is soil?", "About What is soil?");
     ("What is soil?",
      "About What is soil?" +:+ GeographyRAGSystem.provenance_note)]
  /\ In (CallQAChain "What is soil?") (log (snd st')).
Proof. vm_compute. tauto. Qed.
End Instances.

(** * Further properties of the code *)

(** ** document_processor.py: the pipeline step by step *)
Section ProcessorRuns.
Import DocumentProcessor.
Variable lib : Collaborators.

Lemma append_cons (c : ascii) (a b : string) :
  String c a +:+ b = String c (a +:+ b).
Proof. reflexivity. Qed.

Lemma append_empty_r (a : string) : a +:+ "" = a.
Proof.
  induction a as [|x a IH]; [reflexivity|]. rewrite append_cons, IH.
  reflexivity.
Qed.

Lemma append_assoc (a b c : string) : (a +:+ b) +:+ c = a +:+ (b +:+ c).
Proof.
  induction a as [|x a IH]; [reflexivity|].
  rewrite !append_cons, IH. reflexivity.
Qed.

Lemma joined_from (texts : list string) (text : string) :
  joined texts text
  = text +:+ fold_right (fun t rest => t +:+ (nl +:+ rest)) "" texts.
Proof.
  revert text. induction texts as [|t texts IH]; intros text.
  - simpl. rewrite append_empty_r. reflexivity.
  - unfold joined in *. simpl. rewrite IH, !append_assoc. reflexivity.
Qed.

Lemma joined_truthy (t : string) (texts : list string) :
  str_truthy (joined (t :: texts) "") = true.
Proof.
  rewrite joined_from. simpl. destruct t; reflexivity.
Qed.

(** X1: the text of a PDF whose pages all extract: the pages in order, each
    followed by a newline; no pages, no text. *)
Theorem extract_text_joins_pages (self : t) (w : World)
    (texts : list string) :
  PdfReader lib (pdf_path self) (disk w) = Ok (map Ok texts) ->
  fst (extract_text_from_pdf lib (self, w))
  = Returned (fold_right (fun t rest => t +:+ (nl +:+ rest)) "" texts)
  /\ snd (extract_text_from_pdf lib (self, w))
     = (self,
        {| disk := disk w;
           log := log w
                  ++ CallPdfReader (pdf_path self)
                     :: map CallExtractText (seq 0 (List.length texts)) |}).
Proof.
  intros Hr. rewrite (extract_succeeds lib self w texts Hr). simpl.
  rewrite joined_from. split; reflexivity.
Qed.

Ltac run_pipeline :=
  unfold split_text_into_chunks, create_vector_store, save_vector_store,
    load_vector_store, try_except, bind, on_self, io, get,
    splitter_split_text, faiss_from_documents, faiss_save_local,
    faiss_load_local, bind, emit, modify, of_result, get, print, emit,
    modify, ret;
  simpl.

(** [process_document] up to the test of the extracted text, for a PDF
    whose pages all extract. *)
Lemma process_document_extracted (save : bool) (self : t) (w : World)
    (texts : list string) :
  PdfReader lib (pdf_path self) (disk w) = Ok (map Ok texts) ->
  process_document lib save (self, w)
  = (if negb (str_truthy (joined texts ""))
     then
       io (print "No text extracted from PDF") ;;; ret None
     else
       io (print "Splitting text into chunks...") ;;;
       documents <- split_text_into_chunks lib (joined texts "") ;;
       io (print ("Created " +:+ pretty (List.length documents)
                  +:+ " chunks")) ;;;
       io (print "Creating vector store...") ;;;
       vs <- create_vector_store lib documents ;;
       match vs with
       | Some store =>
           if save then save_vector_store lib store "vector_store"
           else ret tt
       | None => ret tt
       end ;;;
       on_self (modify (set_vector_store vs)) ;;;
       ret vs)
      (self,
       {| disk := disk w;
          log := log w
                 ++ Stdout "Extracting text from PDF..."
                    :: CallPdfReader (pdf_path self)
                    :: map CallExtractText (seq 0 (List.length texts)) |}).
Proof.
  intros Hr. unfold process_document. unfold bind at 1.
  unfold io at 1, print, emit, modify. simpl. unfold bind at 1.
  rewrite (extract_succeeds lib self
             {| disk := disk w;
                log := log w ++ [Stdout "Extracting text from PDF..."] |}
             texts Hr).
  simpl. rewrite <- app_assoc. reflexivity.
Qed.

(** X2: a PDF without pages gives no text and the pipeline stops before the
    splitter; a PDF with at least one page goes on to the splitter whatever
    its pages hold, blank pages included, because each page adds a
    newline. *)
Theorem process_document_needs_a_page (save : bool) (self : t) (w : World) :
  (PdfReader lib (pdf_path self) (disk w) = Ok [] ->
   process_document lib save (self, w)
   = (Returned None,
      (self,
       {| disk := disk w;
          log := log w
                 ++ [Stdout "Extracting text from PDF...";
                     CallPdfReader (pdf_path self);
                     Stdout "No text extracted from PDF"] |})))
  /\
  (forall page pages,
      PdfReader lib (pdf_path self) (disk w) = Ok (map Ok (page :: pages)) ->
      exists evs,
        log (snd (snd (process_document lib save (self, w)))) = log w ++ evs
        /\ In (CallSplitText (chunk_size self) (chunk_overlap self)
                 (joined (page :: pages) "")) evs).
Proof.
  split.
  - intros Hr. rewrite (process_document_extracted save self w [] Hr).
    run_pipeline. rewrite <- app_assoc. reflexivity.
  - intros page pages Hr.
    rewrite (process_document_extracted save self w (page :: pages) Hr).
    rewrite joined_truthy. cbv beta iota delta [negb].
    set (text := joined (page :: pages) "").
    run_pipeline.
    destruct (split_text lib (chunk_size self) (chunk_overlap self) text)
      as [chunks|e]; simpl.
    2:{ eexists. split; [rewrite <- ?app_assoc; simpl; reflexivity|].
        simpl. right. right. rewrite in_app_iff. right. simpl. tauto. }
    destruct (FAISS_from_documents lib (map mkDocument chunks)
                (embeddings self)) as [vs|e]; simpl.
    2:{ eexists. split; [rewrite <- ?app_assoc; simpl; reflexivity|].
        simpl. right. right. rewrite in_app_iff. right. simpl. tauto. }
    destruct save; simpl.
    + destruct (FAISS_save_local lib vs "vector_store" (disk w))
        as [[u|e] d']; simpl;
        (eexists; split; [rewrite <- ?app_assoc; simpl; reflexivity|]);
        simpl; right; right; rewrite in_app_iff; right; simpl; tauto.
    + eexists. split; [rewrite <- ?app_assoc; simpl; reflexivity|].
      simpl. right. right. rewrite in_app_iff. right. simpl. tauto.
Qed.

(** X3: when the text is extracted, split and embedded, [process_document]
    returns the store and keeps it in [self.vector_store] whether or not the
    save succeeds: a failing [save_local] is printed and otherwise ignored.
    The disk is what [save_local] left, or untouched when saving was not
    asked for. *)
Theorem process_document_success_ignores_save
    (save : bool) (self : t) (w : World)
    (page : string) (pages chunks : list string) (vs : FAISS) :
  PdfReader lib (pdf_path self) (disk w) = Ok (map Ok (page :: pages)) ->
  split_text lib (chunk_size self) (chunk_overlap self)
    (joined (page :: pages) "") = Ok chunks ->
  FAISS_from_documents lib (map mkDocument chunks) (embeddings self)
  = Ok vs ->
  let run := process_document lib save (self, w) in
  fst run = Returned (Some vs)
  /\ fst (snd run) = set_vector_store (Some vs) self
  /\ disk (snd (snd run))
     = (if save
        then snd (FAISS_save_local lib vs "vector_store" (disk w))
        else disk w).
Proof.
  intros Hr Hsplit Hbuild.
  rewrite (process_document_extracted save self w (page :: pages) Hr).
  rewrite joined_truthy. cbv beta iota delta [negb].
  set (text := joined (page :: pages) "") in *.
  run_pipeline. rewrite Hsplit. simpl. rewrite Hbuild. simpl.
  destruct save; simpl; [|auto].
  destruct (FAISS_save_local lib vs "vector_store" (disk w)) as [[u|e] d'];
    simpl; auto.
Qed.

(** X4: a failure of the splitter is the one failure [process_document]
    does not catch: the exception leaves the method, [self.vector_store] is
    not assigned and the disk is untouched. *)
Theorem process_document_splitter_error_propagates
    (save : bool) (self : t) (w : World)
    (page : string) (pages : list string) (e : PyException) :
  PdfReader lib (pdf_path self) (disk w) = Ok (map Ok (page :: pages)) ->
  split_text lib (chunk_size self) (chunk_overlap self)
    (joined (page :: pages) "") = Err e ->
  let run := process_document lib save (self, w) in
  fst run = Raised e
  /\ fst (snd run) = self
  /\ disk (snd (snd run)) = disk w.
Proof.
  intros Hr Hsplit.
  rewrite (process_document_extracted save self w (page :: pages) Hr).
  rewrite joined_truthy. cbv beta iota delta [negb].
  set (text := joined (page :: pages) "") in *.
  run_pipeline. rewrite Hsplit. simpl. auto.
Qed.

(** X5: [load_vector_store] never raises: it returns the loaded store, or
    [None] with the cause printed; the processor and the disk are left as
    they were (the loaded store is not kept in [self.vector_store]). *)
Theorem load_vector_store_never_raises
    (load_path : string) (self : t) (w : World) :
  load_vector_store lib load_path (self, w)
  = match FAISS_load_local lib load_path (embeddings self) (disk w) with
    | Ok vs =>
        (Returned (Some vs),
         (self,
          {| disk := disk w;
             log := log w
                    ++ [CallLoadLocal load_path;
                        Stdout ("Vector store loaded from "
                                +:+ load_path)] |}))
    | Err e =>
        (Returned None,
         (self,
          {| disk := disk w;
             log := log w
                    ++ [CallLoadLocal load_path;
                        Stdout ("Error loading vector store: "
                                +:+ exc_str e)] |}))
    end.
Proof.
  run_pipeline.
  destruct (FAISS_load_local lib load_path (embeddings self) (disk w));
    simpl; rewrite <- app_assoc; destruct self; reflexivity.
Qed.

(** X6: [save_vector_store] never raises: whatever [save_local] does, the
    method returns, having printed that the store was saved or why it was
    not; the disk is as [save_local] left it, also when it failed. *)
Theorem save_vector_store_never_raises
    (vs : FAISS) (save_path : string) (self : t) (w : World) :
  save_vector_store lib vs save_path (self, w)
  = (Returned tt,
     (self,
      {| disk := snd (FAISS_save_local lib vs save_path (disk w));
         log := log w
                ++ [CallSaveLocal save_path;
                    Stdout
                      match fst (FAISS_save_local lib vs save_path (disk w))
                      with
                      | Ok _ => "Vector store saved to " +:+ save_path
                      | Err e =>
                          "Error saving vector store: " +:+ exc_str e
                      end] |})).
Proof.
  run_pipeline.
  destruct (FAISS_save_local lib vs save_path (disk w)) as [[u|e] d'];
    simpl; rewrite <- app_assoc; destruct self; reflexivity.
Qed.
End ProcessorRuns.

(** ** rag_system.py: construction, retrieval and answers *)
Section RagSystemRuns.
Import GeographyRAGSystem.
Variable lib : Collaborators.

Ltac run_rag :=
  unfold init, _initialize_components, _create_qa_chain,
    retrieve_relevant_documents, call_ret, call, try_except, bind,
    on_self, io, get, modify, ret, print, new_embeddings, new_chat_groq,
    new_retrieval_qa, faiss_load_local, faiss_similarity_search,
    path_exists, emit, modify, of_result, bind, get;
  simpl.

(** X7: with a store loaded, [retrieve_relevant_documents] makes one search
    and returns its hits as they come; a failing search is printed and
    gives the empty list, so that the caller sees no difference between no
    hit, a failed search and a missing index.  The object and the disk are
    never changed and nothing is raised. *)
Theorem retrieve_with_index
    (query : string) (k : Z) (self : t) (w : World) (vs : FAISS) :
  vector_store self = Some vs ->
  retrieve_relevant_documents lib query k (self, w)
  = match similarity_search lib vs query k with
    | Ok docs =>
        (Returned docs,
         (self,
          {| disk := disk w;
             log := log w ++ [CallSimilaritySearch query k] |}))
    | Err e =>
        (Returned [],
         (self,
          {| disk := disk w;
             log := log w
                    ++ [CallSimilaritySearch query k;
                        Stdout ("Error retrieving documents: "
                                +:+ exc_str e)] |}))
    end.
Proof.
  intros Hvs. run_rag. rewrite Hvs. simpl.
  destruct (similarity_search lib vs query k); simpl;
    rewrite <- ?app_assoc; destruct self; reflexivity.
Qed.

(** X8: the constructor raises only when the embedding model cannot be
    built; every other failure (the chat model, the load of the index, the
    chain) is caught inside [_initialize_components].  It never writes to
    the disk. *)
Theorem init_raises_only_for_embeddings (key : string) (w : World) :
  match HuggingFaceEmbeddings lib
          "sentence-transformers/all-MiniLM-L6-v2" "cpu" with
  | Err e =>
      init lib key w
      = (Raised e,
         {| disk := disk w; log := log w ++ [CallHuggingFaceEmbeddings] |})
  | Ok emb =>
      exists obj w',
        init lib key w = (Returned obj, w')
        /\ api_key obj = key
        /\ embeddings obj = emb
        /\ disk w' = disk w
  end.
Proof.
  run_rag.
  destruct (HuggingFaceEmbeddings lib _ _) as [emb|e]; simpl;
    [|reflexivity].
  destruct (ChatGroq_new lib key "openai/gpt-oss-20b") as [model|e]; simpl.
  2:{ do 2 eexists. split; [reflexivity|]. simpl. auto. }
  destruct (bool_decide (is_Some (disk w !! "vector_store"))); simpl.
  2:{ do 2 eexists. split; [reflexivity|]. simpl. auto. }
  destruct (FAISS_load_local lib "vector_store" emb (disk w)) as [vs|e];
    simpl.
  2:{ do 2 eexists. split; [reflexivity|]. simpl. auto. }
  destruct (RetrievalQA_from_chain_type lib model vs 4) as [chain|e]; simpl;
    do 2 eexists; (split; [reflexivity|]); simpl; auto.
Qed.

(** X9: a constructed system is ready exactly when the chat model was
    built, the index path exists on the disk, the index loaded and the
    chain was built; then the object holds that store, model and chain. *)
Theorem init_ready_iff (key : string) (w w' : World) (obj : t) :
  init lib key w = (Returned obj, w') ->
  fst (is_ready (obj, w')) = Returned true
  <->
  exists model vs chain,
    ChatGroq_new lib key "openai/gpt-oss-20b" = Ok model
    /\ is_Some (disk w !! "vector_store")
    /\ FAISS_load_local lib "vector_store" (embeddings obj) (disk w) = Ok vs
    /\ RetrievalQA_from_chain_type lib model vs 4 = Ok chain
    /\ vector_store obj = Some vs
    /\ llm obj = Some model
    /\ qa_chain obj = Some chain.
Proof.
  rewrite is_ready_value. simpl. run_rag.
  destruct (HuggingFaceEmbeddings lib _ _) as [emb|e]; simpl;
    [|discriminate].
  destruct (ChatGroq_new lib key "openai/gpt-oss-20b") as [model|e]; simpl.
  2:{ intros H; inversion H; subst; simpl. split; [discriminate|].
      intros (m & v & c & Hm & _). discriminate. }
  destruct (bool_decide (is_Some (disk w !! "vector_store"))) eqn:Hex; simpl.
  2:{ intros H; inversion H; subst; simpl. split; [discriminate|].
      intros (m & v & c & _ & Hsome & _).
      apply bool_decide_eq_false in Hex. contradiction. }
  apply bool_decide_eq_true in Hex.
  destruct (FAISS_load_local lib "vector_store" emb (disk w)) as [vs|e]
    eqn:Hload; simpl.
  2:{ intros H; inversion H; subst; simpl. split; [discriminate|].
      intros (m & v & c & _ & _ & Hl & _). simpl in Hl. congruence. }
  destruct (RetrievalQA_from_chain_type lib model vs 4) as [chain|e]
    eqn:Hchain; simpl; intros H; inversion H; subst; simpl.
  - split; [|reflexivity]. intros _. exists model, vs, chain. auto 10.
  - split; [discriminate|].
    intros (m & v & c & Hm & _ & Hl & Hc & _). simpl in Hl.
    injection Hm as <-. rewrite Hload in Hl. injection Hl as <-.
    congruence.
Qed.

(** X10: each question asked of a system with a chain costs exactly one
    chain call, whatever the chain answers; the object and the disk are
    not changed. *)
Theorem answer_question_one_chain_call
    (question : string) (self : t) (w : World) (chain : RetrievalQA) :
  qa_chain self = Some chain ->
  snd (answer_question lib question (self, w))
  = (self, {| disk := disk w; log := log w ++ [CallQAChain question] |}).
Proof.
  intros Hc. rewrite (answer_question_unfold lib question self w chain Hc).
  reflexivity.
Qed.

(** X11: a chain result without the key [result] does not raise either: the
    [KeyError] is caught and the answer is the error text naming the
    key. *)
Theorem answer_question_missing_result_key
    (question : string) (self : t) (w : World) (chain : RetrievalQA)
    (result : ChainResult) :
  qa_chain self = Some chain ->
  RetrievalQA_call lib chain question = Ok result ->
  res_result result = None ->
  fst (answer_question lib question (self, w))
  = Returned "Error generating answer: 'result'".
Proof.
  intros Hc Hcall Hkey.
  rewrite (answer_question_unfold lib question self w chain Hc).
  rewrite Hcall, Hkey. reflexivity.
Qed.
End RagSystemRuns.

(** ** app.py: what the page shows *)
Section PageViews.
Import App.

Lemma display_entries_run (total i : nat) (entries : list (string * string))
    (s : SessionState) (w : World) :
  display_entries total i entries (s, w)
  = (Returned tt,
     (s, {| disk := disk w;
            log := log w
                   ++ List.concat (imap (fun j => entry_view total (i + j))
                                entries) |})).
Proof.
  revert i w. induction entries as [|[q a] entries IH]; intros i w.
  - simpl. rewrite app_nil_r. destruct w. reflexivity.
  - cbn [display_entries]. unfold bind, io, emit, modify.
    cbn [fst snd disk log]. rewrite IH. cbn [fst snd disk log imap List.concat].
    rewrite <- !app_assoc. cbn [app]. rewrite Nat.add_0_r.
    unfold entry_view at 2, expander_label. cbn [fst snd app].
    do 8 f_equal.
    apply imap_ext. intros j x _. unfold compose.
    rewrite Nat.add_succ_r. reflexivity.
Qed.

Lemma display_chat_history_run (s : SessionState) (w : World)
    (h : list (string * string)) :
  chat_history s = Some h ->
  display_chat_history (s, w)
  = (Returned tt,
     (s, {| disk := disk w; log := log w ++ history_view h |})).
Proof.
  intros Hh. unfold display_chat_history. rewrite bind_eq.
  unfold attr. simpl. rewrite Hh.
  destruct h as [|e h']; cbn [list_truthy fst snd].
  - unfold ret. unfold history_view, shown. cbn. rewrite app_nil_r.
    destruct w. reflexivity.
  - rewrite display_entries_run. reflexivity.
Qed.

Lemma shown_length (h : list (string * string)) :
  List.length (shown h) = Nat.min (List.length h) 5.
Proof. unfold shown. rewrite length_drop. lia. Qed.

Lemma history_view_length (h : list (string * string)) :
  List.length (history_view h) = 3 * Nat.min (List.length h) 5.
Proof.
  unfold history_view. rewrite <- shown_length.
  generalize (List.length h) as total. intros total.
  generalize (shown h) as entries. intros entries.
  assert (G : forall f : nat -> nat,
            List.length
              (List.concat (imap (fun j => entry_view total (f j)) entries))
            = 3 * List.length entries).
  { induction entries as [|x entries IH]; intros f; [reflexivity|].
    cbn [imap List.concat]. rewrite length_app. unfold compose. cbn beta.
    specialize (IH (fun j => f (S j))). cbn beta in IH. rewrite IH.
    unfold entry_view. cbn [List.length]. lia. }
  apply (G (fun j => j)).
Qed.

(** X12: the history section shows the last five exchanges, oldest first,
    each as an expander with the question and the answer.  The expander at
    place [i] is numbered [n - 4 + i] for a history of [n] entries, which is
    the entry's position in the history only when there are five entries
    or more; with fewer the numbers start below 1.  The label carries the
    first fifty characters of the question and always ends in three dots.
    Nothing but the trace changes. *)
Theorem display_chat_history_shows_last_five
    (s : SessionState) (w : World) (h : list (string * string)) :
  chat_history s = Some h ->
  let n := List.length h in
  display_chat_history (s, w)
  = (Returned tt,
     (s, {| disk := disk w; log := log w ++ history_view h |}))
  /\ List.length (history_view h) = 3 * Nat.min n 5
  /\ (forall i question answer,
         shown h !! i = Some (question, answer) ->
         h !! (n - 5 + i) = Some (question, answer)
         /\ In (StExpander
                  ("Q" +:+ pretty (Z.of_nat n - 4 + Z.of_nat i)%Z
                   +:+ ": " +:+ str_take 50 question +:+ "..."))
              (history_view h)
         /\ ((Z.of_nat n - 4 + Z.of_nat i)%Z = Z.of_nat (n - 5 + i + 1)
             <-> 5 <= n)).
Proof.
  intros Hh n. split; [apply display_chat_history_run, Hh|].
  split; [apply history_view_length|].
  intros i question answer Hi. split; [|split].
  - unfold shown in Hi. rewrite lookup_drop in Hi. exact Hi.
  - unfold history_view. apply in_concat.
    exists (entry_view n i (question, answer)). split.
    + apply list_elem_of_In, elem_of_lookup_imap.
      exists i, (question, answer). split; [reflexivity | exact Hi].
    + left. reflexivity.
  - lia.
Qed.
End PageViews.

Section PageRuns.
Import App.
Variable lib : Collaborators.

(** The page from the second column to the end. *)
Lemma page_tail_run (s : SessionState) (w : World)
    (obj : GeographyRAGSystem.t) (ready : bool)
    (h : list (string * string)) :
  rag_system s = Some (Some obj) ->
  vector_store_ready s = Some ready ->
  chat_history s = Some h ->
  (quick_stats ;;;
   history <- attr "chat_history" chat_history ;;
   if list_truthy history then display_chat_history else ret tt) (s, w)
  = (Returned tt,
     (s, {| disk := disk w;
            log := log w
                   ++ stats_view (List.length h) ready
                   ++ history_view h |})).
Proof.
  intros Hrag Hready Hh.
  assert (Hs : set_rag_system (Some obj) s = s).
  { destruct s; simpl in *; subst; reflexivity. }
  rewrite bind_eq.
  assert (Hstats :
    quick_stats (s, w)
    = (Returned tt,
       (s, {| disk := disk w;
              log := log w ++ stats_view (List.length h) ready |}))).
  { unfold quick_stats.
    rewrite bind_eq. unfold attr at 1. cbn [fst snd]. rewrite Hh.
    rewrite bind_eq. unfold io at 1, emit, modify. cbn [fst snd].
    rewrite bind_eq. unfold attr at 1. cbn [fst snd]. rewrite Hready.
    rewrite bind_eq. unfold io at 1, emit, modify. cbn [fst snd disk log].
    rewrite bind_eq. unfold attr at 1. cbn [fst snd]. rewrite Hrag.
    rewrite bind_eq. unfold session_topic_suggestions, call.
    cbn [fst snd GeographyRAGSystem.get_topic_suggestions ret take].
    rewrite Hs. unfold io, emit, modify.
    cbn [for_each]. unfold bind, ret. cbn [fst snd disk log].
    unfold stats_view. rewrite <- !app_assoc. reflexivity. }
  rewrite Hstats, bind_eq. unfold attr at 1. cbn [fst snd]. rewrite Hh.
  destruct (list_truthy h) eqn:Ht.
  - rewrite (display_chat_history_run s _ h Hh). cbn [disk log].
    rewrite <- app_assoc. reflexivity.
  - destruct h; [|discriminate]. unfold ret, history_view, shown.
    cbn [List.length drop imap List.concat Nat.sub disk log].
    rewrite !app_nil_r. reflexivity.
Qed.

(** The execution up to "Process question" on a page that is set up and
    without Clear History. *)
Lemma main_ready_run (ui : Widgets) (s : SessionState) (w : World)
    (obj : GeographyRAGSystem.t) :
  rag_system s = Some (Some obj) ->
  clear_button ui = false ->
  main lib ui (s, w)
  = (process_question lib ui (submitted_question ui s) ;;;
     quick_stats ;;;
     history <- attr "chat_history" chat_history ;;
     if list_truthy history then display_chat_history else ret tt)
      (set_current_question None (initialized s), w).
Proof.
  intros Hrag Hclear. unfold main.
  rewrite bind_eq, initialize_run, bind_eq, sidebar_run, bind_eq.
  rewrite (ensure_ready lib _ w obj); [|simpl; rewrite Hrag; reflexivity].
  rewrite bind_eq. unfold attr at 1. simpl. rewrite Hrag. simpl.
  rewrite bind_eq, take_default_run, bind_eq. unfold clear_history.
  rewrite Hclear. reflexivity.
Qed.

(** X13: on a page that is set up, an execution in which neither Ask
    Question nor Clear History is pressed (a first display, a sample button,
    any other rerun) only redraws the page: it calls no collaborator, keeps
    the system, the flag, the history and the disk, and uses up a pending
    sample question. *)
Theorem idle_execution_redraws
    (ui : Widgets) (s : SessionState) (w : World)
    (obj : GeographyRAGSystem.t) :
  rag_system s = Some (Some obj) ->
  clear_button ui = false ->
  ask_button ui = false ->
  run_script lib ui (s, w)
  = (Returned tt,
     ({| rag_system := Some (Some obj);
         vector_store_ready := Some (default false (vector_store_ready s));
         chat_history := Some (history s);
         current_question := None |},
      {| disk := disk w;
         log := log w
                ++ stats_view (List.length (history s))
                     (default false (vector_store_ready s))
                ++ history_view (history s) |})).
Proof.
  intros Hrag Hclear Hask. unfold run_script.
  rewrite (main_ready_run ui s w obj Hrag Hclear).
  rewrite bind_eq. unfold process_question. rewrite Hask. unfold ret at 1.
  rewrite (page_tail_run _ w obj (default false (vector_store_ready s))
             (history s));
    [|simpl; rewrite Hrag; reflexivity|reflexivity|reflexivity].
  unfold initialized, set_current_question, history.
  cbn [rag_system vector_store_ready chat_history current_question].
  rewrite Hrag. reflexivity.
Qed.

(** The answer a system gives does not depend on the world it is asked
    in; the trace gains the chain call, if there is a chain. *)
Lemma answer_question_run (question : string) (obj : GeographyRAGSystem.t)
    (w w1 : World) (a : string) :
  fst (GeographyRAGSystem.answer_question lib question (obj, w))
  = Returned a ->
  GeographyRAGSystem.answer_question lib question (obj, w1)
  = (Returned a,
     (obj,
      {| disk := disk w1;
         log := log w1
                ++ (if is_not_None (GeographyRAGSystem.qa_chain obj)
                    then [CallQAChain question] else []) |})).
Proof.
  destruct (GeographyRAGSystem.qa_chain obj) as [chain|] eqn:Hc.
  - rewrite !(answer_question_unfold lib question obj _ chain Hc). simpl.
    intros Ha. injection Ha as <-. reflexivity.
  - rewrite !(answer_question_without_chain lib question obj _ Hc). simpl.
    intros Ha. injection Ha as <-. rewrite app_nil_r. destruct w1.
    reflexivity.
Qed.

Lemma io_emit_run {O} (e : event) (o : O) (w : World) :
  io (emit e) (o, w)
  = (Returned tt, (o, {| disk := disk w; log := log w ++ [e] |})).
Proof. reflexivity. Qed.

Lemma attr_run {A} (name : string) (field : SessionState -> option A)
    (s : SessionState) (w : World) (v : A) :
  field s = Some v -> attr name field (s, w) = (Returned v, (s, w)).
Proof. intros H. unfold attr. simpl. rewrite H. reflexivity. Qed.

Lemma modify_run {O W} (f : O -> O) (o : O) (w : W) :
  on_self (modify f) (o, w) = (Returned tt, (f o, w)).
Proof. reflexivity. Qed.

Lemma session_answer_run (question : string) (s : SessionState)
    (w w0 : World) (obj : GeographyRAGSystem.t) (a : string) :
  rag_system s = Some (Some obj) ->
  fst (GeographyRAGSystem.answer_question lib question (obj, w0))
  = Returned a ->
  session_answer_question lib question (s, w)
  = (Returned a,
     (s, {| disk := disk w;
            log := log w ++ answer_calls obj question |})).
Proof.
  intros Hrag Ha. unfold session_answer_question.
  rewrite bind_eq, (attr_run _ _ s w (Some obj) Hrag). unfold call.
  cbn [fst snd].
  rewrite (answer_question_run question obj w0 w a Ha).
  assert (Hs : set_rag_system (Some obj) s = s).
  { destruct s; simpl in *; subst; reflexivity. }
  rewrite Hs. reflexivity.
Qed.

Lemma process_question_answers (ui : Widgets) (question : string)
    (s : SessionState) (w : World) (obj : GeographyRAGSystem.t)
    (h : list (string * string)) (a : string) (w0 : World) :
  rag_system s = Some (Some obj) ->
  chat_history s = Some h ->
  ask_button ui = true ->
  str_truthy (strip question) = true ->
  fst (GeographyRAGSystem.answer_question lib question (obj, w0))
  = Returned a ->
  process_question lib ui question (s, w)
  = (Returned tt,
     (set_chat_history (h ++ [(question, a)]) s,
      {| disk := disk w;
         log := log w
                ++ StSpinner "Thinking..."
                   :: answer_calls obj question
                   ++ [StMarkdown ("**Question:** " +:+ question);
                       StMarkdown ("**Answer:** " +:+ a)] |})).
Proof.
  intros Hrag Hh Hask Hstrip Ha. unfold process_question.
  rewrite Hask, Hstrip, bind_eq, io_emit_run. unfold try_except.
  rewrite bind_eq.
  rewrite (session_answer_run question s _ w0 obj a Hrag Ha).
  rewrite bind_eq, io_emit_run, bind_eq, io_emit_run, bind_eq.
  rewrite (attr_run _ _ s _ h Hh), modify_run.
  cbn [disk log]. rewrite <- !app_assoc. reflexivity.
Qed.

(** X14: on a page that is set up, Ask Question with a question that is not
    blank appends exactly one entry to the history: the question as
    submitted (not stripped) with whatever [answer_question] returned, be it
    an answer, the not-initialized message or an error text.  The answer is
    shown, the counter shows one more, the system, the flag and the disk
    are unchanged, and the chain is called once if there is one. *)
Theorem question_appends_one_entry
    (ui : Widgets) (s : SessionState) (w : World)
    (obj : GeographyRAGSystem.t) :
  rag_system s = Some (Some obj) ->
  clear_button ui = false ->
  ask_button ui = true ->
  whitespace_only (submitted_question ui s) = false ->
  let question := submitted_question ui s in
  exists answer,
    fst (GeographyRAGSystem.answer_question lib question (obj, w))
    = Returned answer
    /\ run_script lib ui (s, w)
       = (Returned tt,
          ({| rag_system := Some (Some obj);
              vector_store_ready :=
                Some (default false (vector_store_ready s));
              chat_history := Some (history s ++ [(question, answer)]);
              current_question := None |},
           {| disk := disk w;
              log := log w
                     ++ StSpinner "Thinking..."
                        :: answer_calls obj question
                        ++ [StMarkdown ("**Question:** " +:+ question);
                            StMarkdown ("**Answer:** " +:+ answer)]
                        ++ stats_view (S (List.length (history s)))
                             (default false (vector_store_ready s))
                        ++ history_view
                             (history s ++ [(question, answer)]) |})).
Proof.
  intros Hrag Hclear Hask Hblank question.
  assert (Hex : exists answer,
    fst (GeographyRAGSystem.answer_question lib question (obj, w))
    = Returned answer).
  { destruct (GeographyRAGSystem.qa_chain obj) as [chain|] eqn:Hc.
    - rewrite (answer_question_unfold lib question obj w chain Hc). eauto.
    - rewrite (answer_question_without_chain lib question obj w Hc). eauto. }
  destruct Hex as [answer Ha]. exists answer. split; [exact Ha|].
  unfold run_script. rewrite (main_ready_run ui s w obj Hrag Hclear).
  fold question. rewrite bind_eq.
  assert (Hstrip : str_truthy (strip question) = true).
  { destruct (strip question) eqn:E; [|reflexivity].
    apply strip_empty_iff in E. unfold question in E. congruence. }
  rewrite (process_question_answers ui question
             (set_current_question None (initialized s)) w obj
             (history s) answer w);
    [|simpl; rewrite Hrag; reflexivity|reflexivity|exact Hask|exact Hstrip
     |exact Ha].
  rewrite (page_tail_run _ _ obj (default false (vector_store_ready s))
             (history s ++ [(question, answer)]));
    [|simpl; rewrite Hrag; reflexivity|reflexivity|reflexivity].
  unfold initialized, set_current_question, set_chat_history.
  cbn [rag_system vector_store_ready chat_history current_question disk log].
  rewrite Hrag, length_app, Nat.add_1_r.
  assert (Hlist : forall (x : event) (l0 l1 l2 l3 : list event),
            (l0 ++ x :: l1 ++ l2) ++ l3 = l0 ++ x :: l1 ++ l2 ++ l3).
  { intros x l0 l1 l2 l3. rewrite <- app_assoc. simpl.
    rewrite <- app_assoc. reflexivity. }
  rewrite Hlist. reflexivity.
Qed.
End PageRuns.

Section SetupRuns.
Import App.
Variable lib : Collaborators.

Ltac run_init :=
  unfold GeographyRAGSystem.init, GeographyRAGSystem._initialize_components,
    GeographyRAGSystem._create_qa_chain, call_ret, call, try_except, bind,
    on_self, io, get, modify, ret, print, new_embeddings, new_chat_groq,
    new_retrieval_qa, faiss_load_local, path_exists, emit, modify,
    of_result, bind, get;
  simpl.

Ltac trace_of_init :=
  split; [discriminate|]; split; [reflexivity|];
  eexists; split; [rewrite <- ?app_assoc; simpl; reflexivity|];
  repeat constructor.

(** The constructor of the system reads the disk and never writes it, and
    calls nothing of the document pipeline. *)
Lemma init_frame (key : string) (w : World) :
  fst (GeographyRAGSystem.init lib key w) <> Rerun
  /\ disk (snd (GeographyRAGSystem.init lib key w)) = disk w
  /\ grows no_build_call w (snd (GeographyRAGSystem.init lib key w)).
Proof.
  run_init.
  destruct (HuggingFaceEmbeddings lib _ _) as [emb|e]; simpl;
    [|trace_of_init].
  destruct (ChatGroq_new lib key "openai/gpt-oss-20b") as [model|e]; simpl;
    [|trace_of_init].
  destruct (bool_decide (is_Some (disk w !! "vector_store"))); simpl;
    [|trace_of_init].
  destruct (FAISS_load_local lib "vector_store" emb (disk w)) as [vs|e];
    simpl; [|trace_of_init].
  destruct (RetrievalQA_from_chain_type lib model vs 4) as [chain|e]; simpl;
    trace_of_init.
Qed.

Lemma path_exists_run (p : string) (s : SessionState) (w : World) :
  io (path_exists p) (s, w)
  = (Returned (bool_decide (is_Some (disk w !! p))), (s, w)).
Proof. reflexivity. Qed.

(** [setup_rag_system] when the index path is on the disk. *)
Lemma setup_with_index (s : SessionState) (w : World) :
  is_Some (disk w !! "vector_store") ->
  setup_rag_system lib (s, w)
  = match GeographyRAGSystem.init lib "your key" w with
    | (Returned rag, w') =>
        (Returned (Some rag), (set_vector_store_ready true s, w'))
    | (Raised e, w') =>
        (Returned None,
         (set_vector_store_ready true s,
          {| disk := disk w';
             log := log w'
                    ++ [StError ("Error setting up RAG system: "
                                 +:+ exc_str e)] |}))
    | (Rerun, w') => (Rerun, (set_vector_store_ready true s, w'))
    end.
Proof.
  intros Hex. unfold setup_rag_system. cbv zeta. unfold try_except.
  rewrite bind_eq, path_exists_run, (bool_decide_eq_true_2 _ Hex).
  cbn [negb]. rewrite bind_eq, modify_run, bind_eq. unfold io at 1.
  cbn [fst snd].
  destruct (GeographyRAGSystem.init lib "your key" w) as [[rag|e|] w'];
    reflexivity.
Qed.

(** X15: [setup_rag_system] never raises and never asks for a rerun:
    whatever the collaborators do it returns a system or [None]. *)
Theorem setup_rag_system_never_raises (s : SessionState) (w : World) :
  exists result st',
    setup_rag_system lib (s, w) = (Returned result, st').
Proof.
  destruct (quietly_setup lib (s, w)) as [Hr _]. revert Hr.
  unfold setup_rag_system. cbv zeta. unfold try_except.
  match goal with
  | |- context [match ?body (s, w) with _ => _ end] =>
      destruct (body (s, w)) as [[r|e|] [s' w']]
  end.
  - eauto.
  - rewrite bind_eq, io_emit_run. eauto.
  - intros Hr. destruct (Hr eq_refl).
Qed.

(** X16: when the index path is on the disk, [setup_rag_system] does not
    run the document pipeline (no PDF is read, nothing is split, embedded
    or saved), leaves the disk as it is, and sets [vector_store_ready] to
    [True] before the system is constructed, hence also when the
    construction fails or the index cannot be loaded. *)
Theorem setup_keeps_existing_index (s : SessionState) (w : World) :
  is_Some (disk w !! "vector_store") ->
  let run := setup_rag_system lib (s, w) in
  vector_store_ready (fst (snd run)) = Some true
  /\ disk (snd (snd run)) = disk w
  /\ exists evs,
       log (snd (snd run)) = log w ++ evs /\ Forall no_build_call evs.
Proof.
  intros Hex. cbv zeta. rewrite (setup_with_index s w Hex).
  destruct (init_frame "your key" w) as [Hr [Hd [evs [Hlog Hev]]]].
  destruct (GeographyRAGSystem.init lib "your key" w) as [[rag|e|] w'];
    simpl in *.
  - split; [reflexivity|]. split; [exact Hd|]. eauto.
  - split; [reflexivity|]. split; [exact Hd|].
    exists (evs ++ [StError ("Error setting up RAG system: " +:+ exc_str e)]).
    rewrite Hlog, app_assoc. split; [reflexivity|].
    apply Forall_app. split; [exact Hev|]. repeat constructor.
  - destruct (Hr eq_refl).
Qed.

(** X17: an index that is on the disk but cannot be loaded leaves the page
    saying Ready while the system is not: [setup_rag_system] returns a
    system without store and chain, with [vector_store_ready] set, and that
    system answers every question with the not-initialized message. *)
Theorem unloadable_index_reported_ready
    (s : SessionState) (w : World) (emb : Embeddings) (e : PyException) :
  is_Some (disk w !! "vector_store") ->
  HuggingFaceEmbeddings lib "sentence-transformers/all-MiniLM-L6-v2" "cpu"
  = Ok emb ->
  FAISS_load_local lib "vector_store" emb (disk w) = Err e ->
  let run := setup_rag_system lib (s, w) in
  exists rag,
    fst run = Returned (Some rag)
    /\ vector_store_ready (fst (snd run)) = Some true
    /\ GeographyRAGSystem.vector_store rag = None
    /\ GeographyRAGSystem.qa_chain rag = None
    /\ fst (GeographyRAGSystem.is_ready (rag, snd (snd run)))
       = Returned false
    /\ forall question w2,
         GeographyRAGSystem.answer_question lib question (rag, w2)
         = (Returned GeographyRAGSystem.not_initialized_message, (rag, w2)).
Proof.
  intros Hex Hemb Hload. cbv zeta. rewrite (setup_with_index s w Hex).
  run_init. rewrite Hemb. simpl.
  destruct (ChatGroq_new lib "your key" "openai/gpt-oss-20b") as [model|e'];
    simpl.
  - rewrite (bool_decide_eq_true_2 _ Hex). simpl. rewrite Hload. simpl.
    eexists. split; [reflexivity|]. split; [reflexivity|].
    split; [reflexivity|]. split; [reflexivity|]. split; [reflexivity|].
    intros question w2. apply answer_question_without_chain. reflexivity.
  - eexists. split; [reflexivity|]. split; [reflexivity|].
    split; [reflexivity|]. split; [reflexivity|]. split; [reflexivity|].
    intros question w2. apply answer_question_without_chain. reflexivity.
Qed.

(** X18: when the embedding model cannot be built, the first execution shows
    the setup error and the initialization error and stops there: no form,
    no metrics, no history section, and the buttons are not looked at.
    [rag_system] stays [None], so the next execution tries again; a pending
    sample question is kept; if the index path exists the flag has been set
    to [True] all the same. *)
Theorem failed_setup_stops_the_page
    (ui : Widgets) (s : SessionState) (w : World) (e : PyException) :
  default None (rag_system s) = None ->
  HuggingFaceEmbeddings lib "sentence-transformers/all-MiniLM-L6-v2" "cpu"
  = Err e ->
  let found := bool_decide (is_Some (disk w !! "vector_store")) in
  run_script lib ui (s, w)
  = (Returned tt,
     ({| rag_system := Some None;
         vector_store_ready :=
           Some (if found then true
                 else default false (vector_store_ready s));
         chat_history := Some (history s);
         current_question := pending_question ui s |},
      {| disk := disk w;
         log := log w
                ++ StSpinner "Initializing AI Tutor..."
                   :: (if found then []
                       else [StWarning
                               "Vector store not found. Processing document...";
                             StSpinner
                               "Processing NCERT Geography PDF... This may take a few minutes."])
                   ++ [CallHuggingFaceEmbeddings;
                       StError ("Error setting up RAG system: "
                                +:+ exc_str e);
                       StError
                         "Failed to initialize the AI tutor. Please check the setup."] |})).
Proof.
  intros Hrag Hemb found. unfold run_script, main.
  rewrite bind_eq, initialize_run, bind_eq, sidebar_run, bind_eq.
  unfold ensure_rag_system. rewrite bind_eq. unfold attr at 1.
  cbn [fst snd initialized set_current_question rag_system]. rewrite Hrag.
  rewrite bind_eq, io_emit_run, bind_eq.
  unfold setup_rag_system. cbv zeta. unfold try_except.
  rewrite bind_eq, path_exists_run. cbn [disk log]. fold found.
  destruct found; cbn [negb].
  - rewrite bind_eq, modify_run, bind_eq. unfold io at 1. cbn [fst snd].
    run_init. rewrite Hemb. simpl. unfold history.
    rewrite <- !app_assoc. reflexivity.
  - rewrite bind_eq, io_emit_run, bind_eq, io_emit_run, bind_eq.
    unfold io at 1. cbn [fst snd].
    unfold DocumentProcessor.init. run_init. rewrite Hemb. simpl.
    unfold history. rewrite <- !app_assoc. reflexivity.
Qed.

(** X19: an execution in which Ask Question is not pressed never calls
    retrieval or completion and never appends to the history, whatever the
    state: pressing a sample button fills in the question and does not
    submit it. *)
Theorem unasked_execution_is_quiet
    (ui : Widgets) (s : SessionState) (w : World) :
  ask_button ui = false ->
  let st' := snd (run_script lib ui (s, w)) in
  exists evs,
    log (snd st') = log w ++ evs
    /\ Forall no_query_call evs
    /\ (history (fst st') = history s
        \/ (clear_button ui = true /\ history (fst st') = [])).
Proof.
  intros Hask.
  assert (H : rejected no_query_call (clear_button ui) (s, w)
                (snd (run_script lib ui (s, w)))).
  { unfold run_script.
    pose proof (main_rejected lib ui s w (or_introl Hask)) as H1.
    destruct (main lib ui (s, w)) as [[[]|e|] st1]; simpl in H1 |- *;
      try exact H1.
    etransitivity; [exact H1|]. destruct st1 as [s1 w1].
    apply rejected_unpressed.
    apply (main_rejected lib (after_rerun ui) s1 w1). left. reflexivity. }
  destruct H as [[evs [Hlog Hall]] Hhist]. simpl in Hlog, Hhist |- *. eauto.
Qed.
End SetupRuns.

(** ** document_processor.py: the earlier GeographyRAGSystem *)
Section EarlierSystem.
Import GeographyRAGSystem_v1.
Variable lib : Collaborators.
Variable Groq_new : string -> Result GroqClient.
Variable chat_create : string -> string -> string -> Result string.
Variable chat_stream :
  string -> string -> string -> Result (list (Result (option string))).

Lemma add_references_from (i : nat) (docs : list string) (context : string) :
  add_references i docs context
  = context
    +:+ fold_right String.append ""
          (imap (fun j => reference (i + j)) docs).
Proof.
  revert i context. induction docs as [|doc docs IH]; intros i context.
  - simpl. rewrite append_empty_r. reflexivity.
  - cbn [add_references imap fold_right]. rewrite IH, append_assoc.
    rewrite Nat.add_0_r. do 3 f_equal.
    apply imap_ext. intros j x _. unfold compose.
    rewrite Nat.add_succ_r. reflexivity.
Qed.

Lemma reference_occurs (i j : nat) (docs : list string) (doc : string) :
  docs !! j = Some doc ->
  exists before after,
    fold_right String.append "" (imap (fun k => reference (i + k)) docs)
    = before +:+ (reference (i + j) doc +:+ after).
Proof.
  revert i j. induction docs as [|d docs IH]; intros i j Hj;
    [discriminate|].
  cbn [imap fold_right]. destruct j as [|j].
  - injection Hj as ->. exists "". eexists. reflexivity.
  - simpl in Hj. destruct (IH (S i) j Hj) as [before [after Heq]].
    exists (reference (i + 0) d +:+ before), after.
    rewrite append_assoc. f_equal.
    rewrite Nat.add_succ_r. change (S (i + j)) with (S i + j).
    rewrite <- Heq. f_equal.
    apply imap_ext. intros k x _. unfold compose.
    rewrite Nat.add_succ_r. reflexivity.
Qed.

(** X20: [create_context] gives the fixed no-information sentence for an
    empty list; for a non-empty list it gives the header followed by one
    block per document, in order, numbered from 1, so that every document
    occurs in the context in full under its rank. *)
Theorem create_context_numbers_documents (docs : list string) :
  (docs = [] -> create_context docs = no_information)
  /\ (docs <> [] ->
      create_context docs
      = context_header
        +:+ fold_right String.append ""
              (imap (fun j => reference (S j)) docs))
  /\ (forall j doc,
         docs !! j = Some doc ->
         exists before after,
           create_context docs
           = before
             +:+ ("Reference " +:+ pretty (S j) +:+ ":" +:+ nl
                  +:+ doc +:+ nl +:+ nl)
             +:+ after).
Proof.
  split; [intros ->; reflexivity|].
  assert (Hne : docs <> [] ->
            create_context docs
            = context_header
              +:+ fold_right String.append ""
                    (imap (fun j => reference (S j)) docs)).
  { intros Hd. destruct docs as [|d docs]; [contradiction|].
    unfold create_context. cbn [list_truthy negb].
    rewrite add_references_from. reflexivity. }
  split; [exact Hne|].
  intros j doc Hj.
  assert (Hd : docs <> []) by (intros ->; discriminate).
  rewrite (Hne Hd).
  destruct (reference_occurs 1 j docs doc Hj) as [before [after Heq]].
  exists (context_header +:+ before), after.
  change (fun j0 => reference (S j0)) with (fun k => reference (1 + k)).
  rewrite Heq. symmetry. apply append_assoc.
Qed.

Lemma generate_response_run
    (query context : string) (self : t) (w : World) :
  generate_response chat_create query context (self, w)
  = match chat_create completion_model system_prompt
            (user_prompt query context) with
    | Ok content => (Returned content, (self, w))
    | Err e =>
        (Returned apology,
         (self,
          {| disk := disk w;
             log := log w
                    ++ [Stdout ("Error generating response: "
                                +:+ exc_str e)] |}))
    end.
Proof.
  unfold generate_response, try_except, of_result, bind, io, print, emit,
    modify, ret.
  destruct (chat_create _ _ _); simpl; destruct self, w; reflexivity.
Qed.

(** X21: [generate_response] never raises: it returns the content of the
    completion as it is, or, on any failure of the call, the fixed apology;
    the cause is printed and is not part of what the user gets. *)
Theorem generate_response_apologizes
    (query context : string) (self : t) (w : World) :
  generate_response chat_create query context (self, w)
  = match chat_create completion_model system_prompt
            (user_prompt query context) with
    | Ok content => (Returned content, (self, w))
    | Err e =>
        (Returned apology,
         (self,
          {| disk := disk w;
             log := log w
                    ++ [Stdout ("Error generating response: "
                                +:+ exc_str e)] |}))
    end.
Proof. apply generate_response_run. Qed.

Lemma retrieve_v1_run (query : string) (k : Z) (self : t) (w : World) :
  exists docs w',
    retrieve_relevant_documents lib query k (self, w)
    = (Returned docs, (self, w'))
    /\ disk w' = disk w
    /\ (vector_store self = None -> docs = [] /\ w' = w).
Proof.
  unfold retrieve_relevant_documents, bind, on_self, get. simpl.
  destruct (vector_store self) as [vs|] eqn:Hvs.
  - unfold try_except, bind, io, faiss_similarity_search, bind, emit,
      modify, of_result, print, emit, modify, ret.
    simpl.
    destruct (similarity_search lib vs query k) as [hits|e]; simpl;
      do 2 eexists; (split; [destruct self; reflexivity|]);
      (split; [reflexivity|]); intros H; discriminate.
  - do 2 eexists. split; [destruct self, w; reflexivity|].
    split; [reflexivity|]. intros _. split; reflexivity.
Qed.

(** X22: without streaming, [answer_question] never raises: it returns a
    string, and leaves the object and the disk as they were, whatever the
    search and the completion do. *)
Theorem answer_question_v1_returns_text
    (query : string) (self : t) (w : World) :
  exists text w',
    answer_question lib chat_create chat_stream query false (self, w)
    = (Returned (Text text), (self, w'))
    /\ disk w' = disk w.
Proof.
  unfold answer_question. rewrite bind_eq.
  destruct (retrieve_v1_run query 3 self w) as [docs [w1 [Hrun [Hd _]]]].
  rewrite Hrun. cbv zeta. cbn iota. rewrite bind_eq.
  rewrite generate_response_run.
  destruct (chat_create _ _ _); simpl; do 2 eexists;
    (split; [reflexivity|]); simpl; exact Hd.
Qed.

(** X23: without an index this class, unlike the one in rag_system.py, still
    asks the model: the completion is called with the no-information
    sentence as context, and its content, or the apology, is the answer. *)
Theorem answer_question_v1_without_index
    (query : string) (self : t) (w : World) :
  vector_store self = None ->
  answer_question lib chat_create chat_stream query false (self, w)
  = match chat_create completion_model system_prompt
            (user_prompt query no_information) with
    | Ok content => (Returned (Text content), (self, w))
    | Err e =>
        (Returned (Text apology),
         (self,
          {| disk := disk w;
             log := log w
                    ++ [Stdout ("Error generating response: "
                                +:+ exc_str e)] |}))
    end.
Proof.
  intros Hvs. unfold answer_question. rewrite bind_eq.
  destruct (retrieve_v1_run query 3 self w) as [docs [w1 [Hrun [_ Hnone]]]].
  destruct (Hnone Hvs) as [-> ->]. rewrite Hrun. cbv zeta. cbn iota.
  rewrite bind_eq, generate_response_run.
  change (create_context []) with no_information.
  destruct (chat_create _ _ _); reflexivity.
Qed.

Lemma stream_chunks_prefix (deltas : list (option string))
    (rest : list (Result (option string))) :
  stream_chunks (map Ok deltas ++ rest) = kept deltas ++ stream_chunks rest.
Proof.
  induction deltas as [|[content|] deltas IH]; [reflexivity| |exact IH].
  cbn [map app stream_chunks kept].
  destruct (str_truthy content); [cbn [app]|]; rewrite IH; reflexivity.
Qed.

(** X24: the streamed answer is the contents of the chunks in order, the
    missing and the empty ones dropped.  A failure, of the call or of a
    chunk in the middle of the stream, ends it with one last item, the
    error text with the text of the exception in it (where the method
    without streaming gives the fixed apology).  No item is ever empty. *)
Theorem streaming_response_items (query context : string) :
  let items := get_streaming_response chat_stream query context in
  let chunks := chat_stream completion_model system_prompt
                  (streaming_user_prompt query context) in
  (forall e,
      chunks = Err e ->
      items = ["Error generating response: " +:+ exc_str e])
  /\ (forall deltas, chunks = Ok (map Ok deltas) -> items = kept deltas)
  /\ (forall deltas e rest,
         chunks = Ok (map Ok deltas ++ Err e :: rest) ->
         items
         = kept deltas ++ ["Error generating response: " +:+ exc_str e])
  /\ Forall (fun item => item <> "") items.
Proof.
  cbv zeta. unfold get_streaming_response.
  destruct (chat_stream _ _ _) as [chunks|e0].
  - split; [discriminate|]. split; [|split].
    + intros deltas H. injection H as ->.
      rewrite <- (app_nil_r (map Ok deltas)), stream_chunks_prefix.
      apply app_nil_r.
    + intros deltas e rest H. injection H as ->.
      rewrite stream_chunks_prefix. reflexivity.
    + induction chunks as [|[[content|]|e] chunks IH]; cbn [stream_chunks].
      * constructor.
      * destruct content as [|c content]; cbn; [exact IH|].
        constructor; [discriminate | exact IH].
      * exact IH.
      * constructor; [discriminate | constructor].
  - split; [intros e H; injection H as ->; reflexivity|].
    split; [discriminate|]. split; [discriminate|].
    constructor; [discriminate | constructor].
Qed.

(** X25: the constructor of this class fails only with the Groq client or
    the embedding model; a missing index is reported on the console and a
    failing load is caught, both leaving [vector_store] unset.  The store is
    set exactly when the path exists and the load succeeds; the disk is not
    written. *)
Theorem init_v1_loads_index
    (key path : string) (w : World) (client : GroqClient)
    (emb : Embeddings) :
  Groq_new key = Ok client ->
  HuggingFaceEmbeddings lib "sentence-transformers/all-MiniLM-L6-v2" "cpu"
  = Ok emb ->
  exists obj w',
    init lib Groq_new key path w = (Returned obj, w')
    /\ disk w' = disk w
    /\ groq_client obj = client
    /\ vector_store_path obj = path
    /\ (forall vs,
           vector_store obj = Some vs
           <-> is_Some (disk w !! path)
               /\ FAISS_load_local lib path emb (disk w) = Ok vs)
    /\ (disk w !! path = None ->
        log w'
        = log w
          ++ [CallHuggingFaceEmbeddings;
              Stdout
                "Vector store not found. Please process documents first."]).
Proof.
  intros Hclient Hemb.
  unfold init, load_vector_store, call_ret, call, try_except, bind, on_self,
    io, get, modify, ret, print, new_embeddings, faiss_load_local,
    path_exists, emit, modify, of_result, bind, get.
  simpl. rewrite Hclient, Hemb. simpl.
  destruct (bool_decide (is_Some (disk w !! path))) eqn:Hex; simpl.
  - apply bool_decide_eq_true in Hex.
    destruct (FAISS_load_local lib path emb (disk w)) as [vs|e] eqn:Hload;
      simpl; do 2 eexists; (split; [reflexivity|]); simpl;
      (split; [reflexivity|]); (split; [reflexivity|]);
      (split; [reflexivity|]); split.
    + intros vs'. split.
      * intros H. injection H as <-. auto.
      * intros [_ H]. congruence.
    + intros Hnone. rewrite Hnone in Hex. destruct Hex as [x Hx].
      discriminate.
    + intros vs'. split; [discriminate|]. intros [_ H]. discriminate.
    + intros Hnone. rewrite Hnone in Hex. destruct Hex as [x Hx].
      discriminate.
  - apply bool_decide_eq_false in Hex.
    do 2 eexists. split; [reflexivity|]. simpl.
    split; [reflexivity|]. split; [reflexivity|]. split; [reflexivity|].
    split.
    + intros vs'. split; [discriminate|]. intros [H _]. contradiction.
    + intros _. rewrite <- app_assoc. reflexivity.
Qed.
End EarlierSystem.

(** ** test_system.py *)
Section ReturnRules.
Context {S : Type}.

Lemma returns_ret {A} (Q : A -> Prop) (a : A) :
  Q a -> returns_in Q (@ret S A a).
Proof. intros Ha s. do 2 eexists. split; [reflexivity | exact Ha]. Qed.

Lemma returns_bind {A B} (Q' : A -> Prop) (Q : B -> Prop) (m : M S A)
    (k : A -> M S B) :
  returns_in Q' m -> (forall a, returns_in Q (k a)) ->
  returns_in Q (bind m k).
Proof.
  intros Hm Hk s. unfold bind. destruct (Hm s) as [a [s1 [-> _]]]. apply Hk.
Qed.

Lemma returns_try_except {A} (body : M S A)
    (handler : PyException -> M S A) :
  (forall s, fst (body s) <> Rerun) ->
  (forall e, returns_in (fun _ => True) (handler e)) ->
  returns_in (fun _ => True) (try_except body handler).
Proof.
  intros Hb Hh s. unfold try_except. specialize (Hb s).
  destruct (body s) as [[a|e|] s1]; simpl in Hb.
  - do 2 eexists. split; [reflexivity | exact I].
  - apply Hh.
  - destruct (Hb eq_refl).
Qed.
End ReturnRules.

Lemma returns_print (msg : string) :
  returns_in (fun _ => True) (print msg).
Proof. intros w. do 2 eexists. split; [reflexivity | exact I]. Qed.

Lemma returns_path_exists (p : string) :
  returns_in (fun _ => True) (path_exists p).
Proof. intros w. do 2 eexists. split; [reflexivity | exact I]. Qed.

Section TestFacts.
Import TestSystem.
Variable lib : Collaborators.
Variable api_key : string.

Ltac frame :=
  repeat first
    [ progress intros
    | apply preserves_ret
    | apply preserves_raise
    | apply preserves_of_result
    | apply preserves_get
    | apply preserves_on_self_get
    | apply preserves_on_self_modify
    | apply preserves_io
    | apply preserves_call_ret
    | apply preserves_bind
    | apply preserves_try_except
    | apply preserves_for_each
    | apply grows_path_exists
    | apply grows_save_local; exact I
    | apply grows_emit; exact I
    | match goal with
      | |- preserves _ (match ?x with _ => _ end) => destruct x
      end
    | match goal with |- PreOrder _ => exact _ end
    | assumption ].

Abbreviation steady := (preserves (grows any_event)).
Abbreviation steady_method := (preserves (on_world (grows any_event))).

Lemma steady_extract_pages (pages : list (Result string)) (i : nat)
    (text : string) :
  steady (DocumentProcessor.extract_pages pages i text).
Proof.
  revert i text. induction pages as [|page pages IH]; intros i text; simpl.
  - frame.
  - unfold page_extract_text. frame. apply IH.
Qed.

Lemma steady_process_with (processor : DocumentProcessor.t) :
  steady (process_with lib processor).
Proof.
  unfold process_with, DocumentProcessor.extract_text_from_pdf,
    DocumentProcessor.split_text_into_chunks,
    DocumentProcessor.create_vector_store,
    DocumentProcessor.save_vector_store,
    open_pdf, splitter_split_text, faiss_from_documents, print.
  frame; apply steady_extract_pages.
Qed.

Lemma steady_rag_init : steady (GeographyRAGSystem.init lib api_key).
Proof.
  unfold GeographyRAGSystem.init, GeographyRAGSystem._initialize_components,
    GeographyRAGSystem._create_qa_chain, new_chat_groq, faiss_load_local,
    new_retrieval_qa, print.
  frame.
Qed.

Lemma steady_test_query (i : nat) (query : string) :
  steady_method (test_query lib i query).
Proof.
  unfold test_query, GeographyRAGSystem.retrieve_relevant_documents,
    GeographyRAGSystem.answer_question, faiss_similarity_search,
    invoke_chain, print.
  frame.
Qed.

Lemma steady_test_each_query (i : nat) (queries : list string) :
  steady_method (test_each_query lib i queries).
Proof.
  revert i. induction queries as [|query queries IH]; intros i; simpl.
  - frame.
  - apply preserves_bind; [exact _ | apply steady_test_query |].
    intros [|]; [apply IH | frame].
Qed.

Lemma steady_print_topics (i : nat) (topics : list string) :
  steady (print_topics i topics).
Proof.
  revert i. induction topics as [|topic topics IH]; intros i; simpl.
  - frame.
  - unfold print. frame. apply IH.
Qed.

Ltac returns :=
  repeat first
    [ apply returns_ret;
      first [exact I | left; reflexivity | right; reflexivity]
    | eapply returns_bind; [apply returns_print | intros ?]
    | eapply returns_bind; [apply returns_path_exists | intros ?]
    | match goal with
      | |- returns_in _ (match ?x with _ => _ end) => destruct x
      end ].

Lemma test_document_processing_returns :
  returns_in (fun _ => True) (test_document_processing lib).
Proof.
  unfold test_document_processing. returns.
  apply returns_try_except; [|intros e; returns].
  intros w.
  assert (H : steady
    (found <- path_exists pdf_path ;;
     if negb found then
       print ("PDF file not found: " +:+ pdf_path) ;;;
       ret false
     else
       print ("PDF file found: " +:+ pdf_path) ;;;
       processor <- DocumentProcessor.init lib pdf_path 1000 200 ;;
       r <- process_with lib processor ;;
       ret (fst r))).
  { unfold DocumentProcessor.init, new_embeddings, print. frame.
    apply steady_extract_pages. }
  apply H.
Qed.

Lemma test_rag_system_returns :
  returns_in (fun _ => True) (test_rag_system lib api_key).
Proof.
  unfold test_rag_system. returns.
  apply returns_try_except; [|intros e; returns].
  intros w.
  assert (H : steady
    (rag_system <- GeographyRAGSystem.init lib api_key ;;
     print "RAG system initialized" ;;;
     r <- call_ret rag_system (test_each_query lib 1 test_queries) ;;
     if fst r then
       print (nl +:+ "All RAG system tests passed!") ;;;
       ret true
     else ret false)).
  { apply preserves_bind; [exact _ | apply steady_rag_init |].
    intros rag. unfold print. frame. }
  apply H.
Qed.

Lemma test_topic_suggestions_returns :
  returns_in (fun _ => True) (test_topic_suggestions lib api_key).
Proof.
  unfold test_topic_suggestions. returns.
  apply returns_try_except; [|intros e; returns].
  intros w.
  assert (H : steady
    (rag_system <- GeographyRAGSystem.init lib api_key ;;
     r <- call_ret rag_system GeographyRAGSystem.get_topic_suggestions ;;
     print ("Retrieved " +:+ pretty (List.length (fst r))
            +:+ " topic suggestions:") ;;;
     print_topics 1 (fst r) ;;;
     ret true)).
  { apply preserves_bind; [exact _ | apply steady_rag_init |].
    intros rag. unfold print. frame; apply steady_print_topics. }
  apply H.
Qed.

Lemma main_returns :
  returns_in (fun ending => ending = Finished \/ ending = Exited 1)
    (main lib api_key).
Proof.
  unfold main. returns.
  eapply returns_bind with (Q' := fun _ => True).
  { destruct (negb a1).
    - eapply returns_bind; [apply returns_print | intros ?].
      apply test_document_processing_returns.
    - returns. }
  intros processed. returns.
  eapply returns_bind; [apply test_rag_system_returns | intros answered].
  returns.
  eapply returns_bind; [apply test_topic_suggestions_returns|].
  intros suggested. returns.
Qed.

(** X26: no test function lets an exception out, whatever the collaborators
    do: each of the three returns [True] or [False], and [main] ends by
    returning or by [sys.exit(1)]. *)
Theorem tests_never_raise (w : World) :
  (exists passed w', test_document_processing lib w = (Returned passed, w'))
  /\ (exists passed w',
         test_rag_system lib api_key w = (Returned passed, w'))
  /\ (exists passed w',
         test_topic_suggestions lib api_key w = (Returned passed, w'))
  /\ (exists ending w',
         main lib api_key w = (Returned ending, w')
         /\ (ending = Finished \/ ending = Exited 1)).
Proof.
  split; [|split; [|split]].
  - destruct (test_document_processing_returns w) as [b [w' [H _]]]. eauto.
  - destruct (test_rag_system_returns w) as [b [w' [H _]]]. eauto.
  - destruct (test_topic_suggestions_returns w) as [b [w' [H _]]]. eauto.
  - apply main_returns.
Qed.
End TestFacts.

Section TestRuns.
Import TestSystem.
Variable lib : Collaborators.
Variable api_key : string.

Lemma print_run (msg : string) (w : World) :
  print msg w
  = (Returned tt, {| disk := disk w; log := log w ++ [Stdout msg] |}).
Proof. reflexivity. Qed.

Lemma io_print_run {O} (msg : string) (o : O) (w : World) :
  io (print msg) (o, w)
  = (Returned tt, (o, {| disk := disk w; log := log w ++ [Stdout msg] |})).
Proof. reflexivity. Qed.

(** The constructor when the embedding model is built. *)
Lemma rag_init_run (w : World) (emb : Embeddings) :
  HuggingFaceEmbeddings lib "sentence-transformers/all-MiniLM-L6-v2" "cpu"
  = Ok emb ->
  exists obj w',
    GeographyRAGSystem.init lib api_key w = (Returned obj, w')
    /\ disk w' = disk w
    /\ grows no_query_call w w'
    /\ (disk w !! "vector_store" = None
        \/ (exists e,
               FAISS_load_local lib "vector_store" emb (disk w) = Err e) ->
        GeographyRAGSystem.vector_store obj = None
        /\ GeographyRAGSystem.qa_chain obj = None).
Proof.
  intros Hemb.
  unfold GeographyRAGSystem.init, GeographyRAGSystem._initialize_components,
    GeographyRAGSystem._create_qa_chain, call_ret, call, try_except, bind,
    on_self, io, get, modify, ret, print, new_embeddings, new_chat_groq,
    new_retrieval_qa, faiss_load_local, path_exists, emit, modify,
    of_result, bind, get.
  simpl. rewrite Hemb. simpl.
  assert (Hg : forall (evs : list event) (l : list event),
            Forall no_query_call evs ->
            l = log w ++ evs ->
            grows no_query_call w {| disk := disk w; log := l |}).
  { intros evs l Hev ->. exists evs. split; [reflexivity | exact Hev]. }
  destruct (ChatGroq_new lib api_key "openai/gpt-oss-20b") as [model|e];
    simpl.
  2:{ do 2 eexists. split; [reflexivity|]. split; [reflexivity|]. split.
      - eapply Hg; [|rewrite <- ?app_assoc; simpl; reflexivity].
        repeat constructor.
      - intros _. split; reflexivity. }
  destruct (bool_decide (is_Some (disk w !! "vector_store"))) eqn:Hex; simpl.
  2:{ do 2 eexists. split; [reflexivity|]. split; [reflexivity|]. split.
      - eapply Hg; [|rewrite <- ?app_assoc; simpl; reflexivity].
        repeat constructor.
      - intros _. split; reflexivity. }
  apply bool_decide_eq_true in Hex.
  destruct (FAISS_load_local lib "vector_store" emb (disk w)) as [vs|e]
    eqn:Hload; simpl.
  2:{ do 2 eexists. split; [reflexivity|]. split; [reflexivity|]. split.
      - eapply Hg; [|rewrite <- ?app_assoc; simpl; reflexivity].
        repeat constructor.
      - intros _. split; reflexivity. }
  assert (Hno : ~ (disk w !! "vector_store" = None
                   \/ (exists e, Ok vs = @Err FAISS e))).
  { intros [Hn|[e He]]; [|discriminate].
    rewrite Hn in Hex. destruct Hex as [x Hx]. discriminate. }
  destruct (RetrievalQA_from_chain_type lib model vs 4) as [chain|e]; simpl;
    do 2 eexists; (split; [reflexivity|]); (split; [reflexivity|]);
    (split;
     [eapply Hg; [|rewrite <- ?app_assoc; simpl; reflexivity];
      repeat constructor
     |intros H; destruct (Hno H)]).
Qed.

Lemma grows_log (P : event -> Prop) (w : World) (evs : list event) :
  Forall P evs ->
  grows P w {| disk := disk w; log := log w ++ evs |}.
Proof. intros H. exists evs. split; [reflexivity | exact H]. Qed.

(** One test query on a system without store and chain. *)
Lemma test_query_unready (i : nat) (query : string)
    (obj : GeographyRAGSystem.t) (w : World) :
  GeographyRAGSystem.vector_store obj = None ->
  GeographyRAGSystem.qa_chain obj = None ->
  test_query lib i query (obj, w)
  = (Returned true,
     (obj,
      {| disk := disk w;
         log := log w
                ++ [Stdout (nl +:+ "--- Test Query " +:+ pretty i +:+ " ---");
                    Stdout ("Question: " +:+ query);
                    Stdout "Retrieved 0 relevant documents";
                    Stdout "Generated answer (87 characters)";
                    Stdout
                      ("Answer preview: "
                       +:+ GeographyRAGSystem.not_initialized_message
                       +:+ "...")] |})).
Proof.
  intros Hvs Hc. unfold test_query.
  rewrite bind_eq, io_print_run, bind_eq, io_print_run. unfold try_except.
  rewrite bind_eq.
  assert (Hret : forall w0,
    GeographyRAGSystem.retrieve_relevant_documents lib query 4 (obj, w0)
    = (Returned [], (obj, w0))).
  { intros w0. unfold GeographyRAGSystem.retrieve_relevant_documents, bind,
      on_self, get.
    simpl. rewrite Hvs. destruct obj, w0. reflexivity. }
  rewrite Hret, bind_eq, io_print_run, bind_eq.
  rewrite (answer_question_without_chain lib query obj _ Hc).
  assert (Hlong :
    str_truthy GeographyRAGSystem.not_initialized_message
    && Nat.ltb 50 (String.length GeographyRAGSystem.not_initialized_message)
    = true) by reflexivity.
  rewrite Hlong, bind_eq, io_print_run, bind_eq, io_print_run.
  cbn [disk log]. rewrite <- !app_assoc. reflexivity.
Qed.

Lemma test_each_query_unready (queries : list string) (i : nat)
    (obj : GeographyRAGSystem.t) (w : World) :
  GeographyRAGSystem.vector_store obj = None ->
  GeographyRAGSystem.qa_chain obj = None ->
  exists evs,
    test_each_query lib i queries (obj, w)
    = (Returned true, (obj, {| disk := disk w; log := log w ++ evs |}))
    /\ Forall no_query_call evs
    /\ (queries <> [] -> In (Stdout "Generated answer (87 characters)") evs).
Proof.
  intros Hvs Hc. revert i w.
  induction queries as [|query queries IH]; intros i w.
  - exists []. rewrite app_nil_r. destruct w.
    split; [reflexivity|]. split; [constructor | congruence].
  - cbn [test_each_query]. rewrite bind_eq.
    rewrite (test_query_unready i query obj w Hvs Hc).
    match goal with
    | |- context [test_each_query lib (S i) queries (obj, ?w0)] =>
        destruct (IH (S i) w0) as [evs [Heq [Hev _]]]
    end.
    rewrite Heq. cbn [disk log]. eexists. rewrite <- app_assoc.
    split; [reflexivity|]. split.
    + apply Forall_app_2; [repeat constructor | exact Hev].
    + intros _. apply in_or_app. left. do 3 apply in_cons. left.
      reflexivity.
Qed.

(** [test_rag_system] on a disk without a loadable index. *)
Lemma test_rag_system_unready (w : World) (emb : Embeddings) :
  HuggingFaceEmbeddings lib "sentence-transformers/all-MiniLM-L6-v2" "cpu"
  = Ok emb ->
  disk w !! "vector_store" = None
  \/ (exists e, FAISS_load_local lib "vector_store" emb (disk w) = Err e) ->
  exists evs,
    test_rag_system lib api_key w
    = (Returned true, {| disk := disk w; log := log w ++ evs |})
    /\ Forall no_query_call evs
    /\ In (Stdout "Generated answer (87 characters)") evs
    /\ In (Stdout (nl +:+ "All RAG system tests passed!")) evs.
Proof.
  intros Hemb Hindex. unfold test_rag_system.
  rewrite bind_eq, print_run, bind_eq, print_run, bind_eq, print_run.
  unfold try_except. rewrite bind_eq.
  set (w1 := {| disk := _; log := _ |}).
  destruct (rag_init_run w1 emb Hemb)
    as [obj [w2 [Hinit [Hd [[evs2 [Hlog2 Hev2]] Hun]]]]].
  destruct (Hun Hindex) as [Hvs Hc].
  rewrite Hinit, bind_eq, print_run, bind_eq. unfold call_ret, call.
  destruct (test_each_query_unready test_queries 1 obj
              {| disk := disk w2; log := log w2 ++ [Stdout "RAG system initialized"] |}
              Hvs Hc) as [evs3 [Hrun [Hev3 H87]]].
  rewrite Hrun. cbn [fst snd]. rewrite bind_eq, print_run.
  cbn [disk log ret]. rewrite Hd, Hlog2. subst w1. cbn [disk log].
  eexists. split; [rewrite <- !app_assoc; cbn [app]; reflexivity|].
  split; [|split].
  - repeat (apply List.Forall_cons; [exact I|]).
    apply Forall_app_2; [exact Hev2|].
    apply List.Forall_cons; [exact I|].
    apply Forall_app_2; [exact Hev3|]. repeat constructor.
  - do 3 apply in_cons. apply in_or_app. right. apply in_cons.
    apply in_or_app. left. apply H87. discriminate.
  - do 3 apply in_cons. apply in_or_app. right. apply in_cons.
    apply in_or_app. right. left. reflexivity.
Qed.

Lemma print_topics_run (topics : list string) (i : nat) (w : World) :
  exists evs,
    print_topics i topics w
    = (Returned tt, {| disk := disk w; log := log w ++ evs |})
    /\ Forall no_query_call evs.
Proof.
  revert i w. induction topics as [|topic topics IH]; intros i w.
  - exists []. rewrite app_nil_r. destruct w. split; [reflexivity|constructor].
  - cbn [print_topics]. rewrite bind_eq, print_run.
    match goal with
    | |- context [print_topics (S i) topics ?w0] =>
        destruct (IH (S i) w0) as [evs [Heq Hev]]
    end.
    rewrite Heq. cbn [disk log]. eexists. rewrite <- app_assoc.
    split; [reflexivity|]. apply Forall_app_2; [repeat constructor|].
    exact Hev.
Qed.

(** [test_topic_suggestions] when the embedding model is built. *)
Lemma test_topic_suggestions_run (w : World) (emb : Embeddings) :
  HuggingFaceEmbeddings lib "sentence-transformers/all-MiniLM-L6-v2" "cpu"
  = Ok emb ->
  exists evs,
    test_topic_suggestions lib api_key w
    = (Returned true, {| disk := disk w; log := log w ++ evs |})
    /\ Forall no_query_call evs.
Proof.
  intros Hemb. unfold test_topic_suggestions.
  rewrite bind_eq, print_run, bind_eq, print_run, bind_eq, print_run.
  unfold try_except. rewrite bind_eq.
  set (w1 := {| disk := _; log := _ |}).
  destruct (rag_init_run w1 emb Hemb)
    as [obj [w2 [Hinit [Hd [[evs2 [Hlog2 Hev2]] _]]]]].
  rewrite Hinit, bind_eq. unfold call_ret, call.
  cbn [GeographyRAGSystem.get_topic_suggestions ret fst snd].
  rewrite bind_eq, print_run, bind_eq.
  match goal with
  | |- context [print_topics 1 ?topics ?w0] =>
      destruct (print_topics_run topics 1 w0) as [evs3 [Hrun Hev3]];
      rewrite Hrun
  end.
  cbn [disk log]. rewrite Hd, Hlog2. subst w1. cbn [disk log].
  eexists. split; [rewrite <- !app_assoc; cbn [app]; reflexivity|].
  repeat (apply List.Forall_cons; [exact I|]).
  apply Forall_app_2; [exact Hev2|].
  apply List.Forall_cons; [exact I|]. exact Hev3.
Qed.

(** X27: [test_rag_system] cannot tell a working system from one without
    an index: when the index is missing or fails to load, every query gets
    the not-initialized message, which is 87 characters long and so passes
    the check for a meaningful answer (more than 50 characters); the test
    returns [True] although no search and no completion was made. *)
Theorem test_rag_system_passes_without_index
    (w : World) (emb : Embeddings) :
  HuggingFaceEmbeddings lib "sentence-transformers/all-MiniLM-L6-v2" "cpu"
  = Ok emb ->
  disk w !! "vector_store" = None
  \/ (exists e, FAISS_load_local lib "vector_store" emb (disk w) = Err e) ->
  let run := test_rag_system lib api_key w in
  fst run = Returned true
  /\ exists evs,
       log (snd run) = log w ++ evs
       /\ Forall no_query_call evs
       /\ In (Stdout "Generated answer (87 characters)") evs
       /\ In (Stdout (nl +:+ "All RAG system tests passed!")) evs.
Proof.
  intros Hemb Hindex. cbv zeta.
  destruct (test_rag_system_unready w emb Hemb Hindex)
    as [evs [Hrun [Hev [H87 Hall]]]].
  rewrite Hrun. split; [reflexivity|]. exists evs. auto.
Qed.

(** X28: [test_topic_suggestions] passes exactly when the embedding model
    can be built: nothing else in the constructor can make it fail, and
    the topics are a constant list. *)
Theorem test_topic_suggestions_iff (w : World) :
  fst (test_topic_suggestions lib api_key w) = Returned true
  <-> exists emb,
        HuggingFaceEmbeddings lib
          "sentence-transformers/all-MiniLM-L6-v2" "cpu" = Ok emb.
Proof.
  split.
  - destruct (HuggingFaceEmbeddings lib _ _) as [emb|e] eqn:Hemb; [eauto|].
    unfold test_topic_suggestions.
    rewrite bind_eq, print_run, bind_eq, print_run, bind_eq, print_run.
    unfold try_except. rewrite bind_eq.
    unfold GeographyRAGSystem.init at 1. rewrite bind_eq.
    unfold new_embeddings at 1. rewrite bind_eq.
    unfold emit at 1, modify. cbn [fst snd]. unfold of_result at 1.
    rewrite Hemb. cbn [fst snd]. rewrite bind_eq, print_run. cbn [ret fst].
    discriminate.
  - intros [emb Hemb].
    destruct (test_topic_suggestions_run w emb Hemb) as [evs [-> _]].
    reflexivity.
Qed.

(** X29: with an index path on the disk whose index cannot be loaded, the
    whole suite passes: the document test is skipped because the path
    exists, the RAG test accepts the not-initialized message, the topics
    test needs only the constructor.  [main] ends without [sys.exit],
    having made no search and no completion call and having left the disk
    as it was. *)
Theorem suite_passes_with_unloadable_index
    (w : World) (emb : Embeddings) (e : PyException) :
  is_Some (disk w !! "vector_store") ->
  HuggingFaceEmbeddings lib "sentence-transformers/all-MiniLM-L6-v2" "cpu"
  = Ok emb ->
  FAISS_load_local lib "vector_store" emb (disk w) = Err e ->
  let run := main lib api_key w in
  fst run = Returned Finished
  /\ disk (snd run) = disk w
  /\ exists evs,
       log (snd run) = log w ++ evs
       /\ Forall no_query_call evs
       /\ In (Stdout "All tests passed successfully!") evs.
Proof.
  intros Hex Hemb Hload. cbv zeta.
  assert (Hmain : exists evs,
    main lib api_key w
    = (Returned Finished, {| disk := disk w; log := log w ++ evs |})
    /\ Forall no_query_call evs
    /\ In (Stdout "All tests passed successfully!") evs).
  { unfold main.
    rewrite bind_eq, print_run, bind_eq, print_run, bind_eq.
    unfold path_exists at 1. cbn [disk log].
    rewrite (bool_decide_eq_true_2 _ Hex). cbn [negb].
    rewrite bind_eq, bind_eq, print_run. cbn [ret negb]. rewrite bind_eq.
    match goal with
    | |- context [test_rag_system lib api_key ?w0] =>
        destruct (test_rag_system_unready w0 emb Hemb
                    (or_intror (ex_intro _ e Hload)))
          as [evs1 [Hrun1 [Hev1 _]]];
        rewrite Hrun1
    end.
    cbn [negb]. rewrite bind_eq.
    match goal with
    | |- context [test_topic_suggestions lib api_key ?w0] =>
        destruct (test_topic_suggestions_run w0 emb Hemb)
          as [evs2 [Hrun2 Hev2]];
        rewrite Hrun2
    end.
    cbn [negb]. repeat (rewrite bind_eq, print_run; cbn [disk log]).
    cbn [ret]. eexists. split; [rewrite <- !app_assoc; cbn [app]; reflexivity|].
    split.
    - repeat (apply List.Forall_cons; [exact I|]).
      apply Forall_app_2; [exact Hev1|].
      apply Forall_app_2; [exact Hev2|]. repeat constructor.
    - do 3 apply in_cons. apply in_or_app. right.
      apply in_or_app. right. apply in_cons. left. reflexivity. }
  destruct Hmain as [evs [-> [Hev Hin]]].
  split; [reflexivity|]. split; [reflexivity|]. exists evs. auto.
Qed.
End TestRuns.

Section TestDocumentRun.
Import TestSystem.
Variable lib : Collaborators.

(** X30: the document test does not look at what saving did.
    [save_vector_store] catches its own errors, so once the store has been
    built the test prints that the store was saved and returns [True]; when
    [save_local] raised, the error line and the success line are both on
    the console. *)
Theorem test_document_processing_ignores_save
    (w : World) (emb : Embeddings) (page : string) (pages : list string)
    (chunks : list string) (store : FAISS) :
  is_Some (disk w !! pdf_path) ->
  HuggingFaceEmbeddings lib "sentence-transformers/all-MiniLM-L6-v2" "cpu"
  = Ok emb ->
  PdfReader lib pdf_path (disk w) = Ok (map Ok (page :: pages)) ->
  split_text lib 1000 200 (joined (page :: pages) "") = Ok chunks ->
  FAISS_from_documents lib (map mkDocument chunks) emb = Ok store ->
  let run := test_document_processing lib w in
  let saved := FAISS_save_local lib store "vector_store" (disk w) in
  fst run = Returned true
  /\ disk (snd run) = snd saved
  /\ exists evs,
       log (snd run) = log w ++ evs
       /\ In (Stdout "Vector store saved successfully") evs
       /\ forall e,
            fst saved = Err e ->
            In (Stdout ("Error saving vector store: " +:+ exc_str e)) evs.
Proof.
  intros Hex Hemb Hpdf Hsplit Hstore. cbv zeta.
  set (text := joined (page :: pages) "") in *.
  set (self := {| DocumentProcessor.pdf_path := pdf_path;
                  DocumentProcessor.chunk_size := 1000;
                  DocumentProcessor.chunk_overlap := 200;
                  DocumentProcessor.embeddings := emb;
                  DocumentProcessor.vector_store := None |}).
  assert (Hrun : exists evs,
    test_document_processing lib w
    = (Returned true,
       {| disk := snd (FAISS_save_local lib store "vector_store" (disk w));
          log := log w ++ evs |})
    /\ In (Stdout "Vector store saved successfully") evs
    /\ forall e,
         fst (FAISS_save_local lib store "vector_store" (disk w)) = Err e ->
         In (Stdout ("Error saving vector store: " +:+ exc_str e)) evs).
  { unfold test_document_processing.
    rewrite bind_eq, print_run, bind_eq, print_run, bind_eq, print_run.
    unfold try_except. rewrite bind_eq.
    unfold path_exists at 1. cbn [disk log].
    rewrite (bool_decide_eq_true_2 _ Hex). cbn [negb].
    rewrite bind_eq, print_run, bind_eq.
    unfold DocumentProcessor.init at 1. rewrite bind_eq.
    unfold new_embeddings at 1. rewrite bind_eq.
    unfold emit at 1, modify. cbn [fst snd]. unfold of_result at 1.
    rewrite Hemb. cbn [ret disk log]. fold self.
    rewrite bind_eq. unfold process_with, call_ret, call.
    rewrite bind_eq, io_print_run, bind_eq.
    match goal with
    | |- context [DocumentProcessor.extract_text_from_pdf lib (self, ?w0)] =>
        rewrite (extract_succeeds lib self w0 (page :: pages) Hpdf)
    end.
    fold text. unfold text at 1. rewrite joined_truthy. fold text.
    rewrite bind_eq, io_print_run, bind_eq.
    unfold DocumentProcessor.split_text_into_chunks at 1.
    unfold bind at 1, on_self at 1, get at 1. cbn [fst snd].
    unfold bind at 1, io at 1, splitter_split_text at 1, bind at 1,
      emit at 1, modify at 1. cbn [fst snd self DocumentProcessor.chunk_size
      DocumentProcessor.chunk_overlap]. unfold of_result at 1.
    rewrite Hsplit. cbn [ret fst snd disk log].
    rewrite bind_eq, io_print_run, bind_eq.
    unfold DocumentProcessor.create_vector_store at 1, try_except.
    unfold bind at 1, on_self at 1, get at 1. cbn [fst snd].
    unfold bind at 1, io at 1, faiss_from_documents at 1, bind at 1,
      emit at 1, modify at 1.
    cbn [fst snd self DocumentProcessor.embeddings]. unfold of_result at 1.
    rewrite Hstore. cbn [ret fst snd disk log].
    rewrite bind_eq, io_print_run, bind_eq.
    unfold DocumentProcessor.save_vector_store at 1, try_except.
    unfold bind at 1, io at 1, faiss_save_local at 1. cbn [fst snd disk log].
    destruct (FAISS_save_local lib store "vector_store" (disk w))
      as [[u|e] d'] eqn:Hsave; cbn [of_result ret raise fst snd].
    - rewrite io_print_run, bind_eq, io_print_run. cbn [ret fst snd disk log].
      eexists. split; [rewrite <- !app_assoc; cbn [app]; reflexivity|].
      split; [|discriminate].
      do 7 apply in_cons. apply in_or_app. right. simpl. tauto.
    - rewrite io_print_run, bind_eq, io_print_run. cbn [ret fst snd disk log].
      eexists. split; [rewrite <- !app_assoc; cbn [app]; reflexivity|].
      split.
      + do 7 apply in_cons. apply in_or_app. right. simpl. tauto.
      + intros e' [= <-].
        do 7 apply in_cons. apply in_or_app. right. simpl. tauto. }
  destruct Hrun as [evs [-> [Hin Herr]]].
  split; [reflexivity|]. split; [reflexivity|]. exists evs. auto.
Qed.
End TestDocumentRun.

(** ** The further properties at sample inputs *)
Section FurtherInstances.
Import Sample Scenario.

Lemma extract_text_joins_pages_witness :
  fst (DocumentProcessor.extract_text_from_pdf working
         (processor, empty_world))
  = Returned ("Resources" +:+ nl +:+ "Agriculture" +:+ nl).
Proof.
  apply (proj1 (extract_text_joins_pages working processor empty_world
                  ["Resources"; "Agriculture"] eq_refl)).
Defined.

Lemma process_document_needs_a_page_witness :
  fst (DocumentProcessor.process_document no_pages true
         (processor, empty_world))
  = Returned None
  /\ exists evs,
       log (snd (snd (DocumentProcessor.process_document working true
                        (processor, empty_world))))
       = log empty_world ++ evs
       /\ In (CallSplitText 1000 200
                (joined ["Resources"; "Agriculture"] "")) evs.
Proof.
  split.
  - rewrite (proj1 (process_document_needs_a_page no_pages true processor
                      empty_world) eq_refl).
    reflexivity.
  - apply (proj2 (process_document_needs_a_page working true processor
                    empty_world) "Resources" ["Agriculture"] eq_refl).
Defined.

Lemma process_document_success_ignores_save_witness :
  let run := DocumentProcessor.process_document unsaved true
               (processor, empty_world) in
  let vs := mkFAISS [mkDocument (joined ["Resources"; "Agriculture"] "")] in
  fst run = Returned (Some vs)
  /\ fst (snd run) = DocumentProcessor.set_vector_store (Some vs) processor
  /\ disk (snd (snd run)) = disk empty_world.
Proof.
  apply (process_document_success_ignores_save unsaved true processor
           empty_world "Resources" ["Agriculture"]
           [joined ["Resources"; "Agriculture"] ""]
           (mkFAISS [mkDocument (joined ["Resources"; "Agriculture"] "")])
           eq_refl eq_refl eq_refl).
Defined.

Lemma process_document_splitter_error_propagates_witness :
  let run := DocumentProcessor.process_document no_splitter true
               (processor, empty_world) in
  fst run = Raised (mkException "bad separator")
  /\ fst (snd run) = processor
  /\ disk (snd (snd run)) = disk empty_world.
Proof.
  apply (process_document_splitter_error_propagates no_splitter true
           processor empty_world "Resources" ["Agriculture"]
           (mkException "bad separator") eq_refl eq_refl).
Defined.

Lemma retrieve_with_index_witness :
  GeographyRAGSystem.retrieve_relevant_documents failing "soil" 4
    (ready_system, indexed_world)
  = (Returned [],
     (ready_system,
      {| disk := disk indexed_world;
         log := [CallSimilaritySearch "soil" 4;
                 Stdout "Error retrieving documents: search failed"] |})).
Proof.
  apply (retrieve_with_index failing "soil" 4 ready_system indexed_world
           store eq_refl).
Defined.

Lemma init_ready_iff_witness :
  let run := GeographyRAGSystem.init working "your key" indexed_world in
  fst run = Returned ready_system
  /\ (fst (GeographyRAGSystem.is_ready (ready_system, snd run))
      = Returned true
      <-> exists model vs chain,
            ChatGroq_new working "your key" "openai/gpt-oss-20b" = Ok model
            /\ is_Some (disk indexed_world !! "vector_store")
            /\ FAISS_load_local working "vector_store"
                 (GeographyRAGSystem.embeddings ready_system)
                 (disk indexed_world) = Ok vs
            /\ RetrievalQA_from_chain_type working model vs 4 = Ok chain
            /\ GeographyRAGSystem.vector_store ready_system = Some vs
            /\ GeographyRAGSystem.llm ready_system = Some model
            /\ GeographyRAGSystem.qa_chain ready_system = Some chain).
Proof.
  split; [reflexivity|].
  apply (init_ready_iff working "your key" indexed_world
           (snd (GeographyRAGSystem.init working "your key" indexed_world))
           ready_system eq_refl).
Defined.

Lemma answer_question_one_chain_call_witness :
  snd (GeographyRAGSystem.answer_question failing "soil"
         (ready_system, indexed_world))
  = (ready_system,
     {| disk := disk indexed_world; log := [CallQAChain "soil"] |}).
Proof.
  apply (answer_question_one_chain_call failing "soil" ready_system
           indexed_world chain eq_refl).
Defined.

Lemma answer_question_missing_result_key_witness :
  fst (GeographyRAGSystem.answer_question keyless "soil"
         (ready_system, indexed_world))
  = Returned "Error generating answer: 'result'".
Proof.
  apply (answer_question_missing_result_key keyless "soil" ready_system
           indexed_world chain (mkChainResult None (Some []))
           eq_refl eq_refl eq_refl).
Defined.

Lemma display_chat_history_shows_last_five_witness :
  snd (snd (App.display_chat_history (session, empty_world)))
  = {| disk := disk empty_world;
       log := [StExpander "Q-3: What is soil?...";
               StMarkdown "**Question:** What is soil?";
               StMarkdown "**Answer:** About What is soil?"] |}.
Proof.
  rewrite (proj1 (display_chat_history_shows_last_five session empty_world
                    [("What is soil?", "About What is soil?")] eq_refl)).
  vm_compute. reflexivity.
Defined.

Lemma idle_execution_redraws_witness :
  App.run_script working idle (session, indexed_world)
  = (Returned tt,
     (session,
      {| disk := disk indexed_world;
         log := stats_view 1 true
                ++ history_view
                     [("What is soil?", "About What is soil?")] |})).
Proof.
  rewrite (idle_execution_redraws working idle session indexed_world
             ready_system eq_refl eq_refl eq_refl).
  reflexivity.
Defined.

Lemma question_appends_one_entry_witness :
  exists answer,
    fst (GeographyRAGSystem.answer_question working "What is a delta?"
           (ready_system, indexed_world))
    = Returned answer
    /\ App.chat_history
         (fst (snd (App.run_script working (ask "What is a delta?")
                      (session, indexed_world))))
       = Some [("What is soil?", "About What is soil?");
               ("What is a delta?", answer)].
Proof.
  destruct (question_appends_one_entry working (ask "What is a delta?")
              session indexed_world ready_system
              eq_refl eq_refl eq_refl eq_refl) as [answer [Hanswer Hrun]].
  exists answer. split; [exact Hanswer|].
  rewrite Hrun. reflexivity.
Defined.

Lemma setup_keeps_existing_index_witness :
  let run := App.setup_rag_system working (fresh_session, indexed_world) in
  App.vector_store_ready (fst (snd run)) = Some true
  /\ disk (snd (snd run)) = disk indexed_world
  /\ exists evs,
       log (snd (snd run)) = log indexed_world ++ evs
       /\ Forall no_build_call evs.
Proof.
  apply (setup_keeps_existing_index working fresh_session indexed_world).
  vm_compute. eexists. reflexivity.
Defined.

Lemma unloadable_index_reported_ready_witness :
  let run := App.setup_rag_system failing (fresh_session, indexed_world) in
  exists rag,
    fst run = Returned (Some rag)
    /\ App.vector_store_ready (fst (snd run)) = Some true
    /\ GeographyRAGSystem.vector_store rag = None
    /\ GeographyRAGSystem.qa_chain rag = None
    /\ fst (GeographyRAGSystem.is_ready (rag, snd (snd run)))
       = Returned false
    /\ forall question w2,
         GeographyRAGSystem.answer_question failing question (rag, w2)
         = (Returned GeographyRAGSystem.not_initialized_message, (rag, w2)).
Proof.
  apply (unloadable_index_reported_ready failing fresh_session indexed_world
           embeddings (mkException "no such index")).
  - vm_compute. eexists. reflexivity.
  - reflexivity.
  - reflexivity.
Defined.

Lemma failed_setup_stops_the_page_witness :
  App.run_script no_model (ask "What is soil?")
    (fresh_session, indexed_world)
  = (Returned tt,
     ({| App.rag_system := Some None;
         App.vector_store_ready := Some true;
         App.chat_history := Some [];
         App.current_question := None |},
      {| disk := disk indexed_world;
         log := [StSpinner "Initializing AI Tutor...";
                 CallHuggingFaceEmbeddings;
                 StError "Error setting up RAG system: no network";
                 StError
                   "Failed to initialize the AI tutor. Please check the setup."] |})).
Proof.
  rewrite (failed_setup_stops_the_page no_model (ask "What is soil?")
             fresh_session indexed_world (mkException "no network")
             eq_refl eq_refl).
  vm_compute. reflexivity.
Defined.

Lemma unasked_execution_is_quiet_witness :
  let st' := snd (App.run_script working clear (session, indexed_world)) in
  exists evs,
    log (snd st') = log indexed_world ++ evs
    /\ Forall no_query_call evs
    /\ (history (fst st') = history session
        \/ (App.clear_button clear = true /\ history (fst st') = [])).
Proof.
  apply (unasked_execution_is_quiet working clear session indexed_world).
  reflexivity.
Defined.

Lemma create_context_numbers_documents_witness :
  GeographyRAGSystem_v1.create_context []
  = GeographyRAGSystem_v1.no_information
  /\ GeographyRAGSystem_v1.create_context ["Alluvial soil"; "Black soil"]
     = GeographyRAGSystem_v1.context_header
       +:+ ("Reference 1:" +:+ nl +:+ "Alluvial soil" +:+ nl +:+ nl)
       +:+ ("Reference 2:" +:+ nl +:+ "Black soil" +:+ nl +:+ nl)
  /\ exists before after,
       GeographyRAGSystem_v1.create_context ["Alluvial soil"; "Black soil"]
       = before
         +:+ ("Reference " +:+ pretty 2 +:+ ":" +:+ nl
              +:+ "Black soil" +:+ nl +:+ nl)
         +:+ after.
Proof.
  split; [|split].
  - apply (proj1 (create_context_numbers_documents [])). reflexivity.
  - rewrite (proj1 (proj2 (create_context_numbers_documents
                             ["Alluvial soil"; "Black soil"]))).
    + vm_compute. reflexivity.
    + discriminate.
  - apply (proj2 (proj2 (create_context_numbers_documents
                           ["Alluvial soil"; "Black soil"]))
             1 "Black soil").
    reflexivity.
Defined.

Lemma answer_question_v1_without_index_witness :
  GeographyRAGSystem_v1.answer_question failing chat_down chat_stream
    "What is soil?" false (bare_system_v1, empty_world)
  = (Returned (GeographyRAGSystem_v1.Text GeographyRAGSystem_v1.apology),
     (bare_system_v1,
      {| disk := disk empty_world;
         log := [Stdout "Error generating response: rate limit"] |})).
Proof.
  rewrite (answer_question_v1_without_index failing chat_down chat_stream
             "What is soil?" bare_system_v1 empty_world eq_refl).
  reflexivity.
Defined.

Lemma streaming_response_items_witness :
  GeographyRAGSystem_v1.get_streaming_response chat_stream "What is soil?"
    GeographyRAGSystem_v1.no_information
  = ["Soil"; " is the upper layer"]
  /\ GeographyRAGSystem_v1.get_streaming_response chat_stream_broken
       "What is soil?" GeographyRAGSystem_v1.no_information
     = ["Soil"; "Error generating response: connection reset"]
  /\ GeographyRAGSystem_v1.get_streaming_response
       (fun _ _ _ => Err (mkException "rate limit"))
       "What is soil?" GeographyRAGSystem_v1.no_information
     = ["Error generating response: rate limit"].
Proof.
  split; [|split].
  - rewrite (proj1 (proj2 (streaming_response_items chat_stream
                             "What is soil?"
                             GeographyRAGSystem_v1.no_information))
               [Some "Soil"; None; Some ""; Some " is the upper layer"]
               eq_refl).
    reflexivity.
  - rewrite (proj1 (proj2 (proj2 (streaming_response_items
                                    chat_stream_broken "What is soil?"
                                    GeographyRAGSystem_v1.no_information)))
               [Some "Soil"] (mkException "connection reset")
               [Ok (Some " is the upper layer")] eq_refl).
    reflexivity.
  - apply (proj1 (streaming_response_items
                    (fun _ _ _ => Err (mkException "rate limit"))
                    "What is soil?" GeographyRAGSystem_v1.no_information)
             (mkException "rate limit")).
    reflexivity.
Defined.

Lemma init_v1_loads_index_witness :
  exists obj w',
    GeographyRAGSystem_v1.init working Groq_new "your key" "vector_store"
      empty_world
    = (Returned obj, w')
    /\ disk w' = disk empty_world
    /\ GeographyRAGSystem_v1.groq_client obj
       = GeographyRAGSystem_v1.mkGroqClient "your key"
    /\ GeographyRAGSystem_v1.vector_store_path obj = "vector_store"
    /\ (forall vs,
           GeographyRAGSystem_v1.vector_store obj = Some vs
           <-> is_Some (disk empty_world !! "vector_store")
               /\ FAISS_load_local working "vector_store" embeddings
                    (disk empty_world) = Ok vs)
    /\ (disk empty_world !! "vector_store" = None ->
        log w'
        = log empty_world
          ++ [CallHuggingFaceEmbeddings;
              Stdout
                "Vector store not found. Please process documents first."]).
Proof.
  apply (init_v1_loads_index working Groq_new "your key" "vector_store"
           empty_world (GeographyRAGSystem_v1.mkGroqClient "your key")
           embeddings eq_refl eq_refl).
Defined.

Lemma test_rag_system_passes_without_index_witness :
  let run := TestSystem.test_rag_system working "your key" empty_world in
  fst run = Returned true
  /\ exists evs,
       log (snd run) = log empty_world ++ evs
       /\ Forall no_query_call evs
       /\ In (Stdout "Generated answer (87 characters)") evs
       /\ In (Stdout (nl +:+ "All RAG system tests passed!")) evs.
Proof.
  apply (test_rag_system_passes_without_index working "your key" empty_world
           embeddings eq_refl).
  left. reflexivity.
Defined.

Lemma suite_passes_with_unloadable_index_witness :
  let run := TestSystem.main failing "your key" indexed_world in
  fst run = Returned TestSystem.Finished
  /\ disk (snd run) = disk indexed_world
  /\ exists evs,
       log (snd run) = log indexed_world ++ evs
       /\ Forall no_query_call evs
       /\ In (Stdout "All tests passed successfully!") evs.
Proof.
  apply (suite_passes_with_unloadable_index failing "your key" indexed_world
           embeddings (mkException "no such index")).
  - vm_compute. eexists. reflexivity.
  - reflexivity.
  - reflexivity.
Defined.

Lemma test_document_processing_ignores_save_witness :
  let run := TestSystem.test_document_processing unsaved pdf_world in
  fst run = Returned true
  /\ disk (snd run) = disk pdf_world
  /\ exists evs,
       log (snd run) = log pdf_world ++ evs
       /\ In (Stdout "Vector store saved successfully") evs
       /\ In (Stdout "Error saving vector store: disk full") evs.
Proof.
  destruct (test_document_processing_ignores_save unsaved pdf_world
              embeddings "Resources" ["Agriculture"]
              [joined ["Resources"; "Agriculture"] ""]
              (mkFAISS [mkDocument (joined ["Resources"; "Agriculture"] "")]))
    as [Hret [Hdisk [evs [Hlog [Hsaved Herr]]]]];
    try reflexivity.
  - vm_compute. eexists. reflexivity.
  - split; [exact Hret|]. split; [exact Hdisk|].
    exists evs. split; [exact Hlog|]. split; [exact Hsaved|].
    apply (Herr (mkException "disk full")). reflexivity.
Defined.
End FurtherInstances.
